(** * oscrypto._ffi: the cffi / ctypes compatibility shims

    A shallow embedding of [oscrypto/_ffi.py].  The module is one
    [try: ... except ImportError: ...] statement whose two arms define the
    same free functions over two foreign-call engines, followed by two
    exception classes.

    - [Py]      host-language values, exceptions and the state/error monad;
    - [Mem]     foreign memory: a flat little-endian byte heap;
    - [Boot]    the import-time engine selection;
    - [Cffi]    the [try] arm (declarative engine) over a model of the cffi
                primitives it calls;
    - [Ctypes]  the [except] arm (dynamic engine) over a model of the ctypes
                primitives it calls.

    The engines themselves are third-party libraries.  Their primitives are
    modelled here from their documented behaviour on a 64-bit little-endian
    target under Python 3 ([str_cls = str], [byte_cls = bytes]); every such
    definition says so in its comment.  The functions of [_ffi.py] are
    transcribed line by line on top of them. *)

From Stdlib Require Import ZArith NArith Lia List Ascii String DecimalString DecimalNat.
From Stdlib.Strings Require Import Byte.
From stdpp Require Import base gmap strings list.
Import ListNotations.
Open Scope string_scope.
Open Scope list_scope.
Abbreviation length := List.length.

#[global] Instance byte_eq_dec : EqDecision byte := Byte.byte_eq_dec.

(* ===================================================================== *)
(** ** Host-language basics *)
(* ===================================================================== *)

Module Py.

(** The exception classes that can surface.  [FFIEngineError] and
    [LibraryNotFoundError] are the two classes declared at the end of
    [_ffi.py]; [CDefError] is cffi's declaration error, [ArgumentError]
    is ctypes' argument-conversion error.  [MemoryFault] is not a Python
    exception: it stands for an access to foreign memory that was never
    allocated (undefined behaviour in the real process). *)
Inductive exn :=
| ImportError
| TypeError
| ValueError
| AttributeError
| IndexError
| RuntimeError
| OverflowError
| ArgumentError
| CDefError
| MemoryFault
| LibraryNotFoundError
| FFIEngineError.

#[global] Instance exn_eq_dec : EqDecision exn.
Proof. solve_decision. Defined.

Inductive outcome (A : Type) :=
| Ok (a : A)
| Raise (e : exn).
Arguments Ok {A} a.
Arguments Raise {A} e.

(** Computations that read and write a state [S] and may raise. *)
Definition M (S A : Type) : Type := S -> outcome (A * S).

Definition ret {S A} (a : A) : M S A := fun s => Ok (a, s).
Definition raise {S A} (e : exn) : M S A := fun _ => Raise e.
Definition bind {S A B} (m : M S A) (k : A -> M S B) : M S B :=
  fun s => match m s with
           | Ok (a, s') => k a s'
           | Raise e => Raise e
           end.
Definition get {S} : M S S := fun s => Ok (s, s).
Definition put {S} (s : S) : M S unit := fun _ => Ok (tt, s).

(** Lift a partial, state-free step; [e] is raised when it has no result. *)
Definition lift {S A} (e : exn) (o : option A) : M S A :=
  match o with Some a => ret a | None => raise e end.

(** The value a run produced, without the final state. *)
Definition result_of {S A} (o : outcome (A * S)) : outcome A :=
  match o with Ok (a, _) => Ok a | Raise e => Raise e end.

(** A step that does not touch the state. *)
Definition pure {S A} (o : outcome A) : M S A :=
  fun s => match o with Ok a => Ok (a, s) | Raise e => Raise e end.

(** [for x in xs: output.append(f(x))]. *)
Fixpoint for_each {S A B} (f : A -> M S B) (xs : list A) : M S (list B) :=
  match xs with
  | [] => ret []
  | x :: xs' => bind (f x) (fun y => bind (for_each f xs') (fun ys => ret (y :: ys)))
  end.

(** Host values.  [F] is the engine's type of foreign objects (cdata for
    cffi, ctypes instances for ctypes).  Text is a sequence of code
    points, a byte string a sequence of bytes. *)
#[local] Set Warnings "-register-all".
Inductive value (F : Type) :=
| VNone
| VInt (z : Z)
| VBool (b : bool)
| VBytes (bs : list byte)
| VStr (cps : list N)
| VList (vs : list (value F))
| VForeign (f : F).
Arguments VNone {F}.
Arguments VInt {F} z.
Arguments VBool {F} b.
Arguments VBytes {F} bs.
Arguments VStr {F} cps.
Arguments VList {F} vs.
Arguments VForeign {F} f.

(** The host classes that [native] is called with. *)
Inductive pytype := TyInt | TyBool | TyStr | TyBytes.

#[global] Instance pytype_eq_dec : EqDecision pytype.
Proof. solve_decision. Defined.

Definition str_cls : pytype := TyStr.
Definition byte_cls : pytype := TyBytes.

(** [isinstance(v, t)] for the host classes; [bool] is a subclass of
    [int], foreign objects are instances of none of them. *)
Definition isinstance {F} (v : value F) (t : pytype) : bool :=
  match v, t with
  | VInt _, TyInt => true
  | VBool _, TyInt => true
  | VBool _, TyBool => true
  | VStr _, TyStr => true
  | VBytes _, TyBytes => true
  | _, _ => false
  end.

(** Python slices on strings: [s[-k:]] and [s[:-k]] for [k > 0]. *)
Definition chars (s : string) : list ascii := list_ascii_of_string s.
Definition slice_last (k : nat) (s : string) : string :=
  string_of_list_ascii (drop (length (chars s) - k) (chars s)).
Definition slice_drop_last (k : nat) (s : string) : string :=
  string_of_list_ascii (take (length (chars s) - k) (chars s)).

(** lines 14 and 19: [bytes_to_list], the integers of a byte string. *)
Definition bytes_to_list (byte_string : list byte) : list Z :=
  (fun b => Z.of_N (Byte.to_N b)) <$> byte_string.

(** ['%s' % n] for a non-negative integer. *)
Definition str_of_nat (n : nat) : string := NilEmpty.string_of_uint (Nat.to_uint n).

End Py.
Export Py.

Notation "'let!' x ':=' m 'in' k" := (Py.bind m (fun x => k))
  (at level 10, x name, m at level 100, k at level 200).
Notation "'let!' ' pat ':=' m 'in' k" :=
  (Py.bind m (fun x => match x with pat => k end))
  (at level 10, pat pattern, m at level 100, k at level 200).

(* ===================================================================== *)
(** ** Foreign memory *)
(* ===================================================================== *)

Module Mem.

(** Foreign memory is one growing block of bytes.  Address [S i] is cell
    [i] of the list, so address [0] (the null pointer) is never a cell.
    Allocation appends zeroed cells; nothing is ever freed (the module
    relies on the host's object lifetimes). *)
Definition heap := list byte.

Definition zeros (n : nat) : list byte := replicate n x00.

Definition alloc (n : nat) (h : heap) : nat * heap :=
  (S (length h), h ++ zeros n).

(** Reading or writing no bytes touches nothing; otherwise the whole
    range must be allocated. *)
Definition load (a n : nat) (h : heap) : option (list byte) :=
  match n, a with
  | 0, _ => Some []
  | _, 0 => None
  | _, S i => if decide (i + n <= length h) then Some (take n (drop i h)) else None
  end.

Definition store (a : nat) (bs : list byte) (h : heap) : option heap :=
  match bs, a with
  | [], _ => Some h
  | _, 0 => None
  | _, S i =>
      if decide (i + length bs <= length h)
      then Some (take i h ++ bs ++ drop (i + length bs) h)
      else None
  end.

(** Little-endian integers. *)
Definition byte_of_N (v : N) : byte :=
  match Byte.of_N (v mod 256) with Some b => b | None => x00 end.

Fixpoint le_bytes (k : nat) (v : N) : list byte :=
  match k with
  | 0 => []
  | S k' => byte_of_N v :: le_bytes k' (v / 256)
  end.

Fixpoint le_value (bs : list byte) : N :=
  match bs with
  | [] => 0
  | b :: bs' => Byte.to_N b + 256 * le_value bs'
  end.

Definition ptr_size : nat := 8.

Definition encode_ptr (a : nat) : list byte := le_bytes ptr_size (N.of_nat a).
Definition decode_ptr (bs : list byte) : nat := N.to_nat (le_value bs).

(** An integer of [size] bytes, wrapped to its range. *)
Definition modulus (size : nat) : Z := 2 ^ (8 * Z.of_nat size).
Definition wrap (size : nat) (signed : bool) (z : Z) : Z :=
  let u := (z mod modulus size)%Z in
  if signed && (modulus size <=? 2 * u)%Z then (u - modulus size)%Z else u.
Definition encode_int (size : nat) (z : Z) : list byte :=
  le_bytes size (Z.to_N (z mod modulus size)).
Definition decode_int (signed : bool) (bs : list byte) : Z :=
  wrap (length bs) signed (Z.of_N (le_value bs)).

(** The address an integer denotes when it is used as a pointer. *)
Definition addr_of_int (z : Z) : nat := Z.to_nat (z mod modulus ptr_size).

(** The prefix of [bs] before its first zero unit, if there is one. *)
Fixpoint until_nul (bs : list byte) : option (list byte) :=
  match bs with
  | [] => None
  | b :: bs' => if Byte.eqb b x00 then Some [] else cons b <$> until_nul bs'
  end.

(** The null-terminated byte string at address [a]. *)
Definition c_string (a : nat) (h : heap) : option (list byte) :=
  match a with
  | 0 => None
  | S i => until_nul (drop i h)
  end.

(** Split into [w]-byte units, dropping an incomplete tail. *)
Fixpoint units (fuel w : nat) (bs : list byte) : list (list byte) :=
  match fuel with
  | 0 => []
  | S fuel' =>
      if decide (w <= length bs) then take w bs :: units fuel' w (drop w bs) else []
  end.

Fixpoint until_zero (us : list N) : option (list N) :=
  match us with
  | [] => None
  | u :: us' => if decide (u = 0%N) then Some [] else cons u <$> until_zero us'
  end.

Definition wchar_size : nat := 4.

(** The null-terminated wide string at address [a], as code points. *)
Definition c_wstring (a : nat) (h : heap) : option (list N) :=
  match a with
  | 0 => None
  | S i => until_zero (le_value <$> units (length h) wchar_size (drop i h))
  end.

End Mem.

(* ===================================================================== *)
(** ** Import-time engine selection *)
(* ===================================================================== *)

Module Boot.

Inductive engine := cffi | ctypes.

(** What the host process offers when the module is imported: the value of
    [sys.platform] and, for each import-time step that can fail, the
    exception it raises ([None] when the step succeeds). *)
Record host := {
  platform : string;
  import_cffi : option exn;      (* [from cffi import FFI] *)
  call_FFI : option exn;         (* [ffi = FFI()] *)
  import_ctypes : option exn;    (* [import ctypes], [from ctypes import ...] *)
  import_wintypes : option exn;  (* [from ctypes import wintypes] *)
}.

Definition step (o : option exn) : outcome unit :=
  match o with None => Ok tt | Some e => Raise e end.

(** Lines 22-144: the [try] body.  The [def]s cannot fail. *)
Definition try_body (h : host) : outcome engine :=
  match step (import_cffi h) with
  | Raise e => Raise e
  | Ok _ =>
      match step (call_FFI h) with
      | Raise e => Raise e
      | Ok _ => Ok cffi
      end
  end.

(** Lines 146-291: the handler.  Nothing here is guarded. *)
Definition except_body (h : host) : outcome engine :=
  match step (import_ctypes h) with
  | Raise e => Raise e
  | Ok _ =>
      if decide (platform h = "win32")
      then match step (import_wintypes h) with
           | Raise e => Raise e
           | Ok _ => Ok ctypes
           end
      else Ok ctypes
  end.

(** The module body: [except (ImportError)] catches that class only; the
    two [class] statements that follow cannot fail.  The result is the
    value bound to [engine], or the exception that leaves the import. *)
Definition bootstrap (h : host) : outcome engine :=
  match try_body h with
  | Ok e => Ok e
  | Raise ImportError => except_body h
  | Raise e => Raise e
  end.

Definition engine_name (e : engine) : string :=
  match e with cffi => "cffi" | ctypes => "ctypes" end.

End Boot.

(* ===================================================================== *)
(** ** States that contain foreign memory *)
(* ===================================================================== *)

Class HasHeap (S : Type) := {
  get_heap : S -> Mem.heap;
  set_heap : Mem.heap -> S -> S;
}.

#[global] Instance heap_HasHeap : HasHeap Mem.heap :=
  {| get_heap h := h; set_heap h _ := h |}.

Section MemoryOps.
Context {S : Type} `{HasHeap S}.

Definition malloc (n : nat) : M S nat :=
  fun s => let '(a, h) := Mem.alloc n (get_heap s) in Ok (a, set_heap h s).

Definition mload (a n : nat) : M S (list byte) :=
  fun s => match Mem.load a n (get_heap s) with
           | Some bs => Ok (bs, s)
           | None => Raise MemoryFault
           end.

Definition mstore (a : nat) (bs : list byte) : M S unit :=
  fun s => match Mem.store a bs (get_heap s) with
           | Some h => Ok (tt, set_heap h s)
           | None => Raise MemoryFault
           end.

Definition mload_ptr (a : nat) : M S nat :=
  let! bs := mload a Mem.ptr_size in ret (Mem.decode_ptr bs).

Definition mc_string (a : nat) : M S (list byte) :=
  fun s => match Mem.c_string a (get_heap s) with
           | Some bs => Ok (bs, s)
           | None => Raise MemoryFault
           end.

Definition mc_wstring (a : nat) : M S (list N) :=
  fun s => match Mem.c_wstring a (get_heap s) with
           | Some cps => Ok (cps, s)
           | None => Raise MemoryFault
           end.
End MemoryOps.

(* ===================================================================== *)
(** ** The declarative engine (cffi): lines 22-144 *)
(* ===================================================================== *)

Module Cffi.

(** *** C types and cdata objects *)

(** The C types the engine distinguishes.  [CInt] covers the integer
    types by width and signedness; [char] and [wchar_t] are kept apart
    because their items convert to byte strings and text.  [CArr t None]
    is the open array [t[]]; a struct carries the size of its declared
    layout, or [None] when it is opaque. *)
Inductive ctype :=
| CVoid
| CInt (size : nat) (signed : bool)
| CChar
| CWChar
| CPtr (t : ctype)
| CArr (t : ctype) (n : option nat)
| CStruct (name : string) (size : option nat).

#[global] Instance ctype_eq_dec : EqDecision ctype.
Proof. solve_decision. Defined.

Fixpoint sizeof_type (t : ctype) : option nat :=
  match t with
  | CVoid => None
  | CInt size _ => Some size
  | CChar => Some 1
  | CWChar => Some Mem.wchar_size
  | CPtr _ => Some Mem.ptr_size
  | CArr t' (Some n) => Nat.mul n <$> sizeof_type t'
  | CArr _ None => None
  | CStruct _ size => size
  end.

(** A cdata object: [CRef] is a pointer (holding the address it points
    to), an array or a struct (holding the address where it lives);
    [CNum] is a primitive cdata holding its own value. *)
Inductive cdata :=
| CRef (t : ctype) (a : nat)
| CNum (t : ctype) (z : Z).

Abbreviation val := (Py.value cdata).

(** An [FFI] instance is known by the declarations it was given: its
    typedefs and the sizes of its complete structs. *)
Record ffi_obj := FFI {
  typedefs : gmap string ctype;
  structs : gmap string nat;
}.

(** Handles of loaded libraries are compared by identity. *)
Definition library := nat.

(** The module's state: foreign memory and the [_ffi_registry] dict. *)
Record state := State {
  heap : Mem.heap;
  _ffi_registry : gmap library ffi_obj;
}.

#[global] Instance state_HasHeap : HasHeap state :=
  {| get_heap := heap; set_heap h s := State h (_ffi_registry s) |}.

(** *** Resolving a C declaration

    Model of the engine's declaration parser on the declarators this
    module writes: a base name (a built-in type, [struct N] or a typedef
    of the instance), then any number of [*], then any number of [[n]] or
    [[]] suffixes. *)

Definition builtins : gmap string ctype :=
  list_to_map [
    ("void", CVoid);
    ("char", CChar);
    ("signed char", CInt 1 true);
    ("unsigned char", CInt 1 false);
    ("short", CInt 2 true);
    ("unsigned short", CInt 2 false);
    ("int", CInt 4 true);
    ("unsigned int", CInt 4 false);
    ("long", CInt 8 true);
    ("unsigned long", CInt 8 false);
    ("size_t", CInt 8 false);
    ("wchar_t", CWChar)
  ].

Definition is_space (c : ascii) : bool := Ascii.eqb c " ".

Fixpoint trim_left (cs : list ascii) : list ascii :=
  match cs with
  | c :: cs' => if is_space c then trim_left cs' else cs
  | [] => []
  end.

Definition digit (c : ascii) : option nat :=
  let n := nat_of_ascii c in
  if (48 <=? n)%nat && (n <=? 57)%nat then Some (n - 48) else None.

Fixpoint decimal (acc : nat) (cs : list ascii) : option nat :=
  match cs with
  | [] => Some acc
  | c :: cs' => d ← digit c; decimal (10 * acc + d) cs'
  end.

(** The text between brackets: nothing for an open array, else a length. *)
Definition dim_of (cs : list ascii) : option (option nat) :=
  match cs with
  | [] => Some None
  | _ => Some <$> decimal 0 cs
  end.

(** [rs] is reversed text just after a []]: collect up to the [[]. *)
Fixpoint read_dim (rs acc : list ascii) : option (list ascii * list ascii) :=
  match rs with
  | [] => None
  | c :: rs' => if Ascii.eqb c "[" then Some (acc, rs') else read_dim rs' (c :: acc)
  end.

(** Strip the array suffixes off reversed text; the dimensions come out
    last suffix first. *)
Fixpoint split_dims (fuel : nat) (rs : list ascii)
  : option (list (option nat) * list ascii) :=
  match fuel with
  | 0 => None
  | S fuel' =>
      match trim_left rs with
      | c :: rs' =>
          if Ascii.eqb c "]"
          then '(inner, rest) ← read_dim rs' [];
               d ← dim_of inner;
               '(ds, base) ← split_dims fuel' rest;
               Some (d :: ds, base)
          else Some ([], c :: rs')
      | [] => Some ([], [])
      end
  end.

Definition struct_prefix : list ascii := chars "struct ".

Definition parse_base (ffi_obj : ffi_obj) (cs : list ascii) : option ctype :=
  let cs := trim_left cs in
  if bool_decide (take (length struct_prefix) cs = struct_prefix)
  then let name := string_of_list_ascii (trim_left (drop (length struct_prefix) cs)) in
       Some (CStruct name (structs ffi_obj !! name))
  else let name := string_of_list_ascii cs in
       match builtins !! name with
       | Some t => Some t
       | None => typedefs ffi_obj !! name
       end.

Fixpoint parse_ptr (ffi_obj : ffi_obj) (rs : list ascii) : option ctype :=
  match rs with
  | [] => None
  | c :: rs' =>
      if is_space c then parse_ptr ffi_obj rs'
      else if Ascii.eqb c "*" then CPtr <$> parse_ptr ffi_obj rs'
      else parse_base ffi_obj (rev rs)
  end.

(** Wrap the element type in its dimensions, innermost (last) first; an
    array needs an element type of known size. *)
Fixpoint build (ds : list (option nat)) (t : ctype) : option ctype :=
  match ds with
  | [] => Some t
  | d :: ds' =>
      match sizeof_type t with
      | Some _ => build ds' (CArr t d)
      | None => None
      end
  end.

Definition typeof (ffi_obj : ffi_obj) (cdecl : string) : option ctype :=
  let rs := rev (chars cdecl) in
  '(ds, base) ← split_dims (S (length rs)) rs;
  t ← parse_ptr ffi_obj base;
  build ds t.

(** *** The engine's primitives

    Each definition below models one operation of the cffi library as its
    documentation describes it. *)

(** [ffi.NULL]: the [void *] cdata with address 0. *)
Definition NULL : val := VForeign (CRef (CPtr CVoid) 0).

(** [v == ffi.NULL].  Pointer, array and struct cdata compare by address;
    a primitive cdata or a host value is never equal to a pointer. *)
Definition eq_NULL (v : val) : bool :=
  match v with
  | VForeign (CRef _ a) => bool_decide (a = 0)
  | _ => false
  end.

Definition char_like (t : ctype) : bool :=
  match t with
  | CChar | CInt 1 _ => true
  | _ => false
  end.

Definition in_range (size : nat) (signed : bool) (z : Z) : bool :=
  bool_decide (Mem.wrap size signed z = z).

(** Conversion of the item of type [t] stored at address [a] to a host
    value: integers become [int], a [char] a one-byte string, a [wchar_t]
    a one-character text; a pointer is read from memory; a struct or array
    item is a cdata that refers to the same memory. *)
Definition read_item (t : ctype) (a : nat) : M state val :=
  match t with
  | CVoid => raise TypeError
  | CInt size signed =>
      let! bs := mload a size in ret (VInt (Mem.decode_int signed bs))
  | CChar => let! bs := mload a 1 in ret (VBytes bs)
  | CWChar => let! bs := mload a Mem.wchar_size in ret (VStr [Mem.le_value bs])
  | CPtr _ => let! p := mload_ptr a in ret (VForeign (CRef t p))
  | CArr _ (Some _) => ret (VForeign (CRef t a))
  | CArr t' None => ret (VForeign (CRef (CPtr t') a))
  | CStruct _ (Some _) => ret (VForeign (CRef t a))
  | CStruct _ None => raise TypeError
  end.

Definition item_offset (t : ctype) (i : nat) : nat :=
  i * default 0 (sizeof_type t).

(** [v[i]].  A pointer cdata is not bounds-checked but refuses to be
    dereferenced when null (ownership is not tracked: the module indexes
    the pointers it allocates at 0 only); an array cdata is bounds-checked;
    other cdata cannot be indexed.  Byte strings, text and lists index as
    in Python 3. *)
Definition getitem (v : val) (i : nat) : M state val :=
  match v with
  | VForeign (CRef (CPtr t) a) =>
      if decide (a = 0) then raise RuntimeError
      else read_item t (a + item_offset t i)
  | VForeign (CRef (CArr t (Some n)) a) =>
      if decide (i < n) then read_item t (a + item_offset t i)
      else raise IndexError
  | VForeign _ => raise TypeError
  | VBytes bs =>
      match bs !! i with
      | Some b => ret (VInt (Z.of_N (Byte.to_N b)))
      | None => raise IndexError
      end
  | VStr cps =>
      match cps !! i with
      | Some c => ret (VStr [c])
      | None => raise IndexError
      end
  | VList vs =>
      match vs !! i with
      | Some v => ret v
      | None => raise IndexError
      end
  | _ => raise TypeError
  end.

(** Initialisation of the item of type [t] at address [a] from a host
    value.  (An initialiser that lists the fields of a struct or the items
    of a nested array needs the layout, which the model does not carry; it
    is refused.) *)
Definition write_item (t : ctype) (a : nat) (v : val) : M state unit :=
  match t, v with
  | CInt size signed, VInt z =>
      if in_range size signed z then mstore a (Mem.encode_int size z)
      else raise OverflowError
  | CInt size signed, VBool b => mstore a (Mem.encode_int size (Z.b2z b))
  | CChar, VBytes [b] => mstore a [b]
  | CWChar, VStr [c] => mstore a (Mem.le_bytes Mem.wchar_size c)
  | CPtr t1, VForeign (CRef (CPtr t2) p) =>
      if bool_decide (t1 = t2 \/ t1 = CVoid \/ t2 = CVoid)
      then mstore a (Mem.encode_ptr p)
      else raise TypeError
  | CPtr t1, VForeign (CRef (CArr t2 _) p) =>
      if bool_decide (t1 = t2 \/ t1 = CVoid)
      then mstore a (Mem.encode_ptr p)
      else raise TypeError
  | CStruct _ (Some size), VForeign (CRef t' p) =>
      if bool_decide (t' = t)
      then let! bs := mload p size in mstore a bs
      else raise TypeError
  | _, _ => raise TypeError
  end.

(** The length of a new open array and what is left to initialise it
    with: a list gives its length, a byte string or text its length plus
    the terminator, an integer is the length itself. *)
Definition open_length (init : val) : M state (nat * val) :=
  match init with
  | VList vs => ret (length vs, init)
  | VBytes bs => ret (S (length bs), init)
  | VStr cps => ret (S (length cps), init)
  | VInt z => if decide (z < 0)%Z then raise ValueError else ret (Z.to_nat z, VNone)
  | VBool b => ret (Nat.b2n b, VNone)
  | _ => raise TypeError
  end.

(** Consecutive items of type [t] from address [a] on. *)
Fixpoint write_items (t : ctype) (a : nat) (vs : list val) : M state unit :=
  match vs with
  | [] => ret tt
  | v :: vs' =>
      let! _ := write_item t a v in
      write_items t (a + default 0 (sizeof_type t)) vs'
  end.

Definition init_array (t : ctype) (len a : nat) (init : val) : M state unit :=
  match init with
  | VNone => ret tt
  | VList vs =>
      if decide (length vs <= len) then write_items t a vs else raise IndexError
  | VBytes bs =>
      if char_like t
      then if decide (length bs <= len) then mstore a bs else raise IndexError
      else raise TypeError
  | VStr cps =>
      if bool_decide (t = CWChar)
      then if decide (length cps <= len)
           then mstore a (concat (Mem.le_bytes Mem.wchar_size <$> cps))
           else raise IndexError
      else raise TypeError
  | _ => raise TypeError
  end.

(** [ffi_obj.new(cdecl, init)], where [init = None] means no initialiser.
    The declaration must be a pointer or an array.  For [T *] one zeroed
    [T] is allocated and a pointer to it returned; for an array the zeroed
    items are allocated and the array cdata returned. *)
Definition ffi_new (ffi_obj : ffi_obj) (cdecl : string) (init : val) : M state val :=
  match typeof ffi_obj cdecl with
  | None => raise CDefError
  | Some (CPtr t) =>
      match sizeof_type t with
      | None => raise TypeError
      | Some size =>
          let! a := malloc size in
          let! _ := match init with
                    | VNone => ret tt
                    | _ => write_item t a init
                    end in
          ret (VForeign (CRef (CPtr t) a))
      end
  | Some (CArr t n) =>
      let! '(len, init') := match n with
                            | Some k => ret (k, init)
                            | None => open_length init
                            end in
      let! a := malloc (len * default 0 (sizeof_type t)) in
      let! _ := init_array t len a init' in
      ret (VForeign (CRef (CArr t (Some len)) a))
  | Some _ => raise TypeError
  end.

(** [ffi_obj.new(cdecl, *params)]. *)
Definition ffi_new_args (ffi_obj : ffi_obj) (cdecl : string) (params : list val)
  : M state val :=
  match params with
  | [] => ffi_new ffi_obj cdecl VNone
  | [init] => ffi_new ffi_obj cdecl init
  | _ => raise TypeError
  end.

(** The address a value denotes when cast to a pointer. *)
Definition cast_source (v : val) : M state Z :=
  match v with
  | VForeign (CRef (CPtr _) a) | VForeign (CRef (CArr _ _) a) => ret (Z.of_nat a)
  | VForeign (CNum _ z) => ret z
  | VInt z => ret z
  | VBool b => ret (Z.b2z b)
  | _ => raise TypeError
  end.

(** [ffi_obj.cast(cdecl, v)]: the value reinterpreted at another type.
    Nothing is allocated.  The target is a pointer, an array of known
    length (a cdata of that array type at the given address) or a
    primitive type. *)
Definition ffi_cast (ffi_obj : ffi_obj) (cdecl : string) (v : val) : M state val :=
  match typeof ffi_obj cdecl with
  | None => raise CDefError
  | Some t =>
      match t with
      | CPtr _ | CArr _ (Some _) =>
          let! z := cast_source v in ret (VForeign (CRef t (Mem.addr_of_int z)))
      | CInt size signed =>
          let! z := cast_source v in ret (VForeign (CNum t (Mem.wrap size signed z)))
      | CChar =>
          let! z := cast_source v in ret (VForeign (CNum t (Mem.wrap 1 false z)))
      | CWChar =>
          let! z := cast_source v in
          ret (VForeign (CNum t (Mem.wrap Mem.wchar_size false z)))
      | _ => raise TypeError
      end
  end.

Definition text_to_string (cps : list N) : string :=
  string_of_list_ascii (ascii_of_N <$> cps).

(** [ffi_obj.sizeof(v)]: the size of a cdata's type, or of the type a
    text names. *)
Definition ffi_sizeof (ffi_obj : ffi_obj) (v : val) : M state nat :=
  match v with
  | VForeign (CRef t _) | VForeign (CNum t _) => lift TypeError (sizeof_type t)
  | VStr cps =>
      match typeof ffi_obj (text_to_string cps) with
      | None => raise CDefError
      | Some t => lift TypeError (sizeof_type t)
      end
  | _ => raise TypeError
  end.

(** The memory range of [ffi.buffer(v)] or [ffi.buffer(v, size)]: for a
    pointer the object pointed to, for an array the whole array, unless
    [size] overrides the length.  Anything else is refused. *)
Definition ffi_buffer (v : val) (size : option nat) : M state (nat * nat) :=
  match v with
  | VForeign (CRef (CPtr t) a) =>
      match size with
      | Some n => ret (a, n)
      | None => let! n := lift TypeError (sizeof_type t) in ret (a, n)
      end
  | VForeign (CRef (CArr t len) a) =>
      match size with
      | Some n => ret (a, n)
      | None => let! n := lift TypeError (sizeof_type (CArr t len)) in ret (a, n)
      end
  | _ => raise TypeError
  end.

(** [buf[:]] *)
Definition buffer_read (buf : nat * nat) : M state (list byte) :=
  mload (fst buf) (snd buf).

(** [buf[:] = bs]: the lengths must agree. *)
Definition buffer_write (buf : nat * nat) (bs : list byte) : M state unit :=
  if decide (length bs = snd buf) then mstore (fst buf) bs else raise ValueError.

(** [ffi.string(v)]: the null-terminated string a character pointer or
    array holds (an array's string ends with the array at the latest). *)
Definition ffi_string (v : val) : M state val :=
  match v with
  | VForeign (CRef (CPtr t) a) =>
      if decide (a = 0) then raise RuntimeError
      else if char_like t then let! bs := mc_string a in ret (VBytes bs)
      else if bool_decide (t = CWChar) then let! cps := mc_wstring a in ret (VStr cps)
      else raise TypeError
  | VForeign (CRef (CArr t (Some n)) a) =>
      if char_like t
      then let! bs := mload a n in ret (VBytes (default bs (Mem.until_nul bs)))
      else if bool_decide (t = CWChar)
      then let! bs := mload a (n * Mem.wchar_size) in
           let us := Mem.le_value <$> Mem.units n Mem.wchar_size bs in
           ret (VStr (default us (Mem.until_zero us)))
      else raise TypeError
  | VForeign (CNum CChar z) => ret (VBytes [Mem.byte_of_N (Z.to_N z)])
  | _ => raise TypeError
  end.

(** *** The functions of the [try] arm

    [host_call t v] stands for the call [t(v)] of a host class on a value;
    what the host's constructors compute is not this module's business,
    so it is a parameter. *)

Section Functions.
Variable host_call : pytype -> val -> outcome val.

(** line 28: [ffi = FFI()], an instance with no declarations. *)
Definition ffi : ffi_obj := FFI ∅ ∅.

(** lines 30-31 *)
Definition register_ffi (library : library) (ffi_obj : ffi_obj) : M state unit :=
  fun s => Ok (tt, State (heap s) (<[library := ffi_obj]> (_ffi_registry s))).

(** lines 33-36 *)
Definition _get_ffi (library : library) : M state ffi_obj :=
  let! s := get in
  match _ffi_registry s !! library with
  | Some ffi_obj => ret ffi_obj
  | None => ret ffi
  end.

(** lines 38-39 *)
Definition buffer_from_bytes (initializer : val) : M state val :=
  ffi_new ffi "unsigned char[]" initializer.

(** lines 41-42 *)
Definition buffer_from_unicode (initializer : val) : M state val :=
  ffi_new ffi "wchar_t []" initializer.

(** lines 44-45 *)
Definition buffer_pointer (buffer : val) : M state val :=
  ffi_new ffi "unsigned char *[]" (VList [buffer]).

(** lines 47-49 *)
Definition cast (library : library) (type_ : string) (value : val) : M state val :=
  let! ffi_obj := _get_ffi library in
  ffi_cast ffi_obj type_ value.

(** lines 51-53 *)
Definition sizeof (library : library) (value : val) : M state nat :=
  let! ffi_obj := _get_ffi library in
  ffi_sizeof ffi_obj value.

(** lines 55-58 *)
Definition bytes_from_buffer (buffer : val) (maxlen : option nat) : M state val :=
  match maxlen with
  | Some n =>
      let! buf := ffi_buffer buffer (Some n) in
      let! bs := buffer_read buf in ret (VBytes bs)
  | None =>
      let! buf := ffi_buffer buffer None in
      let! bs := buffer_read buf in ret (VBytes bs)
  end.

(** lines 60-61 *)
Definition byte_string_from_buffer (buffer : val) : M state val :=
  ffi_string buffer.

(** lines 63-64 *)
Definition byte_array (byte_string : val) : M state val :=
  ret byte_string.

(** lines 66-67 *)
Definition null : M state val := ret NULL.

(** lines 69-74 *)
Definition is_null (point : val) : M state bool :=
  if eq_NULL point then ret true
  else
    let! entry := getitem point 0 in
    if eq_NULL entry then ret true
    else ret false.

(** lines 79-87 *)
Definition new (library : library) (type_ : string) (value : val) : M state val :=
  let! ffi_obj := _get_ffi library in
  let params := [] in
  let params := match value with VNone => params | _ => params ++ [value] end in
  if bool_decide (type_ ∈ ["BCRYPT_KEY_HANDLE"; "BCRYPT_ALG_HANDLE"])
  then ffi_cast ffi_obj type_ (VInt 0)
  else ffi_new_args ffi_obj type_ params.

(** lines 89-94 *)
Definition native (type_ : pytype) (value : val) : M state val :=
  if decide (type_ = str_cls) then ffi_string value
  else if decide (type_ = byte_cls)
  then let! buf := ffi_buffer value None in
       let! bs := buffer_read buf in ret (VBytes bs)
  else pure (host_call type_ value).

(** lines 96-97 *)
Definition deref (point : val) : M state val := getitem point 0.

(** lines 99-100 *)
Definition unwrap (point : val) : M state val := getitem point 0.

(** lines 102-104 *)
Definition struct (library : library) (name : string) : M state val :=
  let! ffi_obj := _get_ffi library in
  ffi_new ffi_obj ("struct " +:+ name +:+ " *") VNone.

(** lines 106-107 *)
Definition struct_bytes (struct_ : val) : M state val :=
  let! buf := ffi_buffer struct_ None in
  let! bs := buffer_read buf in ret (VBytes bs).

(** lines 109-116 *)
Definition struct_from_buffer (library : library) (name : string) (buffer : val)
  : M state val :=
  let! ffi_obj := _get_ffi library in
  let! new_struct_pointer := ffi_new ffi_obj ("struct " +:+ name +:+ " *") VNone in
  let! new_struct := getitem new_struct_pointer 0 in
  let! struct_size := sizeof library new_struct in
  let! struct_buffer := ffi_buffer new_struct_pointer None in
  let! source := ffi_buffer buffer (Some struct_size) in
  let! bs := buffer_read source in
  let! _ := buffer_write struct_buffer bs in
  ret new_struct_pointer.

(** lines 126-134 *)
Definition string_types : gmap string bool :=
  list_to_map [
    ("LPSTR", true);
    ("LPCSTR", true);
    ("LPWSTR", true);
    ("LPCWSTR", true);
    ("char *", true);
    ("unsigned char *", true);
    ("wchar_t *", true)
  ].

(** lines 118-142 *)
Definition array_from_pointer (library : library) (name : string) (point : val)
    (size : nat) : M state (list val) :=
  let! ffi_obj := _get_ffi library in
  let! array := ffi_cast ffi_obj (name +:+ "[" +:+ str_of_nat size +:+ "]") point in
  let! total_bytes := ffi_sizeof ffi_obj array in
  if decide (total_bytes = 0) then ret []
  else
    let string_type := bool_decide (is_Some (string_types !! name)) in
    for_each
      (fun i =>
         let! value := getitem array i in
         if string_type then ffi_string value else ret value)
      (seq 0 size).

(** line 144 *)
Definition engine : Boot.engine := Boot.cffi.

End Functions.

End Cffi.

(* ===================================================================== *)
(** ** The dynamic engine (ctypes): lines 146-291 *)
(* ===================================================================== *)

Module Ctypes.

(** *** ctypes types and instances *)

(** The ctypes type objects in play: the simple types the module imports
    or maps ([c_ulong] is [wintypes.ULONG] and [wintypes.DWORD], four
    bytes wide where they exist), [POINTER(t)], the array types [t * n],
    and the [Structure] classes a library declares, known by their
    size. *)
Inductive ctype :=
| c_int
| c_uint
| c_size_t
| c_ulong
| c_char
| c_byte
| c_wchar
| c_void_p
| c_char_p
| c_wchar_p
| POINTER (t : ctype)
| ARRAY (t : ctype) (n : nat)
| Structure (name : string) (size : nat).

#[global] Instance ctype_eq_dec : EqDecision ctype.
Proof. solve_decision. Defined.

Fixpoint sizeof_type (t : ctype) : nat :=
  match t with
  | c_int | c_uint | c_ulong => 4
  | c_size_t => 8
  | c_char | c_byte => 1
  | c_wchar => Mem.wchar_size
  | c_void_p | c_char_p | c_wchar_p | POINTER _ => Mem.ptr_size
  | ARRAY t' n => n * sizeof_type t'
  | Structure _ size => size
  end.

(** The fundamental types, whose items convert to host values on access. *)
Definition is_simple (t : ctype) : bool :=
  match t with
  | POINTER _ | ARRAY _ _ | Structure _ _ => false
  | _ => true
  end.

(** What [ctypes.cast] accepts as its target. *)
Definition is_pointer_type (t : ctype) : bool :=
  match t with
  | POINTER _ | c_void_p | c_char_p | c_wchar_p => true
  | _ => false
  end.

(** A ctypes instance: its type and the address of the memory block that
    holds its value (a pointer instance's block holds an address). *)
Record cobj := CObj { ob_type : ctype; ob_addr : nat }.

Abbreviation val := (Py.value cobj).

(** A library handle is consulted only for the types set on it as
    attributes. *)
Definition library := gmap string ctype.

(** *** The engine's primitives

    Each definition below models one operation of the ctypes library as
    its documentation describes it. *)

(** [getattr(library, name)] *)
Definition getattr (library : library) (name : string) : outcome ctype :=
  match library !! name with
  | Some t => Ok t
  | None => Raise AttributeError
  end.

Definition wide (cps : list N) : list byte :=
  concat (Mem.le_bytes Mem.wchar_size <$> cps).

(** [bool(v)]: a pointer instance is true when it is not null, a simple
    instance when its memory is not all zero, an array when it has items,
    a structure always. *)
Definition truthy (v : val) : M Mem.heap bool :=
  match v with
  | VNone => ret false
  | VInt z => ret (negb (bool_decide (z = 0%Z)))
  | VBool b => ret b
  | VBytes bs => ret (negb (bool_decide (bs = [])))
  | VStr cps => ret (negb (bool_decide (cps = [])))
  | VList vs => ret (match vs with [] => false | _ => true end)
  | VForeign (CObj (POINTER _) a) =>
      let! p := mload_ptr a in ret (negb (bool_decide (p = 0)))
  | VForeign (CObj (ARRAY _ n) _) => ret (negb (bool_decide (n = 0)))
  | VForeign (CObj (Structure _ _) _) => ret true
  | VForeign (CObj t a) =>
      let! bs := mload a (sizeof_type t) in
      ret (negb (bool_decide (bs = Mem.zeros (sizeof_type t))))
  end.

(** Conversion of an argument declared [c_void_p]: [None] is the null
    pointer, an integer an address, an array its own address, a pointer
    instance the address it holds.  A byte string or text is passed by
    the address of its storage, which is materialised in foreign memory
    with its terminator.  Other instances are refused. *)
Definition as_voidp (v : val) : M Mem.heap nat :=
  match v with
  | VNone => ret 0
  | VInt z => ret (Mem.addr_of_int z)
  | VBool b => ret (Nat.b2n b)
  | VBytes bs =>
      let! a := malloc (S (length bs)) in
      let! _ := mstore a bs in ret a
  | VStr cps =>
      let! a := malloc (Mem.wchar_size * S (length cps)) in
      let! _ := mstore a (wide cps) in ret a
  | VList _ => raise ArgumentError
  | VForeign (CObj (ARRAY _ _) a) => ret a
  | VForeign (CObj t a) =>
      if is_pointer_type t then mload_ptr a else raise ArgumentError
  end.

(** [ctypes.cast(v, t)]: a new instance of the pointer type [t] holding
    the address [v] denotes. *)
Definition ctypes_cast (v : val) (t : ctype) : M Mem.heap val :=
  if is_pointer_type t
  then let! a := as_voidp v in
       let! p := malloc Mem.ptr_size in
       let! _ := mstore p (Mem.encode_ptr a) in
       ret (VForeign (CObj t p))
  else raise TypeError.

(** [ctypes.pointer(v)]: a new pointer instance to the instance [v]. *)
Definition pointer (v : val) : M Mem.heap val :=
  match v with
  | VForeign (CObj t a) =>
      let! p := malloc Mem.ptr_size in
      let! _ := mstore p (Mem.encode_ptr a) in
      ret (VForeign (CObj (POINTER t) p))
  | _ => raise TypeError
  end.

(** [t()]: a new zero-initialised instance. *)
Definition instantiate (t : ctype) : M Mem.heap val :=
  let! a := malloc (sizeof_type t) in ret (VForeign (CObj t a)).

(** [ctypes.sizeof(v)] and [ctypes.addressof(v)] of an instance. *)
Definition ctypes_sizeof (v : val) : M Mem.heap nat :=
  match v with
  | VForeign (CObj t _) => ret (sizeof_type t)
  | _ => raise TypeError
  end.

Definition addressof (v : val) : M Mem.heap val :=
  match v with
  | VForeign (CObj _ a) => ret (VInt (Z.of_nat a))
  | _ => raise TypeError
  end.

(** [ctypes.string_at(ptr, size)]; a [size] of [None] is not an integer. *)
Definition string_at (ptr : val) (size : option nat) : M Mem.heap val :=
  let! a := as_voidp ptr in
  match size with
  | None => raise ArgumentError
  | Some n => let! bs := mload a n in ret (VBytes bs)
  end.

(** [ctypes.memmove(dst, src, count)] *)
Definition memmove (dst src : val) (count : nat) : M Mem.heap unit :=
  let! d := as_voidp dst in
  let! s := as_voidp src in
  let! bs := mload s count in
  mstore d bs.

(** The host value of the simple item of type [t] stored at [a]. *)
Definition read_simple (t : ctype) (a : nat) : M Mem.heap val :=
  match t with
  | c_int => let! bs := mload a 4 in ret (VInt (Mem.decode_int true bs))
  | c_uint | c_ulong => let! bs := mload a 4 in ret (VInt (Mem.decode_int false bs))
  | c_size_t => let! bs := mload a 8 in ret (VInt (Mem.decode_int false bs))
  | c_byte => let! bs := mload a 1 in ret (VInt (Mem.decode_int true bs))
  | c_char => let! bs := mload a 1 in ret (VBytes bs)
  | c_wchar => let! bs := mload a Mem.wchar_size in ret (VStr [Mem.le_value bs])
  | c_void_p =>
      let! p := mload_ptr a in
      if decide (p = 0) then ret VNone else ret (VInt (Z.of_nat p))
  | c_char_p =>
      let! p := mload_ptr a in
      if decide (p = 0) then ret VNone
      else let! bs := mc_string p in ret (VBytes bs)
  | c_wchar_p =>
      let! p := mload_ptr a in
      if decide (p = 0) then ret VNone
      else let! cps := mc_wstring p in ret (VStr cps)
  | _ => raise TypeError
  end.

(** An item of type [t] at [a]: a simple item is converted to a host
    value, any other is an instance that shares the memory. *)
Definition item_at (t : ctype) (a : nat) : M Mem.heap val :=
  if is_simple t then read_simple t a else ret (VForeign (CObj t a)).

(** [v[i]] *)
Definition getitem (v : val) (i : nat) : M Mem.heap val :=
  match v with
  | VForeign (CObj (POINTER t) a) =>
      let! p := mload_ptr a in
      if decide (p = 0) then raise ValueError
      else item_at t (p + i * sizeof_type t)
  | VForeign (CObj (ARRAY t n) a) =>
      if decide (i < n) then item_at t (a + i * sizeof_type t)
      else raise IndexError
  | VForeign _ => raise TypeError
  | VBytes bs =>
      match bs !! i with
      | Some b => ret (VInt (Z.of_N (Byte.to_N b)))
      | None => raise IndexError
      end
  | VStr cps =>
      match cps !! i with
      | Some c => ret (VStr [c])
      | None => raise IndexError
      end
  | VList vs =>
      match vs !! i with
      | Some v => ret v
      | None => raise IndexError
      end
  | _ => raise TypeError
  end.

(** [v.contents]: the instance a pointer instance points to. *)
Definition contents (v : val) : M Mem.heap val :=
  match v with
  | VForeign (CObj (POINTER t) a) =>
      let! p := mload_ptr a in
      if decide (p = 0) then raise ValueError
      else ret (VForeign (CObj t p))
  | _ => raise AttributeError
  end.

(** [v.value]: of a simple instance, or of a character array (up to the
    first null). *)
Definition value_attr (v : val) : M Mem.heap val :=
  match v with
  | VForeign (CObj (ARRAY c_char n) a) =>
      let! bs := mload a n in ret (VBytes (default bs (Mem.until_nul bs)))
  | VForeign (CObj (ARRAY c_wchar n) a) =>
      let! bs := mload a (n * Mem.wchar_size) in
      let us := Mem.le_value <$> Mem.units n Mem.wchar_size bs in
      ret (VStr (default us (Mem.until_zero us)))
  | VForeign (CObj t a) =>
      if is_simple t then read_simple t a else raise AttributeError
  | _ => raise AttributeError
  end.

(** [v.raw]: all the bytes of a [c_char] array. *)
Definition raw_attr (v : val) : M Mem.heap (list byte) :=
  match v with
  | VForeign (CObj (ARRAY c_char n) a) => mload a n
  | _ => raise AttributeError
  end.

(** [ctypes.create_string_buffer(init)]: for a byte string, a [c_char]
    array one longer than it whose [value] is set to it; for an integer,
    a zeroed array of that length. *)
Definition create_string_buffer (init : val) : M Mem.heap val :=
  match init with
  | VBytes bs =>
      let size := length bs + 1 in
      let! buf := instantiate (ARRAY c_char size) in
      match buf with
      | VForeign (CObj _ a) => let! _ := mstore a bs in ret buf
      | _ => raise TypeError
      end
  | VInt z =>
      if decide (z < 0)%Z then raise ValueError
      else instantiate (ARRAY c_char (Z.to_nat z))
  | VBool b => instantiate (ARRAY c_char (Nat.b2n b))
  | _ => raise TypeError
  end.

(** [ctypes.create_unicode_buffer(init)]: for a text, a [c_wchar] array
    one longer than it whose [value] is set to it; for an integer, a
    zeroed array of that length. *)
Definition create_unicode_buffer (init : val) : M Mem.heap val :=
  match init with
  | VStr cps =>
      let size := length cps + 1 in
      let! buf := instantiate (ARRAY c_wchar size) in
      match buf with
      | VForeign (CObj _ a) => let! _ := mstore a (wide cps) in ret buf
      | _ => raise TypeError
      end
  | VInt z =>
      if decide (z < 0)%Z then raise ValueError
      else instantiate (ARRAY c_wchar (Z.to_nat z))
  | VBool b => instantiate (ARRAY c_wchar (Nat.b2n b))
  | _ => raise TypeError
  end.

(** [len(v)] and [list(v)] of a host sequence or a ctypes array. *)
Definition items_of (v : val) : M Mem.heap (list val) :=
  match v with
  | VBytes bs => ret (VInt <$> bytes_to_list bs)
  | VStr cps => ret ((fun c => VStr [c]) <$> cps)
  | VList vs => ret vs
  | VForeign (CObj (ARRAY _ n) _) => for_each (getitem v) (seq 0 n)
  | _ => raise TypeError
  end.

(** Storing a host value into a [c_byte] item: an integer, wrapped to one
    byte without a range check. *)
Definition set_c_byte (a : nat) (v : val) : M Mem.heap unit :=
  match v with
  | VInt z => mstore a (Mem.encode_int 1 z)
  | VBool b => mstore a (Mem.encode_int 1 (Z.b2z b))
  | _ => raise TypeError
  end.

Fixpoint set_c_bytes (a : nat) (vs : list val) : M Mem.heap unit :=
  match vs with
  | [] => ret tt
  | v :: vs' => let! _ := set_c_byte a v in set_c_bytes (S a) vs'
  end.

(** The call of the array type [ctypes.c_byte * n] on the unpacked
    [items]: a new array of [n] bytes initialised from at most [n]
    integers. *)
Definition c_byte_array (n : nat) (items : list val) : M Mem.heap val :=
  if decide (length items <= n)
  then let! buf := instantiate (ARRAY c_byte n) in
       match buf with
       | VForeign (CObj _ a) => let! _ := set_c_bytes a items in ret buf
       | _ => raise TypeError
       end
  else raise IndexError.

(** *** The definitions of the [except] arm

    [platform] is the value of [sys.platform]; [host_call t v] stands for
    the call [t(v)] of a host class on a value, [type_call t v] for the
    call [t(v)] of a ctypes type on an initial value. *)

Section Functions.
Variable platform : string.
Variable host_call : pytype -> val -> outcome val.
Variable type_call : ctype -> val -> M Mem.heap val.

(** lines 151-155 and 165-172 *)
Definition _pointer_types : gmap string bool :=
  let _pointer_types :=
    list_to_map [
      ("void *", true);
      ("wchar_t *", true);
      ("char *", true)
    ] in
  if decide (platform = "win32")
  then list_to_map [
         ("LPSTR", true);
         ("LPWSTR", true);
         ("LPCSTR", true);
         ("LPCWSTR", true)
       ] ∪ _pointer_types
  else _pointer_types.

(** lines 156-164 and 173-180 *)
Definition _type_map : gmap string ctype :=
  let _type_map :=
    list_to_map [
      ("void *", c_void_p);
      ("wchar_t *", c_wchar_p);
      ("char *", c_char_p);
      ("unsigned char *", c_char_p);
      ("int", c_int);
      ("unsigned int", c_uint);
      ("size_t", c_size_t)
    ] in
  if decide (platform = "win32")
  then list_to_map [
         ("LPSTR", c_char_p);
         ("LPWSTR", c_wchar_p);
         ("LPCSTR", c_char_p);
         ("LPCWSTR", c_wchar_p);
         ("ULONG", c_ulong);
         ("DWORD", c_ulong)
       ] ∪ _type_map
  else _type_map.

(** lines 190-193: the name in the built-in table, else as an attribute
    of the library. *)
Definition resolve (library : library) (type_ : string) : outcome ctype :=
  match _type_map !! type_ with
  | Some t => Ok t
  | None => getattr library type_
  end.

(** lines 182-198 *)
Definition _is_pointer_type (library : library) (type_ : string)
  : outcome (bool * ctype) :=
  let is_double_pointer := bool_decide (slice_last 3 type_ = " **") in
  let type_ := if is_double_pointer then slice_drop_last 1 type_ else type_ in
  let is_pointer :=
    bool_decide (slice_last 2 type_ = " *")
    && negb (bool_decide (is_Some (_pointer_types !! type_))) in
  let type_ := if is_pointer then slice_drop_last 2 type_ else type_ in
  match resolve library type_ with
  | Raise e => Raise e
  | Ok t =>
      let t := if is_double_pointer then POINTER t else t in
      Ok (is_pointer, t)
  end.

(** lines 203-204 *)
Definition buffer_from_bytes (initializer : val) : M Mem.heap val :=
  create_string_buffer initializer.

(** lines 206-207 *)
Definition buffer_from_unicode (initializer : val) : M Mem.heap val :=
  create_unicode_buffer initializer.

(** lines 209-210 *)
Definition buffer_pointer (buffer : val) : M Mem.heap val :=
  let! p := ctypes_cast buffer c_char_p in
  pointer p.

(** lines 213-216: the type [cast] hands to [ctypes.cast]. *)
Definition cast_type (library : library) (type_ : string) : outcome ctype :=
  match _is_pointer_type library type_ with
  | Raise e => Raise e
  | Ok (is_pointer, t) => Ok (if is_pointer then POINTER t else t)
  end.

(** lines 212-218 *)
Definition cast (library : library) (type_ : string) (value : val) : M Mem.heap val :=
  let! t := pure (cast_type library type_) in
  ctypes_cast value t.

(** lines 220-221 *)
Definition sizeof (library : library) (value : val) : M Mem.heap nat :=
  ctypes_sizeof value.

(** lines 223-228 *)
Definition bytes_from_buffer (buffer : val) (maxlen : option nat) : M Mem.heap val :=
  let is_int_or_c_char_p :=
    match buffer with
    | VInt _ | VBool _ | VForeign (CObj c_char_p _) => true
    | _ => false
    end in
  if is_int_or_c_char_p then string_at buffer maxlen
  else
    match maxlen with
    | Some n => let! raw := raw_attr buffer in ret (VBytes (take n raw))
    | None => let! raw := raw_attr buffer in ret (VBytes raw)
    end.

(** lines 230-231 *)
Definition byte_string_from_buffer (buffer : val) : M Mem.heap val :=
  value_attr buffer.

(** lines 236-237 *)
Definition null : M Mem.heap val := ret VNone.

(** lines 239-240 *)
Definition is_null (point : val) : M Mem.heap bool :=
  let! b := truthy point in ret (negb b).

(** lines 258-263 *)
Definition native (type_ : pytype) (value : val) : M Mem.heap val :=
  if isinstance value type_ then ret value
  else
    match value with
    | VForeign (CObj (ARRAY c_byte _length_) _) =>
        let! a := addressof value in
        string_at a (Some _length_)
    | _ =>
        let! v := value_attr value in
        pure (host_call type_ v)
    end.

(** lines 265-266 *)
Definition deref (point : val) : M Mem.heap val := getitem point 0.

(** lines 268-269 *)
Definition unwrap (point : val) : M Mem.heap val := contents point.

(** lines 271-272 *)
Definition struct (library : library) (name : string) : M Mem.heap val :=
  let! class_ := pure (getattr library name) in
  let! value := instantiate class_ in
  pointer value.

(** lines 274-275 *)
Definition struct_bytes (struct_ : val) : M Mem.heap val :=
  let! pointee := contents struct_ in
  let! size := ctypes_sizeof pointee in
  string_at struct_ (Some size).

(** lines 277-281 *)
Definition struct_from_buffer (library : library) (type_ : string) (buffer : val)
  : M Mem.heap val :=
  let! class_ := pure (getattr library type_) in
  let! value := instantiate class_ in
  let! a := addressof value in
  let! _ := memmove a buffer (sizeof_type class_) in
  pointer value.

(** lines 283-289 *)
Definition array_from_pointer (library : library) (type_ : string) (point : val)
    (size : nat) : M Mem.heap (list val) :=
  let! '(_, t) := pure (_is_pointer_type library type_) in
  let! array := ctypes_cast point (POINTER t) in
  for_each (fun i => getitem array i) (seq 0 size).

(** lines 200-201 *)
Definition register_ffi (library : library) (ffi_obj : val) : M Mem.heap unit :=
  ret tt.

(** lines 233-234 *)
Definition byte_array (byte_string : val) : M Mem.heap val :=
  let! items := items_of byte_string in
  c_byte_array (length items) items.

(** lines 245-256 *)
Definition new (library : library) (type_ : string) (value : val) : M Mem.heap val :=
  let params := [] in
  let params := match value with VNone => params | _ => params ++ [value] end in
  let! '(is_pointer, t) := pure (_is_pointer_type library type_) in
  let! output := match params with
                 | [] => instantiate t
                 | v :: _ => type_call t v
                 end in
  if is_pointer then pointer output else ret output.

(** line 291 *)
Definition engine : Boot.engine := Boot.ctypes.

End Functions.

End Ctypes.

(* ===================================================================== *)
(** ** Facts about foreign memory *)
(* ===================================================================== *)

Section MemoryFacts.
Implicit Types (h l bs : list byte) (a n : nat).

Lemma length_zeros n : length (Mem.zeros n) = n.
Proof. apply length_replicate. Qed.

Lemma load_length a n h bs : Mem.load a n h = Some bs -> length bs = n.
Proof.
  unfold Mem.load. destruct n as [|n]; [intros [= <-]; reflexivity|].
  destruct a as [|i]; [discriminate|].
  case_decide; [|discriminate]. intros [= <-].
  rewrite length_take, length_drop. lia.
Qed.

Lemma load_app a n h l bs : Mem.load a n h = Some bs -> Mem.load a n (h ++ l) = Some bs.
Proof.
  unfold Mem.load. destruct n as [|n]; [done|].
  destruct a as [|i]; [done|].
  case_decide; [|discriminate]. intros [= <-].
  rewrite decide_True by (rewrite length_app; lia).
  f_equal. rewrite drop_app_le by lia. rewrite take_app_le; [done|].
  rewrite length_drop. lia.
Qed.

Lemma load_fresh h l n : n <= length l -> Mem.load (S (length h)) n (h ++ l) = Some (take n l).
Proof.
  intros Hn. unfold Mem.load. destruct n as [|n]; [by rewrite take_0|].
  rewrite decide_True by (rewrite length_app; lia).
  by rewrite drop_app_length.
Qed.

Lemma store_fresh h bs n :
  length bs <= n ->
  Mem.store (S (length h)) bs (h ++ Mem.zeros n) = Some (h ++ bs ++ Mem.zeros (n - length bs)).
Proof.
  intros Hn. unfold Mem.store. destruct bs as [|b bs].
  { cbn. by rewrite Nat.sub_0_r. }
  rewrite decide_True by (rewrite length_app, length_zeros; lia).
  rewrite take_app_length. do 2 f_equal.
  rewrite drop_app_add. unfold Mem.zeros. by rewrite drop_replicate.
Qed.

Lemma byte_of_N_to_N v : (v < 256)%N -> Byte.to_N (Mem.byte_of_N v) = v.
Proof.
  intros Hv. unfold Mem.byte_of_N. rewrite N.mod_small by done.
  destruct (Byte.of_N v) as [b|] eqn:E.
  - by apply Byte.to_of_N.
  - apply Byte.of_N_None_iff in E. lia.
Qed.

Lemma le_value_le_bytes k v : Mem.le_value (Mem.le_bytes k v) = (v mod 256 ^ N.of_nat k)%N.
Proof.
  revert v. induction k as [|k IH]; intros v.
  - cbn. symmetry. apply N.mod_1_r.
  - cbn [Mem.le_bytes Mem.le_value]. rewrite IH.
    unfold Mem.byte_of_N at 1.
    assert (Hb : Byte.to_N (Mem.byte_of_N (v mod 256)) = (v mod 256)%N).
    { apply byte_of_N_to_N. apply N.mod_lt. done. }
    unfold Mem.byte_of_N in Hb. rewrite N.Div0.mod_mod in Hb. rewrite Hb.
    rewrite Nat2N.inj_succ, N.pow_succ_r'.
    rewrite (N.Div0.mod_mul_r v 256 (256 ^ N.of_nat k)). lia.
Qed.

Lemma length_le_bytes k v : length (Mem.le_bytes k v) = k.
Proof. revert v. induction k; intros; cbn; [done|]. by rewrite IHk. Qed.

Lemma decode_encode_ptr a :
  (N.of_nat a < 2 ^ 64)%N -> Mem.decode_ptr (Mem.encode_ptr a) = a.
Proof.
  intros Ha. unfold Mem.decode_ptr, Mem.encode_ptr. rewrite le_value_le_bytes.
  change (256 ^ N.of_nat Mem.ptr_size)%N with (2 ^ 64)%N.
  rewrite N.mod_small by done. apply Nat2N.id.
Qed.

Lemma addr_of_int_nat a :
  (N.of_nat a < 2 ^ 64)%N -> Mem.addr_of_int (Z.of_nat a) = a.
Proof.
  intros Ha. unfold Mem.addr_of_int.
  change (Mem.modulus Mem.ptr_size) with (2 ^ 64)%Z.
  rewrite Z.mod_small by lia. apply Nat2Z.id.
Qed.

Lemma length_encode_ptr a : length (Mem.encode_ptr a) = Mem.ptr_size.
Proof. apply length_le_bytes. Qed.

Lemma store_fresh_exact h bs :
  Mem.store (S (length h)) bs (h ++ Mem.zeros (length bs)) = Some (h ++ bs).
Proof.
  rewrite store_fresh by done. rewrite Nat.sub_diag. cbn. by rewrite app_nil_r.
Qed.

Lemma load_fresh_exact h bs l :
  Mem.load (S (length h)) (length bs) (h ++ bs ++ l) = Some bs.
Proof.
  rewrite load_fresh by (rewrite length_app; lia). by rewrite take_app_length.
Qed.

Lemma load_ptr_fresh h l a :
  (N.of_nat a < 2 ^ 64)%N ->
  mload_ptr (S:=Mem.heap) (S (length h)) (h ++ Mem.encode_ptr a ++ l)
  = Ok (a, h ++ Mem.encode_ptr a ++ l).
Proof.
  intros Ha. unfold mload_ptr, bind, mload, ret. cbn -[Mem.load Mem.encode_ptr].
  rewrite <- (length_encode_ptr a) at 1. rewrite load_fresh_exact.
  by rewrite decode_encode_ptr.
Qed.
End MemoryFacts.

(* ===================================================================== *)
(** ** What the engines' allocators return *)
(* ===================================================================== *)

Lemma cffi_get_ffi (library : Cffi.library) (s : Cffi.state) :
  Cffi._get_ffi library s = Ok (default Cffi.ffi (Cffi._ffi_registry s !! library), s).
Proof.
  unfold Cffi._get_ffi, bind, get, ret.
  by destruct (Cffi._ffi_registry s !! library).
Qed.

Lemma cffi_buffer_from_bytes_spec (b : list byte) (s : Cffi.state) :
  Cffi.buffer_from_bytes (VBytes b) s =
    Ok (VForeign (Cffi.CRef (Cffi.CArr (Cffi.CInt 1 false) (Some (S (length b))))
                   (S (length (Cffi.heap s)))),
        Cffi.State (Cffi.heap s ++ b ++ [x00]) (Cffi._ffi_registry s)).
Proof.
  unfold Cffi.buffer_from_bytes, Cffi.ffi_new.
  change (Cffi.typeof Cffi.ffi "unsigned char[]")
    with (Some (Cffi.CArr (Cffi.CInt 1 false) None)).
  cbn -[Mem.store Mem.zeros].
  unfold bind, ret, malloc, mstore. cbn -[Mem.store Mem.zeros].
  rewrite decide_True by lia.
  cbn -[Mem.store Mem.zeros].
  rewrite Nat.mul_1_r.
  rewrite store_fresh by (cbn; lia).
  cbn -[Mem.zeros Nat.sub].
  replace (S (length b) - length b) with 1 by lia.
  reflexivity.
Qed.

Lemma ctypes_buffer_from_bytes_spec (b : list byte) (h : Mem.heap) :
  Ctypes.buffer_from_bytes (VBytes b) h =
    Ok (VForeign (Ctypes.CObj (Ctypes.ARRAY Ctypes.c_char (length b + 1)) (S (length h))),
        h ++ b ++ [x00]).
Proof.
  unfold Ctypes.buffer_from_bytes, Ctypes.create_string_buffer, Ctypes.instantiate.
  unfold bind, ret, malloc, mstore. cbn -[Mem.store Mem.zeros].
  rewrite Nat.mul_1_r.
  rewrite store_fresh by lia.
  replace (length b + 1 - length b) with 1 by lia.
  reflexivity.
Qed.

Lemma ctypes_pointer_spec (t : Ctypes.ctype) (a : nat) (h : Mem.heap) :
  Ctypes.pointer (VForeign (Ctypes.CObj t a)) h
  = Ok (VForeign (Ctypes.CObj (Ctypes.POINTER t) (S (length h))), h ++ Mem.encode_ptr a).
Proof.
  unfold Ctypes.pointer, bind, malloc, mstore, ret.
  cbn -[Mem.store Mem.zeros Mem.encode_ptr].
  rewrite <- (length_encode_ptr a). by rewrite store_fresh_exact.
Qed.

(* ===================================================================== *)
(** ** C1: buffer round trip *)
(* ===================================================================== *)

(** C1, as stated, fails: each engine ends the buffer it allocates for a
    byte string with a null terminator, and reading the buffer back without
    [maxlen] returns the terminator too.  For [b = b"\x01\x02"] both
    engines return [b"\x01\x02\x00"]. *)
Lemma C1_roundtrip_returns_terminator :
  let b := [x01; x02] in
  result_of ((let! buf := Cffi.buffer_from_bytes (VBytes b) in
              Cffi.bytes_from_buffer buf None) (Cffi.State [] ∅))
    = Ok (VBytes [x01; x02; x00])
  /\ result_of ((let! buf := Ctypes.buffer_from_bytes (VBytes b) in
                 Ctypes.bytes_from_buffer buf None) [])
    = Ok (VBytes [x01; x02; x00])
  /\ @VBytes Cffi.cdata [x01; x02; x00] <> VBytes b.
Proof. split; [|split]; [vm_compute; reflexivity ..|discriminate]. Qed.

(** C1 (amended): for every byte sequence [b], under either engine,
    [bytes_from_buffer(buffer_from_bytes(b))] with [maxlen] unspecified
    returns [b] followed by one zero byte, and with [maxlen = len(b)] it
    returns [b]. *)
Theorem C1_buffer_roundtrip (b : list byte) :
  (forall s : Cffi.state, exists buf s',
      Cffi.buffer_from_bytes (VBytes b) s = Ok (buf, s')
      /\ Cffi.bytes_from_buffer buf None s' = Ok (VBytes (b ++ [x00]), s')
      /\ Cffi.bytes_from_buffer buf (Some (length b)) s' = Ok (VBytes b, s'))
  /\ (forall h : Mem.heap, exists buf h',
      Ctypes.buffer_from_bytes (VBytes b) h = Ok (buf, h')
      /\ Ctypes.bytes_from_buffer buf None h' = Ok (VBytes (b ++ [x00]), h')
      /\ Ctypes.bytes_from_buffer buf (Some (length b)) h' = Ok (VBytes b, h')).
Proof.
  split.
  - intros s. eexists _, _. split; [apply cffi_buffer_from_bytes_spec|].
    split.
    + unfold Cffi.bytes_from_buffer, Cffi.ffi_buffer, Cffi.buffer_read.
      cbn -[Mem.load]. unfold bind, mload. cbn -[Mem.load].
      rewrite Nat.mul_1_r.
      rewrite (load_fresh _ (b ++ [x00])) by (rewrite length_app; cbn; lia).
      rewrite take_ge by (rewrite length_app; cbn; lia). reflexivity.
    + unfold Cffi.bytes_from_buffer, Cffi.ffi_buffer, Cffi.buffer_read.
      cbn -[Mem.load]. unfold bind, mload. cbn -[Mem.load].
      by rewrite load_fresh_exact.
  - intros h. eexists _, _. split; [apply ctypes_buffer_from_bytes_spec|].
    assert (Hl : Mem.load (S (length h)) (length b + 1) (h ++ b ++ [x00])
                 = Some (b ++ [x00])).
    { rewrite load_fresh by (rewrite length_app; cbn; lia).
      by rewrite take_ge by (rewrite length_app; cbn; lia). }
    split.
    + unfold Ctypes.bytes_from_buffer, Ctypes.raw_attr. unfold bind, mload.
      cbn -[Mem.load]. by rewrite Hl.
    + unfold Ctypes.bytes_from_buffer, Ctypes.raw_attr. unfold bind, mload.
      cbn -[Mem.load]. rewrite Hl. cbn. by rewrite take_app_length.
Qed.

(* ===================================================================== *)
(** ** C2: failure of both engines at import *)
(* ===================================================================== *)

(** Whatever leaves the import was raised by one of the host's own steps:
    the module body has no [raise] statement. *)
Lemma bootstrap_raises_only_host_errors (h : Boot.host) (e : exn) :
  Boot.bootstrap h = Raise e ->
  Some e ∈ [Boot.import_cffi h; Boot.call_FFI h; Boot.import_ctypes h;
            Boot.import_wintypes h].
Proof.
  unfold Boot.bootstrap, Boot.try_body, Boot.except_body, Boot.step.
  destruct h as [pf [c|] [f|] [t|] [w|]]; cbn;
    repeat match goal with
           | |- context [match ?x with ImportError => _ | _ => _ end] => destruct x
           | |- context [decide ?P] => destruct (decide P)
           end;
    intros [= <-]; set_solver.
Qed.

(** C2, as stated, fails: when neither [cffi] nor [ctypes] can be imported,
    what leaves the import is the [ImportError] of [import ctypes], not
    [FFIEngineError]. *)
Lemma C2_neither_engine_raises_ImportError :
  let h := {| Boot.platform := "linux";
              Boot.import_cffi := Some ImportError;
              Boot.call_FFI := None;
              Boot.import_ctypes := Some ImportError;
              Boot.import_wintypes := None |} in
  Boot.bootstrap h = Raise ImportError
  /\ Boot.bootstrap h <> Raise FFIEngineError.
Proof. split; [reflexivity|discriminate]. Qed.

(** C2 (amended): if [cffi] cannot be imported and the import of [ctypes]
    fails too, the exception raised by the [ctypes] import leaves the module
    import unchanged; the module itself raises nothing, so [FFIEngineError]
    (which it only declares) can leave the import only if a host step
    raised it. *)
Theorem C2_import_failure_propagates (h : Boot.host) (e : exn) :
  Boot.import_cffi h = Some ImportError ->
  Boot.import_ctypes h = Some e ->
  Boot.bootstrap h = Raise e
  /\ (forall e', Boot.bootstrap h = Raise e' ->
        Some e' ∈ [Boot.import_cffi h; Boot.call_FFI h; Boot.import_ctypes h;
                   Boot.import_wintypes h]).
Proof.
  intros Hc Ht. split; [|apply bootstrap_raises_only_host_errors].
  unfold Boot.bootstrap, Boot.try_body, Boot.except_body, Boot.step.
  by rewrite Hc, Ht.
Qed.

Lemma C2_import_failure_propagates_witness :
  let h := {| Boot.platform := "win32";
              Boot.import_cffi := Some ImportError;
              Boot.call_FFI := None;
              Boot.import_ctypes := Some ImportError;
              Boot.import_wintypes := None |} in
  Boot.bootstrap h = Raise ImportError.
Proof.
  intros h.
  exact (proj1 (C2_import_failure_propagates h ImportError eq_refl eq_refl)).
Defined.

(* ===================================================================== *)
(** ** C3: the null test *)
(* ===================================================================== *)

Lemma cffi_is_null_iff (s : Cffi.state) (t : Cffi.ctype) (a : nat) :
  Cffi.is_null (VForeign (Cffi.CRef t a)) s = Ok (true, s)
  <-> a = 0
      \/ ((exists t', t = Cffi.CPtr (Cffi.CPtr t')
                      \/ exists n, t = Cffi.CArr (Cffi.CPtr t') (Some (S n)))
          /\ Mem.decode_ptr <$> Mem.load a Mem.ptr_size (Cffi.heap s) = Some 0).
Proof.
  unfold Cffi.is_null. cbn [Cffi.eq_NULL].
  destruct (decide (a = 0)) as [->|Ha].
  { cbn. split; [by left|done]. }
  rewrite bool_decide_false by done.
  split.
  - intros H. right.
    destruct t as [| | | |t'|t' [[|n]|]|]; cbn in H; try discriminate.
    + rewrite decide_False in H by done. rewrite Nat.add_0_r in H.
      destruct t' as [| | | |t''|t'' [n|]|nm [sz|]]; cbn in H;
        unfold bind, mload_ptr, bind, mload, ret in H; cbn -[Mem.load] in H;
        repeat (match type of H with
                | context [Mem.load ?x ?y ?z] => destruct (Mem.load x y z) eqn:?
                | context [bool_decide ?P] => destruct (bool_decide_reflect P)
                end; cbn in H); try discriminate; try congruence.
      split; [eauto|]. cbn. congruence.
    + rewrite decide_True in H by lia. rewrite Nat.add_0_r in H.
      destruct t' as [| | | |t''|t'' [n'|]|nm [sz|]]; cbn in H;
        unfold bind, mload_ptr, bind, mload, ret in H; cbn -[Mem.load] in H;
        repeat (match type of H with
                | context [Mem.load ?x ?y ?z] => destruct (Mem.load x y z) eqn:?
                | context [bool_decide ?P] => destruct (bool_decide_reflect P)
                end; cbn in H); try discriminate; try congruence.
      split; [eauto|]. cbn. congruence.
  - intros [?|[[t' [->|[n ->]]] Hl]]; [done| |].
    + cbn. rewrite decide_False by done. rewrite Nat.add_0_r.
      unfold bind, mload_ptr, bind, mload, ret. cbn -[Mem.load].
      destruct (Mem.load a Mem.ptr_size (Cffi.heap s)) as [bs|]; [|discriminate].
      cbn in Hl. injection Hl as Hl. cbn. by rewrite Hl.
    + cbn. rewrite decide_True by lia. rewrite Nat.add_0_r.
      unfold bind, mload_ptr, bind, mload, ret. cbn -[Mem.load].
      destruct (Mem.load a Mem.ptr_size (Cffi.heap s)) as [bs|]; [|discriminate].
      cbn in Hl. injection Hl as Hl. cbn. by rewrite Hl.
Qed.

Lemma ctypes_is_null_iff (h : Mem.heap) (t : Ctypes.ctype) (a : nat) :
  Ctypes.is_null (VForeign (Ctypes.CObj (Ctypes.POINTER t) a)) h = Ok (true, h)
  <-> Mem.decode_ptr <$> Mem.load a Mem.ptr_size h = Some 0.
Proof.
  unfold Ctypes.is_null, Ctypes.truthy, bind, mload_ptr, bind, mload, ret.
  cbn -[Mem.load].
  destruct (Mem.load a Mem.ptr_size h) as [bs|]; cbn; [|done].
  case_bool_decide; cbn; split; intros Heq; congruence.
Qed.

Lemma cffi_is_null_null (s : Cffi.state) :
  (let! p := Cffi.null in Cffi.is_null p) s = Ok (true, s).
Proof. reflexivity. Qed.

Lemma ctypes_is_null_null (h : Mem.heap) :
  (let! p := Ctypes.null in Ctypes.is_null p) h = Ok (true, h).
Proof. reflexivity. Qed.

Lemma cffi_is_null_fresh_buffer (b : list byte) (s : Cffi.state) :
  exists s', (let! buf := Cffi.buffer_from_bytes (VBytes b) in Cffi.is_null buf) s
             = Ok (false, s').
Proof.
  eexists. unfold bind at 1. rewrite cffi_buffer_from_bytes_spec.
  unfold Cffi.is_null. cbn [Cffi.eq_NULL].
  rewrite bool_decide_false by lia.
  cbn -[Mem.load].
  rewrite decide_True by lia. rewrite Nat.add_0_r.
  unfold bind, mload, ret. cbn -[Mem.load].
  rewrite (load_fresh _ (b ++ [x00]) 1) by (rewrite length_app; cbn; lia).
  reflexivity.
Qed.

Lemma ctypes_is_null_fresh_buffer (b : list byte) (h : Mem.heap) :
  exists h', (let! buf := Ctypes.buffer_from_bytes (VBytes b) in Ctypes.is_null buf) h
             = Ok (false, h').
Proof.
  eexists. unfold bind at 1. rewrite ctypes_buffer_from_bytes_spec.
  unfold Ctypes.is_null, Ctypes.truthy, bind, ret.
  rewrite bool_decide_false by lia. reflexivity.
Qed.

Lemma cffi_is_null_buffer_pointer (b : list byte) (s : Cffi.state) :
  (N.of_nat (S (length (Cffi.heap s))) < 2 ^ 64)%N ->
  exists s',
    (let! buf := Cffi.buffer_from_bytes (VBytes b) in
     let! p := Cffi.buffer_pointer buf in
     Cffi.is_null p) s = Ok (false, s').
Proof.
  intros Hb. eexists. unfold bind at 1. rewrite cffi_buffer_from_bytes_spec.
  set (h1 := Cffi.heap s ++ b ++ [x00]).
  unfold bind at 1. unfold Cffi.buffer_pointer, Cffi.ffi_new.
  change (Cffi.typeof Cffi.ffi "unsigned char *[]")
    with (Some (Cffi.CArr (Cffi.CPtr (Cffi.CInt 1 false)) None)).
  cbn [Cffi.open_length length].
  unfold bind at 1. cbn [ret].
  unfold bind at 1. unfold malloc.
  cbn [Mem.alloc get_heap set_heap Cffi.state_HasHeap Cffi.heap Cffi._ffi_registry
       Cffi.sizeof_type default Nat.mul Nat.add].
  unfold bind at 1. unfold Cffi.init_array. rewrite decide_True by (cbn; lia).
  cbn [Cffi.write_items]. unfold bind at 1. unfold Cffi.write_item.
  rewrite bool_decide_true by (by left).
  unfold mstore. cbn [get_heap set_heap Cffi.state_HasHeap Cffi.heap Cffi._ffi_registry].
  change (Mem.zeros Mem.ptr_size)
    with (Mem.zeros (length (Mem.encode_ptr (S (length (Cffi.heap s)))))).
  rewrite store_fresh_exact. cbn [ret].
  unfold Cffi.is_null. cbn [Cffi.eq_NULL]. rewrite bool_decide_false by lia.
  unfold bind at 1. cbn [Cffi.getitem]. rewrite decide_True by lia.
  cbn [Cffi.item_offset Nat.mul]. rewrite Nat.add_0_r.
  cbn [Cffi.read_item]. unfold bind at 1.
  rewrite <- (app_nil_r (Mem.encode_ptr _)).
  pose proof (load_ptr_fresh h1 [] (S (length (Cffi.heap s))) Hb) as Hp.
  unfold mload_ptr, bind, mload, ret in *.
  cbn [get_heap heap_HasHeap Cffi.state_HasHeap Cffi.heap] in *.
  destruct (Mem.load (S (length h1)) Mem.ptr_size _) as [bs|]; [|discriminate].
  injection Hp as Hp. rewrite Hp. cbn [Cffi.eq_NULL].
  rewrite bool_decide_false by lia. reflexivity.
Qed.

Lemma ctypes_is_null_buffer_pointer (b : list byte) (h : Mem.heap) :
  (N.of_nat (length h + length b + 2) < 2 ^ 64)%N ->
  exists h',
    (let! buf := Ctypes.buffer_from_bytes (VBytes b) in
     let! p := Ctypes.buffer_pointer buf in
     Ctypes.is_null p) h = Ok (false, h').
Proof.
  intros Hb. eexists. unfold bind at 1. rewrite ctypes_buffer_from_bytes_spec.
  set (h1 := h ++ b ++ [x00]).
  unfold bind at 1. unfold Ctypes.buffer_pointer.
  unfold bind at 1. unfold Ctypes.ctypes_cast. cbn [Ctypes.is_pointer_type].
  unfold bind at 1. cbn [Ctypes.as_voidp ret].
  unfold bind at 1. unfold malloc. cbn [Mem.alloc get_heap set_heap heap_HasHeap].
  unfold bind at 1. unfold mstore. cbn [get_heap set_heap heap_HasHeap].
  change (Mem.zeros Mem.ptr_size) with (Mem.zeros (length (Mem.encode_ptr (S (length h))))).
  rewrite store_fresh_exact. cbn [ret].
  rewrite ctypes_pointer_spec.
  unfold Ctypes.is_null, Ctypes.truthy. unfold bind at 1. unfold bind at 1.
  rewrite <- (app_nil_r (Mem.encode_ptr (S (length h1)))).
  rewrite load_ptr_fresh.
  - cbn [ret]. rewrite bool_decide_false by lia. reflexivity.
  - unfold h1. rewrite !length_app. cbn [length]. lia.
Qed.

(** Stores keep the size of memory; so do the writes of an initialiser. *)
Lemma store_length (a : nat) (bs : list byte) (h h' : Mem.heap) :
  Mem.store a bs h = Some h' -> length h' = length h.
Proof.
  unfold Mem.store. destruct bs as [|b bs]; [by intros [= <-]|].
  destruct a as [|i]; [done|]. case_decide; [|done]. intros [= <-].
  rewrite length_app, length_take. cbn [app length] in *.
  rewrite length_app, length_drop. lia.
Qed.

Lemma cffi_mstore_length (a : nat) (bs : list byte) (s s' : Cffi.state) u :
  mstore a bs s = Ok (u, s') -> length (Cffi.heap s') = length (Cffi.heap s).
Proof.
  unfold mstore. cbn [get_heap set_heap Cffi.state_HasHeap].
  destruct (Mem.store a bs (Cffi.heap s)) as [h'|] eqn:E; [|done].
  intros [= <- <-]. cbn [Cffi.heap]. by eapply store_length.
Qed.

Lemma cffi_write_item_length (t : Cffi.ctype) (a : nat) (v : Cffi.val)
    (s s' : Cffi.state) u :
  Cffi.write_item t a v s = Ok (u, s') -> length (Cffi.heap s') = length (Cffi.heap s).
Proof.
  unfold Cffi.write_item. intros H.
  repeat (case_match; try discriminate; subst);
    try (by eapply cffi_mstore_length).
  unfold bind, mload in H.
  destruct (Mem.load _ _ _); [|discriminate]. by eapply cffi_mstore_length.
Qed.

Lemma cffi_write_items_length (t : Cffi.ctype) (vs : list Cffi.val) (a : nat)
    (s s' : Cffi.state) u :
  Cffi.write_items t a vs s = Ok (u, s') -> length (Cffi.heap s') = length (Cffi.heap s).
Proof.
  revert a s. induction vs as [|v vs IH]; intros a s; cbn [Cffi.write_items].
  - by intros [= <- <-].
  - unfold bind at 1.
    destruct (Cffi.write_item t a v s) as [[u1 s1]|] eqn:E; [|discriminate].
    intros H. apply IH in H. apply cffi_write_item_length in E. lia.
Qed.

Lemma cffi_init_array_length (t : Cffi.ctype) (len a : nat) (v : Cffi.val)
    (s s' : Cffi.state) u :
  Cffi.init_array t len a v s = Ok (u, s') -> length (Cffi.heap s') = length (Cffi.heap s).
Proof.
  unfold Cffi.init_array. intros H.
  repeat (case_match; try discriminate; subst);
    try (by eapply cffi_mstore_length);
    try (by eapply cffi_write_items_length).
  by injection H as <- <-.
Qed.

Lemma cffi_open_length_pure (init : Cffi.val) (s s1 : Cffi.state) r :
  Cffi.open_length init s = Ok (r, s1) -> s1 = s.
Proof.
  unfold Cffi.open_length. intros H.
  repeat (case_match; try discriminate; subst); by injection H.
Qed.

(** The buffer [buffer_from_bytes] returns, for any initialiser it
    accepts: an [unsigned char] array at the first fresh address, of the
    length the initialiser gives, all of it allocated. *)
Lemma cffi_buffer_from_bytes_shape (init buf : Cffi.val) (s s1 : Cffi.state) :
  Cffi.buffer_from_bytes init s = Ok (buf, s1) ->
  exists n init',
    Cffi.open_length init s = Ok ((n, init'), s)
    /\ buf = VForeign (Cffi.CRef (Cffi.CArr (Cffi.CInt 1 false) (Some n))
                         (S (length (Cffi.heap s))))
    /\ length (Cffi.heap s1) = length (Cffi.heap s) + n.
Proof.
  unfold Cffi.buffer_from_bytes, Cffi.ffi_new.
  change (Cffi.typeof Cffi.ffi "unsigned char[]")
    with (Some (Cffi.CArr (Cffi.CInt 1 false) None)).
  cbv beta iota. unfold bind at 1.
  destruct (Cffi.open_length init s) as [[[n init'] s0]|] eqn:E; [|discriminate].
  pose proof (cffi_open_length_pure _ _ _ _ E) as ->.
  unfold bind at 1. unfold malloc.
  cbn [Mem.alloc get_heap set_heap Cffi.state_HasHeap Cffi.heap Cffi._ffi_registry
       Cffi.sizeof_type default].
  unfold bind at 1.
  destruct (Cffi.init_array _ n _ init' _) as [[u s2]|] eqn:Ei; [|discriminate].
  apply cffi_init_array_length in Ei. cbn [Cffi.heap] in Ei.
  rewrite length_app, length_zeros in Ei. unfold id in Ei.
  intros [= <- <-]. exists n, init'. split; [done|]. split; [done|lia].
Qed.

Lemma cffi_is_null_any_buffer (init buf : Cffi.val) (s s1 : Cffi.state) :
  Cffi.buffer_from_bytes init s = Ok (buf, s1) ->
  exists n init',
    Cffi.open_length init s = Ok ((n, init'), s)
    /\ Cffi.is_null buf s1
       = (if decide (n = 0) then Raise IndexError else Ok (false, s1)).
Proof.
  intros H. apply cffi_buffer_from_bytes_shape in H as (n & init' & Ho & -> & Hl).
  exists n, init'. split; [done|].
  unfold Cffi.is_null. cbn [Cffi.eq_NULL]. rewrite bool_decide_false by lia.
  unfold bind at 1. cbn [Cffi.getitem].
  destruct n as [|n].
  - rewrite decide_False by lia. rewrite decide_True by done. reflexivity.
  - rewrite decide_True by lia. rewrite (decide_False (P := S n = 0)) by lia.
    unfold Cffi.item_offset. cbn [Nat.mul]. rewrite Nat.add_0_r.
    unfold Cffi.read_item, bind, mload, ret. cbn [get_heap Cffi.state_HasHeap].
    unfold Mem.load. rewrite decide_True by lia. reflexivity.
Qed.

Lemma ctypes_is_null_any_buffer (init buf : Ctypes.val) (h h1 : Mem.heap) :
  Ctypes.buffer_from_bytes init h = Ok (buf, h1) ->
  exists n,
    buf = VForeign (Ctypes.CObj (Ctypes.ARRAY Ctypes.c_char n) (S (length h)))
    /\ length h1 = length h + n
    /\ Ctypes.is_null buf h1 = Ok (bool_decide (n = 0), h1).
Proof.
  unfold Ctypes.buffer_from_bytes, Ctypes.create_string_buffer, Ctypes.instantiate.
  assert (Hn : forall n h2,
             Ctypes.is_null (VForeign (Ctypes.CObj (Ctypes.ARRAY Ctypes.c_char n)
                                         (S (length h)))) h2
             = Ok (bool_decide (n = 0), h2)).
  { intros n h2. unfold Ctypes.is_null, Ctypes.truthy, bind, ret.
    by rewrite negb_involutive. }
  destruct init as [|z|b|bs|cps|vs|o]; try discriminate.
  - case_decide; [discriminate|].
    unfold bind, malloc, ret. cbn [Mem.alloc get_heap set_heap heap_HasHeap Ctypes.sizeof_type].
    intros [= <- <-]. eexists. split; [done|]. split; [|apply Hn].
    rewrite length_app, length_zeros. lia.
  - unfold bind, malloc, ret. cbn [Mem.alloc get_heap set_heap heap_HasHeap Ctypes.sizeof_type].
    intros [= <- <-]. eexists. split; [done|]. split; [|apply Hn].
    rewrite length_app, length_zeros. lia.
  - unfold bind at 1. unfold bind at 1. unfold malloc, ret at 1.
    cbn [Mem.alloc get_heap set_heap heap_HasHeap Ctypes.sizeof_type].
    unfold bind at 1. unfold mstore. cbn [get_heap set_heap heap_HasHeap].
    rewrite Nat.mul_1_r. rewrite store_fresh by lia.
    intros [= <- <-]. eexists. split; [done|]. split; [|apply Hn].
    rewrite !length_app, length_zeros. lia.
Qed.

Lemma cffi_is_null_pointer_to_buffer (init buf : Cffi.val) (s s1 : Cffi.state) :
  Cffi.buffer_from_bytes init s = Ok (buf, s1) ->
  (N.of_nat (S (length (Cffi.heap s))) < 2 ^ 64)%N ->
  exists s',
    (let! p := Cffi.buffer_pointer buf in Cffi.is_null p) s1 = Ok (false, s').
Proof.
  intros H Hb. apply cffi_buffer_from_bytes_shape in H as (n & init' & _ & -> & _).
  eexists.
  unfold bind at 1. unfold Cffi.buffer_pointer, Cffi.ffi_new.
  change (Cffi.typeof Cffi.ffi "unsigned char *[]")
    with (Some (Cffi.CArr (Cffi.CPtr (Cffi.CInt 1 false)) None)).
  cbn [Cffi.open_length length].
  unfold bind at 1. cbn [ret].
  unfold bind at 1. unfold malloc.
  cbn [Mem.alloc get_heap set_heap Cffi.state_HasHeap Cffi.heap Cffi._ffi_registry
       Cffi.sizeof_type default Nat.mul Nat.add].
  unfold bind at 1. unfold Cffi.init_array. rewrite decide_True by (cbn; lia).
  cbn [Cffi.write_items]. unfold bind at 1. unfold Cffi.write_item.
  rewrite bool_decide_true by (by left).
  unfold mstore. cbn [get_heap set_heap Cffi.state_HasHeap Cffi.heap Cffi._ffi_registry].
  change (Mem.zeros Mem.ptr_size)
    with (Mem.zeros (length (Mem.encode_ptr (S (length (Cffi.heap s)))))).
  rewrite store_fresh_exact. cbn [ret].
  unfold Cffi.is_null. cbn [Cffi.eq_NULL]. rewrite bool_decide_false by lia.
  unfold bind at 1. cbn [Cffi.getitem]. rewrite decide_True by lia.
  cbn [Cffi.item_offset Nat.mul]. rewrite Nat.add_0_r.
  cbn [Cffi.read_item]. unfold bind at 1.
  rewrite <- (app_nil_r (Mem.encode_ptr _)).
  pose proof (load_ptr_fresh (Cffi.heap s1) [] (S (length (Cffi.heap s))) Hb) as Hp.
  unfold mload_ptr, bind, mload, ret in *.
  cbn [get_heap heap_HasHeap Cffi.state_HasHeap Cffi.heap] in *.
  destruct (Mem.load (S (length (Cffi.heap s1))) Mem.ptr_size _) as [bs|]; [|discriminate].
  injection Hp as Hp. rewrite Hp. cbn [Cffi.eq_NULL].
  rewrite bool_decide_false by lia. reflexivity.
Qed.

Lemma ctypes_is_null_pointer_to_buffer (init buf : Ctypes.val) (h h1 : Mem.heap) :
  Ctypes.buffer_from_bytes init h = Ok (buf, h1) ->
  (N.of_nat (S (length h1)) < 2 ^ 64)%N ->
  exists h',
    (let! p := Ctypes.buffer_pointer buf in Ctypes.is_null p) h1 = Ok (false, h').
Proof.
  intros H Hb. apply ctypes_is_null_any_buffer in H as (n & -> & _ & _).
  eexists.
  unfold bind at 1. unfold Ctypes.buffer_pointer.
  unfold bind at 1. unfold Ctypes.ctypes_cast. cbn [Ctypes.is_pointer_type].
  unfold bind at 1. cbn [Ctypes.as_voidp ret].
  unfold bind at 1. unfold malloc. cbn [Mem.alloc get_heap set_heap heap_HasHeap].
  unfold bind at 1. unfold mstore. cbn [get_heap set_heap heap_HasHeap].
  change (Mem.zeros Mem.ptr_size) with (Mem.zeros (length (Mem.encode_ptr (S (length h))))).
  rewrite store_fresh_exact. cbn [ret].
  rewrite ctypes_pointer_spec.
  unfold Ctypes.is_null, Ctypes.truthy. unfold bind at 1. unfold bind at 1.
  rewrite <- (app_nil_r (Mem.encode_ptr (S (length h1)))).
  rewrite load_ptr_fresh by done.
  cbn [ret]. rewrite bool_decide_false by lia. reflexivity.
Qed.

Lemma cffi_buffer_from_length (z : Z) (s : Cffi.state) :
  (0 <= z)%Z ->
  Cffi.buffer_from_bytes (VInt z) s
  = Ok (VForeign (Cffi.CRef (Cffi.CArr (Cffi.CInt 1 false) (Some (Z.to_nat z)))
                    (S (length (Cffi.heap s)))),
        Cffi.State (Cffi.heap s ++ Mem.zeros (Z.to_nat z)) (Cffi._ffi_registry s)).
Proof.
  intros Hz. unfold Cffi.buffer_from_bytes, Cffi.ffi_new.
  change (Cffi.typeof Cffi.ffi "unsigned char[]")
    with (Some (Cffi.CArr (Cffi.CInt 1 false) None)).
  unfold Cffi.open_length. rewrite decide_False by lia.
  unfold Cffi.init_array, bind, malloc, ret.
  cbn [Mem.alloc get_heap set_heap Cffi.state_HasHeap Cffi.heap Cffi._ffi_registry
       Cffi.sizeof_type default].
  unfold id. by rewrite Nat.mul_1_r.
Qed.

Lemma ctypes_buffer_from_length (z : Z) (h : Mem.heap) :
  (0 <= z)%Z ->
  Ctypes.buffer_from_bytes (VInt z) h
  = Ok (VForeign (Ctypes.CObj (Ctypes.ARRAY Ctypes.c_char (Z.to_nat z)) (S (length h))),
        h ++ Mem.zeros (Z.to_nat z)).
Proof.
  intros Hz. unfold Ctypes.buffer_from_bytes, Ctypes.create_string_buffer.
  rewrite decide_False by lia.
  unfold Ctypes.instantiate, bind, malloc, ret.
  cbn [Mem.alloc get_heap set_heap heap_HasHeap Ctypes.sizeof_type].
  by rewrite Nat.mul_1_r.
Qed.

Lemma cffi_is_null_sized_buffer (z : Z) (s : Cffi.state) :
  (0 <= z)%Z ->
  exists s',
    Cffi.buffer_from_bytes (VInt z) s = Ok (
      VForeign (Cffi.CRef (Cffi.CArr (Cffi.CInt 1 false) (Some (Z.to_nat z)))
                  (S (length (Cffi.heap s)))), s')
    /\ (let! buf := Cffi.buffer_from_bytes (VInt z) in Cffi.is_null buf) s
       = (if decide (z = 0)%Z then Raise IndexError else Ok (false, s')).
Proof.
  intros Hz. eexists. split; [by apply cffi_buffer_from_length|].
  unfold bind at 1.
  destruct (cffi_is_null_any_buffer _ _ _ _ (cffi_buffer_from_length z s Hz))
    as (n & init' & Ho & Hn).
  rewrite cffi_buffer_from_length by done. rewrite Hn.
  unfold Cffi.open_length in Ho. rewrite decide_False in Ho by lia.
  injection Ho as <- _.
  destruct (decide (z = 0%Z)) as [->|Hz0].
  - by rewrite decide_True by done.
  - by rewrite decide_False by lia.
Qed.

Lemma ctypes_is_null_sized_buffer (z : Z) (h : Mem.heap) :
  (0 <= z)%Z ->
  (let! buf := Ctypes.buffer_from_bytes (VInt z) in Ctypes.is_null buf) h
  = Ok (bool_decide (z = 0%Z), h ++ Mem.zeros (Z.to_nat z)).
Proof.
  intros Hz. unfold bind at 1. rewrite ctypes_buffer_from_length by done.
  unfold Ctypes.is_null, Ctypes.truthy, bind, ret. rewrite negb_involutive.
  do 2 f_equal. apply bool_decide_ext. lia.
Qed.

(** C3, as stated, fails under the dynamic engine.  [p] below is a pointer
    instance to a null [POINTER(c_int)]: it is not null, its first entry
    is, and [is_null(p)] is false.  The same shape under cffi (a fresh
    [int **]) is reported null. *)
Lemma C3_ctypes_ignores_null_entry :
  result_of
    ((let! inner := Ctypes.instantiate (Ctypes.POINTER Ctypes.c_int) in
      let! p := Ctypes.pointer inner in
      let! entry := Ctypes.deref p in
      let! entry_is_null := Ctypes.is_null entry in
      let! p_is_null := Ctypes.is_null p in
      ret (entry_is_null, p_is_null)) [])
  = Ok (true, false)
  /\ result_of
       ((let! p := Cffi.new 0 "int **" VNone in Cffi.is_null p) (Cffi.State [] ∅))
     = Ok true.
Proof. split; vm_compute; reflexivity. Qed.

(** C3 (amended): under cffi, for every pointer, array or struct cdata,
    [is_null] returns true exactly when its address is null or it is a
    pointer to (or a non-empty array of) pointers whose first entry is
    null; under ctypes, for every pointer instance, [is_null] returns true
    exactly when the instance itself is null, whatever it points to.  Under
    both engines [is_null(null())] is true.  [is_null] of a buffer that
    [buffer_from_bytes] has just allocated is false whenever the buffer
    has at least one byte: always for a byte-string initialiser (it gets a
    terminator), and for an integer length [n] when [n > 0]; for a buffer
    of no bytes ([buffer_from_bytes(0)]) cffi's [is_null] raises
    [IndexError] (its [point[0]] is out of range) and ctypes' returns true
    (an empty array is false).  This holds for every initialiser the
    engine accepts, by the length of the buffer it makes.  [is_null] of
    the pointer that [buffer_pointer] makes to any such buffer, empty or
    not, is false (while addresses fit a 64-bit pointer). *)
Theorem C3_is_null_contract :
  (forall (s : Cffi.state) (t : Cffi.ctype) (a : nat),
      Cffi.is_null (VForeign (Cffi.CRef t a)) s = Ok (true, s)
      <-> a = 0
          \/ ((exists t', t = Cffi.CPtr (Cffi.CPtr t')
                          \/ exists n, t = Cffi.CArr (Cffi.CPtr t') (Some (S n)))
              /\ Mem.decode_ptr <$> Mem.load a Mem.ptr_size (Cffi.heap s) = Some 0))
  /\ (forall (h : Mem.heap) (t : Ctypes.ctype) (a : nat),
      Ctypes.is_null (VForeign (Ctypes.CObj (Ctypes.POINTER t) a)) h = Ok (true, h)
      <-> Mem.decode_ptr <$> Mem.load a Mem.ptr_size h = Some 0)
  /\ (forall s : Cffi.state,
      (let! p := Cffi.null in Cffi.is_null p) s = Ok (true, s))
  /\ (forall h : Mem.heap,
      (let! p := Ctypes.null in Ctypes.is_null p) h = Ok (true, h))
  /\ (forall (b : list byte) (s : Cffi.state), exists s',
      (let! buf := Cffi.buffer_from_bytes (VBytes b) in Cffi.is_null buf) s
      = Ok (false, s'))
  /\ (forall (b : list byte) (h : Mem.heap), exists h',
      (let! buf := Ctypes.buffer_from_bytes (VBytes b) in Ctypes.is_null buf) h
      = Ok (false, h'))
  /\ (forall (b : list byte) (s : Cffi.state),
      (N.of_nat (S (length (Cffi.heap s))) < 2 ^ 64)%N ->
      exists s',
        (let! buf := Cffi.buffer_from_bytes (VBytes b) in
         let! p := Cffi.buffer_pointer buf in
         Cffi.is_null p) s = Ok (false, s'))
  /\ (forall (b : list byte) (h : Mem.heap),
      (N.of_nat (length h + length b + 2) < 2 ^ 64)%N ->
      exists h',
        (let! buf := Ctypes.buffer_from_bytes (VBytes b) in
         let! p := Ctypes.buffer_pointer buf in
         Ctypes.is_null p) h = Ok (false, h'))
  /\ (forall (z : Z) (s : Cffi.state),
      (0 <= z)%Z ->
      exists s',
        Cffi.buffer_from_bytes (VInt z) s = Ok (
          VForeign (Cffi.CRef (Cffi.CArr (Cffi.CInt 1 false) (Some (Z.to_nat z)))
                      (S (length (Cffi.heap s)))), s')
        /\ (let! buf := Cffi.buffer_from_bytes (VInt z) in Cffi.is_null buf) s
           = (if decide (z = 0)%Z then Raise IndexError else Ok (false, s')))
  /\ (forall (z : Z) (h : Mem.heap),
      (0 <= z)%Z ->
      (let! buf := Ctypes.buffer_from_bytes (VInt z) in Ctypes.is_null buf) h
      = Ok (bool_decide (z = 0%Z), h ++ Mem.zeros (Z.to_nat z)))
  /\ (forall (init buf : Cffi.val) (s s1 : Cffi.state),
      Cffi.buffer_from_bytes init s = Ok (buf, s1) ->
      exists n init',
        Cffi.open_length init s = Ok ((n, init'), s)
        /\ Cffi.is_null buf s1
           = (if decide (n = 0) then Raise IndexError else Ok (false, s1)))
  /\ (forall (init buf : Ctypes.val) (h h1 : Mem.heap),
      Ctypes.buffer_from_bytes init h = Ok (buf, h1) ->
      exists n,
        buf = VForeign (Ctypes.CObj (Ctypes.ARRAY Ctypes.c_char n) (S (length h)))
        /\ length h1 = length h + n
        /\ Ctypes.is_null buf h1 = Ok (bool_decide (n = 0), h1))
  /\ (forall (init buf : Cffi.val) (s s1 : Cffi.state),
      Cffi.buffer_from_bytes init s = Ok (buf, s1) ->
      (N.of_nat (S (length (Cffi.heap s))) < 2 ^ 64)%N ->
      exists s',
        (let! p := Cffi.buffer_pointer buf in Cffi.is_null p) s1 = Ok (false, s'))
  /\ (forall (init buf : Ctypes.val) (h h1 : Mem.heap),
      Ctypes.buffer_from_bytes init h = Ok (buf, h1) ->
      (N.of_nat (S (length h1)) < 2 ^ 64)%N ->
      exists h',
        (let! p := Ctypes.buffer_pointer buf in Ctypes.is_null p) h1 = Ok (false, h')).
Proof.
  repeat split.
  - apply cffi_is_null_iff.
  - apply cffi_is_null_iff.
  - apply ctypes_is_null_iff.
  - apply ctypes_is_null_iff.
  - apply cffi_is_null_fresh_buffer.
  - apply ctypes_is_null_fresh_buffer.
  - apply cffi_is_null_buffer_pointer.
  - apply ctypes_is_null_buffer_pointer.
  - apply cffi_is_null_sized_buffer.
  - apply ctypes_is_null_sized_buffer.
  - apply cffi_is_null_any_buffer.
  - apply ctypes_is_null_any_buffer.
  - apply cffi_is_null_pointer_to_buffer.
  - apply ctypes_is_null_pointer_to_buffer.
Qed.

Lemma C3_is_null_contract_witness :
  (exists s',
      (let! buf := Cffi.buffer_from_bytes (VBytes [x2a]) in
       let! p := Cffi.buffer_pointer buf in
       Cffi.is_null p) (Cffi.State [] ∅) = Ok (false, s'))
  /\ (exists h',
      (let! buf := Ctypes.buffer_from_bytes (VBytes [x2a]) in
       let! p := Ctypes.buffer_pointer buf in
       Ctypes.is_null p) [] = Ok (false, h'))
  /\ (let! buf := Cffi.buffer_from_bytes (VInt 0) in Cffi.is_null buf) (Cffi.State [x01] ∅)
     = Raise IndexError
  /\ (let! buf := Ctypes.buffer_from_bytes (VInt 2) in Ctypes.is_null buf) [x01]
     = Ok (false, [x01; x00; x00])
  /\ (exists s',
      (let! p := Cffi.buffer_pointer
                   (VForeign (Cffi.CRef (Cffi.CArr (Cffi.CInt 1 false) (Some 0)) 2)) in
       Cffi.is_null p) (Cffi.State [x01] ∅) = Ok (false, s'))
  /\ (exists h',
      (let! p := Ctypes.buffer_pointer
                   (VForeign (Ctypes.CObj (Ctypes.ARRAY Ctypes.c_char 0) 2)) in
       Ctypes.is_null p) [x01] = Ok (false, h')).
Proof.
  destruct C3_is_null_contract
    as (_ & _ & _ & _ & _ & _ & Hc & Hd & Hci & Hdi & _ & _ & Hcp & Hdp).
  split; [|split; [|split; [|split; [|split]]]].
  - apply (Hc [x2a] (Cffi.State [] ∅)). vm_compute; reflexivity.
  - apply (Hd [x2a] []). vm_compute; reflexivity.
  - destruct (Hci 0%Z (Cffi.State [x01] ∅)) as (s' & _ & Hn); [lia|]. exact Hn.
  - apply (Hdi 2%Z [x01]). lia.
  - apply (Hcp (VInt 0) _ (Cffi.State [x01] ∅) (Cffi.State [x01] ∅)).
    + vm_compute; reflexivity.
    + vm_compute; reflexivity.
  - apply (Hdp (VInt 0) _ [x01] [x01]).
    + vm_compute; reflexivity.
    + vm_compute; reflexivity.
Defined.

(* ===================================================================== *)
(** ** C4: arrays of no elements *)
(* ===================================================================== *)

Lemma chars_append (s1 s2 : string) : chars (s1 +:+ s2) = chars s1 ++ chars s2.
Proof.
  unfold chars. induction s1 as [|c s1 IH]; [done|].
  change (String c s1 +:+ s2) with (String c (s1 +:+ s2)).
  cbn. f_equal. exact IH.
Qed.

Lemma split_dims_mono (f f' : nat) (rs : list ascii) x :
  Cffi.split_dims f rs = Some x -> f <= f' -> Cffi.split_dims f' rs = Some x.
Proof.
  revert f' rs x. induction f as [|f IH]; intros f' rs x H Hle; [done|].
  destruct f' as [|f']; [lia|]. cbn in *.
  destruct (Cffi.trim_left rs) as [|c rs']; [done|].
  destruct (Ascii.eqb c "]"); [|done].
  destruct (Cffi.read_dim rs' []) as [[inner rest]|]; [|done]. cbn in *.
  destruct (Cffi.dim_of inner) as [d|]; [|done]. cbn in *.
  destruct (Cffi.split_dims f rest) as [[ds base]|] eqn:E; [|done].
  rewrite (IH f' rest _ E) by lia. done.
Qed.






(** The decimal text of a length, as [str_of_nat] writes it, is read back
    by the declaration parser. *)
Lemma decimal_step (c : ascii) (k : nat) (cs : list ascii) (acc : nat) :
  Cffi.digit c = Some k ->
  Cffi.decimal acc (c :: cs) = Cffi.decimal (10 * acc + k) cs.
Proof. intros H. cbn [Cffi.decimal]. by rewrite H. Qed.

Lemma decimal_of_uint (d : Decimal.uint) (acc : nat) :
  Cffi.decimal acc (chars (NilEmpty.string_of_uint d)) = Some (Nat.of_uint_acc d acc)
  /\ Forall (fun c => Ascii.eqb c "[" = false) (chars (NilEmpty.string_of_uint d)).
Proof.
  revert acc. induction d as [|d IH|d IH|d IH|d IH|d IH|d IH|d IH|d IH|d IH|d IH];
    intros acc.
  { split; [reflexivity|by apply Forall_nil]. }
  all: destruct (IH 0) as [_ Hf];
    (split; [|apply Forall_cons; split; [reflexivity|exact Hf]]);
    cbn [NilEmpty.string_of_uint chars list_ascii_of_string Nat.of_uint_acc];
    erewrite decimal_step by reflexivity;
    match goal with
    | |- Cffi.decimal ?a _ = Some (Nat.of_uint_acc _ ?b) =>
        replace a with b
          by (rewrite Nat.tail_mul_spec; set (k := nat_of_ascii _ - 48);
              vm_compute in k; subst k; lia)
    end;
    apply IH.
Qed.

Lemma decimal_str_of_nat (n : nat) :
  Cffi.decimal 0 (chars (str_of_nat n)) = Some n
  /\ Forall (fun c => Ascii.eqb c "[" = false) (chars (str_of_nat n))
  /\ chars (str_of_nat n) <> [].
Proof.
  unfold str_of_nat.
  destruct (decimal_of_uint (Nat.to_uint n) 0) as [Hd Hf].
  split; [|split; [done|]].
  - rewrite Hd. f_equal. apply Unsigned.of_to.
  - pose proof (Unsigned.of_to n) as Hn.
    destruct (Nat.to_uint n) eqn:E; try discriminate.
    cbn in Hn. subst n. discriminate E.
Qed.

Lemma read_dim_digits (ds r acc : list ascii) :
  Forall (fun c => Ascii.eqb c "[" = false) ds ->
  Cffi.read_dim (rev ds ++ "["%char :: r) acc = Some (ds ++ acc, r).
Proof.
  revert acc. induction ds as [|c ds IH] using rev_ind; intros acc Hf.
  - reflexivity.
  - apply Forall_app in Hf as [Hf Hc]. apply Forall_cons in Hc as [Hc _].
    rewrite rev_app_distr. cbn [rev app Cffi.read_dim]. cbv beta in Hc.
    rewrite Hc. rewrite IH by done. by rewrite <- app_assoc.
Qed.

Lemma split_dims_bracket (f : nat) (rs : list ascii) :
  Cffi.split_dims (S f) ("]"%char :: rs)
  = '(inner, rest) ← Cffi.read_dim rs [];
    d ← Cffi.dim_of inner;
    '(ds, base) ← Cffi.split_dims f rest;
    Some (d :: ds, base).
Proof. reflexivity. Qed.

Lemma dim_of_decimal (cs : list ascii) (n : nat) :
  cs <> [] -> Cffi.decimal 0 cs = Some n -> Cffi.dim_of cs = Some (Some n).
Proof. intros Hne Hd. unfold Cffi.dim_of. destruct cs; [done|]. by rewrite Hd. Qed.






Lemma is_pointer_type_plain (platform : string) (library : Ctypes.library) (b : string) :
  slice_last 3 b <> " **" ->
  slice_last 2 b <> " *" ->
  Ctypes._is_pointer_type platform library b
  = match Ctypes.resolve platform library b with
    | Ok t => Ok (false, t)
    | Raise e => Raise e
    end.
Proof.
  intros H3 H2. unfold Ctypes._is_pointer_type.
  rewrite (bool_decide_false _ H3), (bool_decide_false _ H2). done.
Qed.







(* ===================================================================== *)
(** ** C5: native values pass through *)
(* ===================================================================== *)

(** C5, as stated, fails under cffi, whose [native] has no instance test:
    a byte string asked for as [bytes] is handed to [ffi.buffer], and text
    asked for as [str] to [ffi.string]; both refuse anything but cdata. *)
Lemma C5_cffi_native_rejects_host_values :
  let host_call := fun (_ : pytype) (v : Cffi.val) => Ok v in
  isinstance (@VBytes Cffi.cdata [x01]) byte_cls = true
  /\ Cffi.native host_call byte_cls (VBytes [x01]) (Cffi.State [] ∅) = Raise TypeError
  /\ isinstance (@VStr Cffi.cdata [97%N]) str_cls = true
  /\ Cffi.native host_call str_cls (VStr [97%N]) (Cffi.State [] ∅) = Raise TypeError.
Proof. repeat split. Qed.

(** C5 (amended): under ctypes, for every target type and value that is
    already an instance of it, [native] returns the value unchanged.  Under
    cffi there is no pass-through: for such a value [native] raises
    [TypeError] when the target type is [str] or [bytes], and otherwise
    returns whatever the call [target_type(v)] returns. *)
Theorem C5_native_of_instance :
  (forall (host_call : pytype -> Ctypes.val -> outcome Ctypes.val)
          (type_ : pytype) (value : Ctypes.val) (h : Mem.heap),
      isinstance value type_ = true ->
      Ctypes.native host_call type_ value h = Ok (value, h))
  /\ (forall (host_call : pytype -> Cffi.val -> outcome Cffi.val)
             (type_ : pytype) (value : Cffi.val) (s : Cffi.state),
      isinstance value type_ = true ->
      Cffi.native host_call type_ value s
      = match type_ with
        | TyStr | TyBytes => Raise TypeError
        | _ => pure (host_call type_ value) s
        end).
Proof.
  split.
  - intros host_call type_ value h Hi. unfold Ctypes.native. by rewrite Hi.
  - intros host_call type_ value s Hi. unfold Cffi.native.
    destruct type_, value; try discriminate Hi; reflexivity.
Qed.

Lemma C5_native_of_instance_witness :
  Ctypes.native (fun _ v => Ok v) TyBytes (VBytes [x01]) [] = Ok (VBytes [x01], [])
  /\ Cffi.native (fun _ v => Ok v) TyInt (VInt 5) (Cffi.State [] ∅)
     = Ok (VInt 5, Cffi.State [] ∅).
Proof.
  split.
  - apply (proj1 C5_native_of_instance). reflexivity.
  - apply (proj2 C5_native_of_instance (fun _ v => Ok v) TyInt (VInt 5)). reflexivity.
Defined.

(* ===================================================================== *)
(** ** C6: a struct built from a buffer *)
(* ===================================================================== *)

(** C6: for every library, struct name the library knows and buffer whose
    length is the struct's size, [struct_from_buffer] returns a pointer to
    a newly allocated struct whose [struct_bytes] is the buffer's content.
    The struct is new: it occupies the bytes allocated by the call, right
    after the memory that existed, which is left as it was (the caller's
    buffer still holds its content).  Under cffi the pointer's address is
    that first fresh address.  Under ctypes the returned pointer instance
    is a further fresh cell that holds the struct's address, so that
    [unwrap] of it is the struct instance at the first fresh address; the
    new address must be representable in a pointer. *)
Theorem C6_struct_from_buffer_roundtrip :
  (forall (s : Cffi.state) (library : Cffi.library) (name sname : string)
          (size a : nat) (bs : list byte),
      let ffi_obj := default Cffi.ffi (Cffi._ffi_registry s !! library) in
      let buf := VForeign (Cffi.CRef (Cffi.CArr (Cffi.CInt 1 false) (Some size)) a) in
      let p := VForeign (Cffi.CRef (Cffi.CPtr (Cffi.CStruct sname (Some size)))
                           (S (length (Cffi.heap s)))) in
      Cffi.typeof ffi_obj ("struct " +:+ name +:+ " *")
        = Some (Cffi.CPtr (Cffi.CStruct sname (Some size))) ->
      Mem.load a size (Cffi.heap s) = Some bs ->
      exists s',
        Cffi.struct_from_buffer library name buf s = Ok (p, s')
        /\ s' = Cffi.State (Cffi.heap s ++ bs) (Cffi._ffi_registry s)
        /\ Cffi.struct_bytes p s' = Ok (VBytes bs, s'))
  /\ (forall (h : Mem.heap) (library : Ctypes.library) (name : string)
             (class_ : Ctypes.ctype) (a : nat) (bs : list byte),
      let size := Ctypes.sizeof_type class_ in
      let buf := VForeign (Ctypes.CObj (Ctypes.ARRAY Ctypes.c_char size) a) in
      library !! name = Some class_ ->
      Mem.load a size h = Some bs ->
      (N.of_nat (S (length h)) < 2 ^ 64)%N ->
      exists p h',
        Ctypes.struct_from_buffer library name buf h
          = Ok (VForeign (Ctypes.CObj (Ctypes.POINTER class_) p), h')
        /\ length h < p
        /\ Ctypes.struct_bytes (VForeign (Ctypes.CObj (Ctypes.POINTER class_) p)) h'
           = Ok (VBytes bs, h')
        /\ p = S (length h + size)
        /\ h' = h ++ bs ++ Mem.encode_ptr (S (length h))
        /\ Ctypes.unwrap (VForeign (Ctypes.CObj (Ctypes.POINTER class_) p)) h'
           = Ok (VForeign (Ctypes.CObj class_ (S (length h))), h')
        /\ Mem.load a size h' = Some bs).
Proof.
  split.
  - intros s library name sname size a bs ffi_obj buf p Hty Hload. subst buf p.
    pose proof (load_length _ _ _ _ Hload) as Hlen.
    exists (Cffi.State (Cffi.heap s ++ bs) (Cffi._ffi_registry s)).
    split; [|split; [done|]].
    + unfold Cffi.struct_from_buffer, Cffi.sizeof.
      unfold bind at 1. rewrite cffi_get_ffi. fold ffi_obj.
      unfold bind at 1. unfold Cffi.ffi_new. rewrite Hty.
      cbn -[Mem.load Mem.store Mem.zeros Cffi._get_ffi].
      unfold bind, malloc, ret. cbn -[Mem.load Mem.store Mem.zeros Cffi._get_ffi].
      rewrite decide_False by lia.
      rewrite cffi_get_ffi.
      unfold Cffi.buffer_read, Cffi.buffer_write, mload, mstore.
      cbn -[Mem.load Mem.store Mem.zeros].
      rewrite (load_app _ _ _ _ _ Hload).
      rewrite decide_True by done.
      cbn -[Mem.load Mem.store Mem.zeros].
      rewrite <- Hlen. by rewrite store_fresh_exact.
    + unfold Cffi.struct_bytes, Cffi.ffi_buffer, Cffi.buffer_read.
      cbn -[Mem.load]. unfold bind, mload, ret. cbn -[Mem.load].
      rewrite <- (app_nil_r bs) at 1.
      rewrite <- Hlen at 1. by rewrite load_fresh_exact.
  - intros h library name class_ a bs size buf Hlib Hload Hbound.
    pose proof (load_length _ _ _ _ Hload) as Hlen.
    assert (Hp : mload_ptr (S:=Mem.heap) (S (length (h ++ bs)))
                   ((h ++ bs) ++ Mem.encode_ptr (S (length h)))
                 = Ok (S (length h), (h ++ bs) ++ Mem.encode_ptr (S (length h)))).
    { rewrite <- (app_nil_r (Mem.encode_ptr _)). by apply load_ptr_fresh. }
    exists (S (length (h ++ bs))), ((h ++ bs) ++ Mem.encode_ptr (S (length h))).
    split; [|split; [|split; [|split; [|split; [|split]]]]].
    + unfold Ctypes.struct_from_buffer, Ctypes.getattr. rewrite Hlib.
      unfold bind at 1. cbn [pure].
      unfold bind at 1. unfold Ctypes.instantiate at 1, bind at 1, malloc at 1, ret at 1.
      cbn [Mem.alloc get_heap set_heap heap_HasHeap].
      unfold bind at 1. cbn [Ctypes.addressof ret].
      unfold bind at 1. unfold Ctypes.memmove.
      unfold bind at 1. cbn [Ctypes.as_voidp ret].
      rewrite addr_of_int_nat by done.
      unfold bind at 1. cbn [Ctypes.as_voidp ret buf].
      unfold bind at 1. unfold mload at 1. cbn [get_heap heap_HasHeap].
      fold size. rewrite (load_app _ _ _ _ _ Hload).
      unfold mstore. cbn [get_heap set_heap heap_HasHeap].
      rewrite <- Hlen. rewrite store_fresh_exact.
      apply ctypes_pointer_spec.
    + rewrite length_app. lia.
    + unfold Ctypes.struct_bytes, Ctypes.contents.
      unfold bind at 1. unfold bind at 1. rewrite Hp.
      rewrite decide_False by lia. cbn [ret].
      unfold bind at 1. cbn [Ctypes.ctypes_sizeof ret].
      unfold Ctypes.string_at. unfold bind at 1.
      cbn [Ctypes.as_voidp Ctypes.is_pointer_type].
      rewrite Hp. unfold bind, mload, ret. cbn [get_heap heap_HasHeap].
      fold size. rewrite <- Hlen. rewrite <- app_assoc. by rewrite load_fresh_exact.
    + rewrite length_app. lia.
    + by rewrite <- app_assoc.
    + unfold Ctypes.unwrap, Ctypes.contents. unfold bind at 1. rewrite Hp.
      by rewrite decide_False by lia.
    + rewrite <- app_assoc. by apply load_app.
Qed.

Lemma C6_struct_from_buffer_roundtrip_witness :
  let ffi_obj := Cffi.FFI ∅ {[ "KEY_BLOB" := 3 ]} in
  let s := Cffi.State [x0a; x0b; x0c] {[ 7 := ffi_obj ]} in
  let cbuf := VForeign (Cffi.CRef (Cffi.CArr (Cffi.CInt 1 false) (Some 3)) 1) in
  let cp := VForeign (Cffi.CRef (Cffi.CPtr (Cffi.CStruct "KEY_BLOB" (Some 3))) 4) in
  let library : Ctypes.library := {[ "KEY_BLOB" := Ctypes.Structure "KEY_BLOB" 3 ]} in
  let buf := VForeign (Ctypes.CObj (Ctypes.ARRAY Ctypes.c_char 3) 1) in
  (exists s', Cffi.struct_from_buffer 7 "KEY_BLOB" cbuf s = Ok (cp, s')
              /\ s' = Cffi.State ([x0a; x0b; x0c] ++ [x0a; x0b; x0c]) {[ 7 := ffi_obj ]}
              /\ Cffi.struct_bytes cp s' = Ok (VBytes [x0a; x0b; x0c], s'))
  /\ (exists p h',
        Ctypes.struct_from_buffer library "KEY_BLOB" buf [x0a; x0b; x0c]
          = Ok (VForeign (Ctypes.CObj (Ctypes.POINTER (Ctypes.Structure "KEY_BLOB" 3)) p), h')
        /\ 3 < p
        /\ Ctypes.struct_bytes
             (VForeign (Ctypes.CObj (Ctypes.POINTER (Ctypes.Structure "KEY_BLOB" 3)) p)) h'
           = Ok (VBytes [x0a; x0b; x0c], h')
        /\ p = 7
        /\ h' = [x0a; x0b; x0c] ++ [x0a; x0b; x0c] ++ Mem.encode_ptr 4
        /\ Ctypes.unwrap
             (VForeign (Ctypes.CObj (Ctypes.POINTER (Ctypes.Structure "KEY_BLOB" 3)) p)) h'
           = Ok (VForeign (Ctypes.CObj (Ctypes.Structure "KEY_BLOB" 3) 4), h')
        /\ Mem.load 1 3 h' = Some [x0a; x0b; x0c]).
Proof.
  intros ffi_obj s cbuf cp library buf. split.
  - apply (proj1 C6_struct_from_buffer_roundtrip s 7 "KEY_BLOB" "KEY_BLOB" 3 1
             [x0a; x0b; x0c]).
    + vm_compute; reflexivity.
    + reflexivity.
  - apply (proj2 C6_struct_from_buffer_roundtrip [x0a; x0b; x0c] library "KEY_BLOB"
             (Ctypes.Structure "KEY_BLOB" 3) 1 [x0a; x0b; x0c]).
    + vm_compute; reflexivity.
    + reflexivity.
    + vm_compute; reflexivity.
Defined.

(* ===================================================================== *)
(** ** C7: deref and unwrap *)
(* ===================================================================== *)

(** C7, as stated, fails under the dynamic engine: on a pointer to a
    [c_int], [deref] (which is [p[0]]) returns the host integer, [unwrap]
    (which is [p.contents]) the [c_int] instance that holds it. *)
Lemma C7_ctypes_deref_is_not_unwrap :
  result_of
    ((let! x := Ctypes.instantiate Ctypes.c_int in
      let! p := Ctypes.pointer x in
      let! d := Ctypes.deref p in
      let! u := Ctypes.unwrap p in
      ret (d, u)) [])
  = Ok (VInt 0, VForeign (Ctypes.CObj Ctypes.c_int 1))
  /\ @VInt Ctypes.cobj 0 <> VForeign (Ctypes.CObj Ctypes.c_int 1).
Proof. split; [vm_compute; reflexivity|discriminate]. Qed.

(** C7 (amended): under cffi [deref(p)] and [unwrap(p)] yield the same
    result for every [p].  Under ctypes they yield the same result for
    every pointer instance whose pointee type is not a simple type; for a
    simple pointee type [deref(p)] is the host value of the instance that
    [unwrap(p)] returns, that is [unwrap(p).value]. *)
Theorem C7_deref_unwrap :
  (forall (point : Cffi.val) (s : Cffi.state),
      Cffi.deref point s = Cffi.unwrap point s)
  /\ (forall (t : Ctypes.ctype) (a : nat) (h : Mem.heap),
      Ctypes.is_simple t = false ->
      Ctypes.deref (VForeign (Ctypes.CObj (Ctypes.POINTER t) a)) h
      = Ctypes.unwrap (VForeign (Ctypes.CObj (Ctypes.POINTER t) a)) h)
  /\ (forall (t : Ctypes.ctype) (a : nat) (h : Mem.heap),
      Ctypes.is_simple t = true ->
      Ctypes.deref (VForeign (Ctypes.CObj (Ctypes.POINTER t) a)) h
      = (let! pointee := Ctypes.unwrap (VForeign (Ctypes.CObj (Ctypes.POINTER t) a)) in
         Ctypes.value_attr pointee) h).
Proof.
  split; [reflexivity|]. split.
  - intros t a h Ht. unfold Ctypes.deref, Ctypes.unwrap, Ctypes.getitem, Ctypes.contents.
    unfold bind. destruct (mload_ptr a h) as [[p h']|]; [|done].
    case_decide; [done|]. unfold Ctypes.item_at. rewrite Ht.
    cbn. by rewrite Nat.add_0_r.
  - intros t a h Ht. unfold Ctypes.deref, Ctypes.unwrap, Ctypes.getitem, Ctypes.contents.
    unfold bind. destruct (mload_ptr a h) as [[p h']|]; [|done].
    case_decide; [done|]. unfold Ctypes.item_at. rewrite Ht.
    cbn [ret Nat.mul]. rewrite Nat.add_0_r.
    destruct t; try discriminate Ht; reflexivity.
Qed.

Lemma C7_deref_unwrap_witness :
  let h := Mem.encode_ptr 9 ++ Mem.encode_ptr 1 in
  let p := VForeign (Ctypes.CObj (Ctypes.POINTER (Ctypes.POINTER Ctypes.c_int)) 9) in
  Ctypes.deref p h = Ctypes.unwrap p h.
Proof.
  intros h p.
  apply (proj1 (proj2 C7_deref_unwrap) (Ctypes.POINTER Ctypes.c_int) 9 h).
  reflexivity.
Defined.

(* ===================================================================== *)
(** ** C8: the Windows string-pointer names *)
(* ===================================================================== *)

(** C8, as stated, fails: the table [array_from_pointer] decodes strings by
    is the literal [string_types] of the cffi arm, which holds the four
    Windows names on every platform ([sys.platform] is not consulted). *)
Lemma C8_cffi_recognises_windows_names_elsewhere :
  let h := {| Boot.platform := "linux";
              Boot.import_cffi := None;
              Boot.call_FFI := None;
              Boot.import_ctypes := None;
              Boot.import_wintypes := None |} in
  Boot.platform h <> "win32"
  /\ Boot.bootstrap h = Ok Boot.cffi
  /\ Forall (fun name => Cffi.string_types !! name = Some true)
       ["LPSTR"; "LPCSTR"; "LPWSTR"; "LPCWSTR"].
Proof.
  split; [discriminate|]. split; [reflexivity|].
  repeat constructor.
Qed.

(** C8 (amended): the names [LPSTR], [LPCSTR], [LPWSTR] and [LPCWSTR] are
    in the ctypes arm's tables [_pointer_types] and [_type_map] exactly
    when [sys.platform] is ["win32"]; the table of names that the cffi
    arm's [array_from_pointer] decodes as strings holds them on every
    platform. *)
Theorem C8_windows_names (name : string) :
  name ∈ ["LPSTR"; "LPCSTR"; "LPWSTR"; "LPCWSTR"] ->
  (forall platform : string,
      (is_Some (Ctypes._pointer_types platform !! name) <-> platform = "win32")
      /\ (is_Some (Ctypes._type_map platform !! name) <-> platform = "win32"))
  /\ Cffi.string_types !! name = Some true.
Proof.
  intros Hn. split.
  - intros platform. unfold Ctypes._pointer_types, Ctypes._type_map.
    destruct (decide (platform = "win32")) as [->|Hp];
      set_unfold; destruct Hn as [->|[->|[->|[->|[]]]]];
      (split; split; intros H; try done;
       try (eexists; vm_compute; reflexivity);
       destruct H as [t Ht]; vm_compute in Ht; discriminate).
  - set_unfold; destruct Hn as [->|[->|[->|[->|[]]]]]; reflexivity.
Qed.

Lemma C8_windows_names_witness :
  (is_Some (Ctypes._pointer_types "darwin" !! "LPWSTR") <-> "darwin" = "win32")
  /\ Cffi.string_types !! "LPWSTR" = Some true.
Proof.
  destruct (C8_windows_names "LPWSTR") as [Hc Hs].
  - set_solver.
  - split; [apply (Hc "darwin")|exact Hs].
Defined.

(* ===================================================================== *)
(** ** C9: pointer suffixes of type names *)
(* ===================================================================== *)

Lemma string_of_chars (s : string) : string_of_list_ascii (chars s) = s.
Proof. apply string_of_list_ascii_of_string. Qed.

Lemma chars_of_string (cs : list ascii) : chars (string_of_list_ascii cs) = cs.
Proof. apply list_ascii_of_string_of_list_ascii. Qed.

Lemma slice_last_suffix (b sfx : string) :
  slice_last (length (chars sfx)) (b +:+ sfx) = sfx.
Proof.
  unfold slice_last. rewrite chars_append, length_app.
  replace (length (chars b) + length (chars sfx) - length (chars sfx))
    with (length (chars b)) by lia.
  rewrite drop_app_length. apply string_of_chars.
Qed.

Lemma slice_drop_last_suffix (b sfx : string) :
  slice_drop_last (length (chars sfx)) (b +:+ sfx) = b.
Proof.
  unfold slice_drop_last. rewrite chars_append, length_app.
  replace (length (chars b) + length (chars sfx) - length (chars sfx))
    with (length (chars b)) by lia.
  rewrite take_app_length. apply string_of_chars.
Qed.

Lemma slice_drop_last_star (b : string) : slice_drop_last 1 (b +:+ " **") = b +:+ " *".
Proof.
  unfold slice_drop_last. rewrite chars_append, length_app.
  replace (length (chars b) + length (chars " **") - 1)
    with (length (chars b) + 2) by (cbn; lia).
  rewrite take_app_add.
  change (take 2 (chars " **")) with (chars " *").
  rewrite <- chars_append. apply string_of_chars.
Qed.

Lemma slice_last_single_star (b : string) : slice_last 3 (b +:+ " *") <> " **".
Proof.
  unfold slice_last. rewrite chars_append, length_app. intros H.
  apply (f_equal chars) in H. rewrite chars_of_string in H.
  rewrite drop_app_le in H by (cbn; lia).
  change (chars " **") with ([" "%char] ++ chars "**") in H.
  apply app_inj_2 in H; [|done]. by destruct H.
Qed.

Lemma slice_last_star (b : string) : slice_last 2 (b +:+ " *") = " *".
Proof. exact (slice_last_suffix b " *"). Qed.

Lemma slice_last_double_star (b : string) : slice_last 3 (b +:+ " **") = " **".
Proof. exact (slice_last_suffix b " **"). Qed.

Lemma slice_drop_last_single_star (b : string) : slice_drop_last 2 (b +:+ " *") = b.
Proof. exact (slice_drop_last_suffix b " *"). Qed.

Section Resolution.
Variables (platform : string) (library : Ctypes.library).

Lemma is_pointer_type_single (b : string) :
  Ctypes._pointer_types platform !! (b +:+ " *") = None ->
  Ctypes._is_pointer_type platform library (b +:+ " *")
  = match Ctypes.resolve platform library b with
    | Ok t => Ok (true, t)
    | Raise e => Raise e
    end.
Proof.
  intros Hn. unfold Ctypes._is_pointer_type.
  rewrite (bool_decide_false _ (slice_last_single_star b)).
  rewrite slice_last_star, Hn.
  rewrite (bool_decide_true (" *" = " *")) by done.
  rewrite (bool_decide_false (is_Some None)) by (by intros [? ?]).
  cbn [andb negb].
  by rewrite slice_drop_last_single_star.
Qed.

Lemma is_pointer_type_double (b : string) :
  Ctypes._pointer_types platform !! (b +:+ " *") = None ->
  Ctypes._is_pointer_type platform library (b +:+ " **")
  = match Ctypes.resolve platform library b with
    | Ok t => Ok (true, Ctypes.POINTER t)
    | Raise e => Raise e
    end.
Proof.
  intros Hn. unfold Ctypes._is_pointer_type.
  rewrite slice_last_double_star.
  rewrite (bool_decide_true (" **" = " **")) by done.
  rewrite slice_drop_last_star.
  rewrite slice_last_star, Hn.
  rewrite (bool_decide_true (" *" = " *")) by done.
  rewrite (bool_decide_false (is_Some None)) by (by intros [? ?]).
  cbn [andb negb].
  rewrite slice_drop_last_single_star.
  by destruct (Ctypes.resolve platform library b).
Qed.

Lemma pointer_types_names (n : string) :
  is_Some (Ctypes._pointer_types platform !! n) ->
  n ∈ ["void *"; "wchar_t *"; "char *"]
  \/ (platform = "win32" /\ n ∈ ["LPSTR"; "LPWSTR"; "LPCSTR"; "LPCWSTR"]).
Proof.
  unfold Ctypes._pointer_types. intros [v Hv].
  case_decide as Hp.
  - apply lookup_union_Some_raw in Hv as [Hv|[_ Hv]].
    + right. split; [done|].
      apply elem_of_list_to_map_2 in Hv.
      apply (list_elem_of_fmap_2 fst) in Hv. exact Hv.
    + left. apply elem_of_list_to_map_2 in Hv.
      apply (list_elem_of_fmap_2 fst) in Hv. exact Hv.
  - left. apply elem_of_list_to_map_2 in Hv.
    apply (list_elem_of_fmap_2 fst) in Hv. exact Hv.
Qed.

Lemma is_pointer_type_atomic (n : string) :
  is_Some (Ctypes._pointer_types platform !! n) ->
  exists t, Ctypes._type_map platform !! n = Some t
            /\ Ctypes._is_pointer_type platform library n = Ok (false, t).
Proof.
  intros Hn. apply pointer_types_names in Hn as [Hn|[-> Hn]].
  - unfold Ctypes._is_pointer_type, Ctypes.resolve, Ctypes._pointer_types,
      Ctypes._type_map.
    destruct (decide (platform = "win32"));
      set_unfold; destruct Hn as [->|[->|[->|[]]]];
      eexists; split; vm_compute; reflexivity.
  - set_unfold; destruct Hn as [->|[->|[->|[->|[]]]]];
      eexists; split; vm_compute; reflexivity.
Qed.

Lemma is_pointer_type_double_atomic (b : string) :
  is_Some (Ctypes._pointer_types platform !! (b +:+ " *")) ->
  exists t, Ctypes._type_map platform !! (b +:+ " *") = Some t
            /\ Ctypes._is_pointer_type platform library (b +:+ " **")
               = Ok (false, Ctypes.POINTER t).
Proof.
  intros Hn. destruct (is_pointer_type_atomic _ Hn) as (t & Ht & _).
  exists t. split; [done|].
  unfold Ctypes._is_pointer_type.
  rewrite slice_last_double_star.
  rewrite (bool_decide_true (" **" = " **")) by done.
  rewrite slice_drop_last_star.
  rewrite slice_last_star.
  rewrite (bool_decide_true (" *" = " *")) by done.
  rewrite (bool_decide_true _ Hn).
  cbn [andb negb]. unfold Ctypes.resolve. by rewrite Ht.
Qed.
End Resolution.

(** C9, as stated, fails on a [" **"] name whose single-pointer form is in
    the known-pointer set.  For ["char **"] only the last [*] is dropped,
    ["char *"] is taken from the table as the atomic [c_char_p], and one
    level of indirection is added; the base name ["char"] is never
    resolved (on a library that declares nothing it could not be). *)
Lemma C9_double_pointer_over_known_pointer :
  Ctypes._is_pointer_type "linux" ∅ "char **" = Ok (false, Ctypes.POINTER Ctypes.c_char_p)
  /\ Ctypes.cast_type "linux" ∅ "char **" = Ok (Ctypes.POINTER Ctypes.c_char_p)
  /\ Ctypes.resolve "linux" ∅ "char" = Raise AttributeError.
Proof. repeat split. Qed.

(** C9 (amended): in the ctypes engine, for a name [b *] that is not in
    the known-pointer set, the suffix is stripped, [b] is resolved (in the
    built-in table, else as an attribute of the library) and the result is
    wrapped in one level of indirection; for [b **] with [b *] not in the
    set, [b] is resolved and wrapped in two levels.  A name in the set is
    resolved through the table as one atomic pointer type with no
    indirection added; and for [b **] with [b *] in the set, [b *] is
    resolved atomically and wrapped in one level. *)
Theorem C9_pointer_suffixes (platform : string) (library : Ctypes.library) :
  (forall b : string,
      Ctypes._pointer_types platform !! (b +:+ " *") = None ->
      Ctypes.cast_type platform library (b +:+ " *")
      = match Ctypes.resolve platform library b with
        | Ok t => Ok (Ctypes.POINTER t)
        | Raise e => Raise e
        end
      /\ Ctypes.cast_type platform library (b +:+ " **")
         = match Ctypes.resolve platform library b with
           | Ok t => Ok (Ctypes.POINTER (Ctypes.POINTER t))
           | Raise e => Raise e
           end)
  /\ (forall n : string,
      is_Some (Ctypes._pointer_types platform !! n) ->
      exists t, Ctypes._type_map platform !! n = Some t
                /\ Ctypes.cast_type platform library n = Ok t)
  /\ (forall b : string,
      is_Some (Ctypes._pointer_types platform !! (b +:+ " *")) ->
      exists t, Ctypes._type_map platform !! (b +:+ " *") = Some t
                /\ Ctypes.cast_type platform library (b +:+ " **")
                   = Ok (Ctypes.POINTER t)).
Proof.
  split; [|split].
  - intros b Hn. unfold Ctypes.cast_type.
    rewrite is_pointer_type_single, is_pointer_type_double by done.
    by destruct (Ctypes.resolve platform library b).
  - intros n Hn. destruct (is_pointer_type_atomic platform library n Hn) as (t & Ht & Hr).
    exists t. split; [done|]. unfold Ctypes.cast_type. by rewrite Hr.
  - intros b Hn.
    destruct (is_pointer_type_double_atomic platform library b Hn) as (t & Ht & Hr).
    exists t. split; [done|]. unfold Ctypes.cast_type. by rewrite Hr.
Qed.

Lemma C9_pointer_suffixes_witness :
  Ctypes.cast_type "win32" {[ "BCRYPT_KEY_HANDLE" := Ctypes.c_void_p ]}
    ("BCRYPT_KEY_HANDLE" +:+ " *")
  = Ok (Ctypes.POINTER Ctypes.c_void_p)
  /\ exists t, Ctypes._type_map "win32" !! ("wchar_t" +:+ " *") = Some t
               /\ Ctypes.cast_type "win32" {[ "BCRYPT_KEY_HANDLE" := Ctypes.c_void_p ]}
                    ("wchar_t" +:+ " **")
                  = Ok (Ctypes.POINTER t).
Proof.
  destruct (C9_pointer_suffixes "win32" {[ "BCRYPT_KEY_HANDLE" := Ctypes.c_void_p ]})
    as (Hs & _ & Hd).
  split.
  - apply (Hs "BCRYPT_KEY_HANDLE"). vm_compute; reflexivity.
  - apply (Hd "wchar_t"). eexists. vm_compute; reflexivity.
Defined.

(* ===================================================================== *)
(** ** C10: cffi [new] and the two handle types *)
(* ===================================================================== *)

Lemma mstore_beyond_extends (h l : Mem.heap) reg (a : nat) (bs : list byte) u
    (s' : Cffi.state) :
  length h < a ->
  mstore a bs (Cffi.State (h ++ l) reg) = Ok (u, s') ->
  exists l', s' = Cffi.State (h ++ l') reg.
Proof.
  intros Ha. destruct a as [|i]; [lia|].
  unfold mstore, Mem.store. cbn [get_heap set_heap Cffi.state_HasHeap Cffi.heap
                                 Cffi._ffi_registry].
  destruct bs as [|b bs].
  - intros [= <- <-]. eauto.
  - case_decide; [|done]. intros [= <- <-].
    rewrite take_app_ge by lia. rewrite <- app_assoc. eauto.
Qed.

Lemma write_item_beyond_extends (t : Cffi.ctype) (v : Cffi.val) (h l : Mem.heap) reg
    (a : nat) u s' :
  length h < a ->
  Cffi.write_item t a v (Cffi.State (h ++ l) reg) = Ok (u, s') ->
  exists l', s' = Cffi.State (h ++ l') reg.
Proof.
  intros Ha. unfold Cffi.write_item. intros H.
  repeat (case_match; try discriminate; subst);
    try (by eapply mstore_beyond_extends).
  unfold bind, mload in H.
  destruct (Mem.load _ _ _); [|discriminate]. by eapply mstore_beyond_extends.
Qed.

Lemma write_items_beyond_extends (t : Cffi.ctype) (vs : list Cffi.val) (h l : Mem.heap)
    reg (a : nat) u s' :
  length h < a ->
  Cffi.write_items t a vs (Cffi.State (h ++ l) reg) = Ok (u, s') ->
  exists l', s' = Cffi.State (h ++ l') reg.
Proof.
  revert a l. induction vs as [|v vs IH]; intros a l Ha; cbn [Cffi.write_items].
  - intros [= <- <-]. eauto.
  - unfold bind at 1.
    destruct (Cffi.write_item t a v _) as [[u1 s1]|] eqn:E; [|discriminate].
    apply write_item_beyond_extends in E as [l1 ->]; [|done].
    apply IH. lia.
Qed.

Lemma init_array_fresh_extends (t : Cffi.ctype) (len : nat) (v : Cffi.val)
    (h l : Mem.heap) reg u s' :
  Cffi.init_array t len (S (length h)) v (Cffi.State (h ++ l) reg) = Ok (u, s') ->
  exists l', s' = Cffi.State (h ++ l') reg.
Proof.
  unfold Cffi.init_array. intros H.
  repeat (case_match; try discriminate; subst);
    try (by eapply mstore_beyond_extends; [|done]; lia);
    try (by eapply write_items_beyond_extends; [|done]; lia).
  injection H as <- <-. eauto.
Qed.

Lemma ffi_new_allocates (ffi_obj : Cffi.ffi_obj) (cdecl : string) (init : Cffi.val)
    (s s' : Cffi.state) (r : Cffi.val) :
  Cffi.ffi_new ffi_obj cdecl init s = Ok (r, s') ->
  exists t l, r = VForeign (Cffi.CRef t (S (length (Cffi.heap s))))
              /\ s' = Cffi.State (Cffi.heap s ++ l) (Cffi._ffi_registry s).
Proof.
  unfold Cffi.ffi_new. destruct s as [h reg]. cbn [Cffi.heap Cffi._ffi_registry].
  destruct (Cffi.typeof ffi_obj cdecl) as [[| | | |t|t n|]|]; try discriminate.
  - destruct (Cffi.sizeof_type t) as [size|]; [|discriminate].
    unfold bind at 1. unfold malloc. cbn [Mem.alloc get_heap set_heap Cffi.state_HasHeap
                                          Cffi.heap Cffi._ffi_registry].
    unfold bind at 1.
    destruct init; cbn [ret];
      try (intros [= <- <-]; eauto);
      (destruct (Cffi.write_item _ _ _ _) as [[u s1]|] eqn:E; [|discriminate];
       apply write_item_beyond_extends in E as [l' ->]; [|lia];
       intros [= <- <-]; eauto).
  - unfold bind at 1.
    destruct (match n with Some k => ret (k, init) | None => Cffi.open_length init end
                {| Cffi.heap := h; Cffi._ffi_registry := reg |})
      as [[[len init'] s1]|] eqn:E; [|discriminate].
    assert (s1 = Cffi.State h reg) as ->.
    { destruct n; [by injection E as <- <- <-|].
      unfold Cffi.open_length in E.
      repeat (case_match; try discriminate; subst); by injection E as <- <- <-. }
    unfold bind at 1. unfold malloc. cbn [Mem.alloc get_heap set_heap Cffi.state_HasHeap
                                          Cffi.heap Cffi._ffi_registry].
    unfold bind at 1.
    destruct (Cffi.init_array _ _ _ _ _) as [[u s1]|] eqn:E'; [|discriminate].
    apply init_array_fresh_extends in E' as [l' ->].
    intros [= <- <-]. eauto.
Qed.



Lemma modulus_pos size : (0 < Mem.modulus size)%Z.
Proof. unfold Mem.modulus. lia. Qed.

Lemma modulus_N size : Z.of_N (256 ^ N.of_nat size) = Mem.modulus size.
Proof.
  unfold Mem.modulus. rewrite N2Z.inj_pow, nat_N_Z.
  change (Z.of_N 256) with (2 ^ 8)%Z. rewrite <- Z.pow_mul_r by lia. done.
Qed.

Lemma decode_encode_int (size : nat) (signed : bool) (z : Z) :
  Mem.wrap size signed z = z ->
  Mem.decode_int signed (Mem.encode_int size z) = z.
Proof.
  intros Hw. unfold Mem.decode_int, Mem.encode_int.
  rewrite length_le_bytes, le_value_le_bytes.
  pose proof (modulus_pos size) as Hm.
  pose proof (Z.mod_pos_bound z (Mem.modulus size) Hm) as Hb.
  rewrite N2Z.inj_mod, modulus_N, Z2N.id by lia.
  rewrite Z.mod_mod by lia.
  rewrite <- Hw at 2. unfold Mem.wrap. by rewrite Z.mod_mod by lia.
Qed.







(** An instance: a new [int] initialised from 5 reads back as 5. *)
Example cffi_new_initialised :
  result_of ((let! p := Cffi.new 0 "int *" (VInt 5) in Cffi.deref p) (Cffi.State [] ∅))
  = Ok (VInt 5).
Proof. vm_compute; reflexivity. Qed.


(* ===================================================================== *)
(** * Further properties of the two arms

    The statements below are read off the code: what the registry, the
    engine selection, the buffers, the structs, [cast], [new], [is_null],
    [array_from_pointer] and [byte_array] do beyond the properties above. *)
(* ===================================================================== *)

(* ===================================================================== *)
(** ** The registry and the engine selection *)
(* ===================================================================== *)

(** X1 (cffi, [register_ffi] and [_get_ffi]): after [register_ffi(library,
    ffi_obj)], [_get_ffi] returns [ffi_obj] for that library and, for every
    other library, what it returned before (its registered instance, else
    the module's own [ffi]); the registration replaces an earlier one and
    touches no foreign memory. *)
Theorem X1_registry_lookup (library library' : Cffi.library) (ffi_obj : Cffi.ffi_obj)
    (s : Cffi.state) :
  (let! _ := Cffi.register_ffi library ffi_obj in Cffi._get_ffi library') s
  = Ok (if decide (library = library') then ffi_obj
        else default Cffi.ffi (Cffi._ffi_registry s !! library'),
        Cffi.State (Cffi.heap s) (<[library := ffi_obj]> (Cffi._ffi_registry s))).
Proof.
  unfold bind at 1. unfold Cffi.register_ffi. rewrite cffi_get_ffi.
  cbn [Cffi._ffi_registry]. rewrite lookup_insert. by case_decide.
Qed.

(** X2 (module body): the module comes up with [engine = 'cffi'] exactly
    when both the import of cffi and the call [FFI()] succeed, whatever the
    platform and whether ctypes could be imported. *)
Theorem X2_bootstrap_selects_cffi (h : Boot.host) :
  Boot.bootstrap h = Ok Boot.cffi
  <-> Boot.import_cffi h = None /\ Boot.call_FFI h = None.
Proof.
  unfold Boot.bootstrap, Boot.try_body, Boot.except_body, Boot.step.
  destruct h as [pf [c|] [f|] [t|] [w|]]; cbn;
    repeat match goal with
           | |- context [match ?x with ImportError => _ | _ => _ end] => destruct x
           | |- context [decide ?P] => destruct (decide P)
           end; split; try done; intros [? ?]; done.
Qed.

Lemma X2_bootstrap_selects_cffi_witness :
  Boot.bootstrap (Boot.Build_host "win32" None None (Some ImportError) (Some ImportError))
  = Ok Boot.cffi.
Proof. apply (proj2 (X2_bootstrap_selects_cffi _)). split; reflexivity. Defined.

(** X3 (module body): the module comes up with [engine = 'ctypes'] exactly
    when the [try] body raised [ImportError] (at the import of cffi or at
    [FFI()]), the import of ctypes succeeds and, on win32 only, so does the
    import of [ctypes.wintypes]. *)
Theorem X3_bootstrap_selects_ctypes (h : Boot.host) :
  Boot.bootstrap h = Ok Boot.ctypes
  <-> (Boot.import_cffi h = Some ImportError
       \/ (Boot.import_cffi h = None /\ Boot.call_FFI h = Some ImportError))
      /\ Boot.import_ctypes h = None
      /\ (Boot.platform h = "win32" -> Boot.import_wintypes h = None).
Proof.
  unfold Boot.bootstrap, Boot.try_body, Boot.except_body, Boot.step.
  destruct h as [pf [c|] [f|] [t|] [w|]]; cbn;
    repeat match goal with
           | |- context [match ?x with ImportError => _ | _ => _ end] => destruct x
           | |- context [decide ?P] => destruct (decide P)
           end; split; try done; intuition (try discriminate; try congruence).
Qed.

Lemma X3_bootstrap_selects_ctypes_witness :
  Boot.bootstrap (Boot.Build_host "linux" (Some ImportError) None None (Some ImportError))
  = Ok Boot.ctypes.
Proof.
  apply (proj2 (X3_bootstrap_selects_ctypes _)). split; [|split].
  - left. reflexivity.
  - reflexivity.
  - intros H. discriminate H.
Defined.

(** X4 (module body): the handler is [except (ImportError)] only.  Any other
    exception raised by the import of cffi or by [FFI()] leaves the module
    import as it is; ctypes is not tried. *)
Theorem X4_no_fallback_on_other_errors (h : Boot.host) (e : exn) :
  e <> ImportError ->
  Boot.import_cffi h = Some e
  \/ (Boot.import_cffi h = None /\ Boot.call_FFI h = Some e) ->
  Boot.bootstrap h = Raise e.
Proof.
  unfold Boot.bootstrap, Boot.try_body, Boot.step.
  intros He [->|[-> ->]]; by destruct e.
Qed.

Lemma X4_no_fallback_on_other_errors_witness :
  Boot.bootstrap (Boot.Build_host "linux" None (Some MemoryFault) None None)
  = Raise MemoryFault.
Proof.
  apply X4_no_fallback_on_other_errors.
  - discriminate.
  - right. split; reflexivity.
Defined.

(* ===================================================================== *)
(** ** Buffers *)
(* ===================================================================== *)

Lemma until_nul_terminated (pre post : list byte) :
  x00 ∉ pre -> Mem.until_nul (pre ++ x00 :: post) = Some pre.
Proof.
  induction pre as [|b pre IH]; intros Hn; cbn.
  - reflexivity.
  - apply not_elem_of_cons in Hn as [Hb Hn].
    destruct (Byte.eqb b x00) eqn:E.
    + apply Byte.byte_dec_bl in E. congruence.
    + by rewrite IH.
Qed.

Lemma load_zeros h n : Mem.load (S (length h)) n (h ++ Mem.zeros n) = Some (Mem.zeros n).
Proof.
  rewrite load_fresh by (by rewrite length_zeros).
  by rewrite take_ge by (by rewrite length_zeros).
Qed.

Lemma load_zeros_app h n l :
  Mem.load (S (length h)) n ((h ++ Mem.zeros n) ++ l) = Some (Mem.zeros n).
Proof. apply load_app, load_zeros. Qed.

(** X5 ([buffer_from_bytes], [byte_string_from_buffer], both engines): the
    string read back from a buffer made from a byte string is that byte
    string up to its first zero byte, and the whole of it when it has
    none. *)
Theorem X5_byte_string_roundtrip (pre post : list byte) :
  x00 ∉ pre ->
  (forall s : Cffi.state, exists s',
      (let! buf := Cffi.buffer_from_bytes (VBytes (pre ++ x00 :: post)) in
       Cffi.byte_string_from_buffer buf) s = Ok (VBytes pre, s'))
  /\ (forall s : Cffi.state, exists s',
      (let! buf := Cffi.buffer_from_bytes (VBytes pre) in
       Cffi.byte_string_from_buffer buf) s = Ok (VBytes pre, s'))
  /\ (forall h : Mem.heap, exists h',
      (let! buf := Ctypes.buffer_from_bytes (VBytes (pre ++ x00 :: post)) in
       Ctypes.byte_string_from_buffer buf) h = Ok (VBytes pre, h'))
  /\ (forall h : Mem.heap, exists h',
      (let! buf := Ctypes.buffer_from_bytes (VBytes pre) in
       Ctypes.byte_string_from_buffer buf) h = Ok (VBytes pre, h')).
Proof.
  intros Hn.
  assert (Hc : forall (b : list byte) (r : list byte) (s : Cffi.state),
             Mem.until_nul (b ++ [x00]) = Some r ->
             exists s', (let! buf := Cffi.buffer_from_bytes (VBytes b) in
                         Cffi.byte_string_from_buffer buf) s = Ok (VBytes r, s')).
  { intros b r s Hr. eexists. unfold bind at 1. rewrite cffi_buffer_from_bytes_spec.
    unfold Cffi.byte_string_from_buffer, Cffi.ffi_string. cbn [Cffi.char_like].
    unfold bind, mload, ret. cbn [get_heap Cffi.state_HasHeap Cffi.heap].
    replace (S (length b)) with (length (b ++ [x00])) by (rewrite length_app; cbn; lia).
    rewrite <- (app_nil_r (b ++ [x00])) at 2. rewrite load_fresh_exact.
    by rewrite Hr. }
  assert (Hd : forall (b : list byte) (r : list byte) (h : Mem.heap),
             Mem.until_nul (b ++ [x00]) = Some r ->
             exists h', (let! buf := Ctypes.buffer_from_bytes (VBytes b) in
                         Ctypes.byte_string_from_buffer buf) h = Ok (VBytes r, h')).
  { intros b r h Hr. eexists. unfold bind at 1. rewrite ctypes_buffer_from_bytes_spec.
    unfold Ctypes.byte_string_from_buffer, Ctypes.value_attr.
    unfold bind, mload, ret. cbn [get_heap heap_HasHeap].
    replace (length b + 1) with (length (b ++ [x00])) by (rewrite length_app; cbn; lia).
    rewrite <- (app_nil_r (b ++ [x00])) at 2. rewrite load_fresh_exact.
    by rewrite Hr. }
  repeat split; intros.
  - apply Hc. rewrite <- app_assoc. by apply until_nul_terminated.
  - apply Hc. by apply until_nul_terminated.
  - apply Hd. rewrite <- app_assoc. by apply until_nul_terminated.
  - apply Hd. by apply until_nul_terminated.
Qed.

Lemma X5_byte_string_roundtrip_witness :
  (exists s',
      (let! buf := Cffi.buffer_from_bytes (VBytes [x68; x69; x00; x21]) in
       Cffi.byte_string_from_buffer buf) (Cffi.State [] ∅) = Ok (VBytes [x68; x69], s'))
  /\ (exists h',
      (let! buf := Ctypes.buffer_from_bytes (VBytes [x68; x69]) in
       Ctypes.byte_string_from_buffer buf) [x01] = Ok (VBytes [x68; x69], h')).
Proof.
  assert (Hn : x00 ∉ [x68; x69]).
  { intros H. apply elem_of_cons in H as [H|H]; [discriminate H|].
    apply elem_of_cons in H as [H|H]; [discriminate H|].
    by apply elem_of_nil in H. }
  split.
  - exact (proj1 (X5_byte_string_roundtrip [x68; x69] [x21] Hn) (Cffi.State [] ∅)).
  - exact (proj2 (proj2 (proj2 (X5_byte_string_roundtrip [x68; x69] [x21] Hn))) [x01]).
Defined.

(** X6 ([bytes_from_buffer] with [maxlen], both engines): on a buffer made
    from the byte string [b] it returns the first [maxlen] bytes of [b]
    followed by the terminator.  Under cffi this holds for [maxlen] up to
    the buffer's length [len(b) + 1]; under ctypes for every [maxlen], the
    slice of [raw] being clamped to the buffer. *)
Theorem X6_bytes_from_buffer_maxlen (b : list byte) (n : nat) :
  (forall s : Cffi.state,
      n <= S (length b) ->
      exists s',
        (let! buf := Cffi.buffer_from_bytes (VBytes b) in
         Cffi.bytes_from_buffer buf (Some n)) s = Ok (VBytes (take n (b ++ [x00])), s'))
  /\ (forall h : Mem.heap,
      exists h',
        (let! buf := Ctypes.buffer_from_bytes (VBytes b) in
         Ctypes.bytes_from_buffer buf (Some n)) h = Ok (VBytes (take n (b ++ [x00])), h')).
Proof.
  split.
  - intros s Hn. eexists. unfold bind at 1. rewrite cffi_buffer_from_bytes_spec.
    unfold Cffi.bytes_from_buffer, Cffi.ffi_buffer, Cffi.buffer_read.
    unfold bind, mload, ret. cbn [fst snd get_heap Cffi.state_HasHeap Cffi.heap].
    by rewrite load_fresh by (rewrite length_app; cbn; lia).
  - intros h. eexists. unfold bind at 1. rewrite ctypes_buffer_from_bytes_spec.
    unfold Ctypes.bytes_from_buffer, Ctypes.raw_attr.
    unfold bind, mload, ret. cbn [get_heap heap_HasHeap].
    replace (length b + 1) with (length (b ++ [x00])) by (rewrite length_app; cbn; lia).
    rewrite <- (app_nil_r (b ++ [x00])) at 2. by rewrite load_fresh_exact.
Qed.

Lemma X6_bytes_from_buffer_maxlen_witness :
  (exists s',
      (let! buf := Cffi.buffer_from_bytes (VBytes [x61; x62; x63]) in
       Cffi.bytes_from_buffer buf (Some 2)) (Cffi.State [] ∅)
      = Ok (VBytes (take 2 ([x61; x62; x63] ++ [x00])), s'))
  /\ (exists h',
      (let! buf := Ctypes.buffer_from_bytes (VBytes [x61; x62; x63]) in
       Ctypes.bytes_from_buffer buf (Some 9)) []
      = Ok (VBytes (take 9 ([x61; x62; x63] ++ [x00])), h')).
Proof.
  split.
  - apply (proj1 (X6_bytes_from_buffer_maxlen [x61; x62; x63] 2) (Cffi.State [] ∅)).
    cbn. lia.
  - apply (proj2 (X6_bytes_from_buffer_maxlen [x61; x62; x63] 9) []).
Defined.

(** X7 ([buffer_from_bytes] on an integer, both engines): a non-negative
    integer [n] makes a buffer of [n] zero bytes (no terminator is added),
    which [bytes_from_buffer] reads back; a negative one raises
    [ValueError]. *)
Theorem X7_zeroed_buffer (z : Z) :
  ((0 <= z)%Z ->
     (forall s : Cffi.state, exists s',
         (let! buf := Cffi.buffer_from_bytes (VInt z) in
          Cffi.bytes_from_buffer buf None) s = Ok (VBytes (Mem.zeros (Z.to_nat z)), s'))
     /\ (forall h : Mem.heap, exists h',
         (let! buf := Ctypes.buffer_from_bytes (VInt z) in
          Ctypes.bytes_from_buffer buf None) h = Ok (VBytes (Mem.zeros (Z.to_nat z)), h')))
  /\ ((z < 0)%Z ->
     (forall s : Cffi.state, Cffi.buffer_from_bytes (VInt z) s = Raise ValueError)
     /\ (forall h : Mem.heap, Ctypes.buffer_from_bytes (VInt z) h = Raise ValueError)).
Proof.
  split; intros Hz; split.
  - intros s. eexists. unfold Cffi.buffer_from_bytes, Cffi.ffi_new.
    change (Cffi.typeof Cffi.ffi "unsigned char[]")
      with (Some (Cffi.CArr (Cffi.CInt 1 false) None)).
    unfold Cffi.open_length. rewrite decide_False by lia.
    unfold Cffi.bytes_from_buffer, Cffi.ffi_buffer, Cffi.buffer_read, Cffi.init_array.
    unfold bind, malloc, mload, ret.
    cbn [Mem.alloc get_heap set_heap Cffi.state_HasHeap Cffi.heap Cffi._ffi_registry
         Cffi.sizeof_type default fmap option_fmap option_map lift fst snd].
    unfold ret, id. cbn [fst snd Cffi.heap]. rewrite !Nat.mul_1_r. by rewrite load_zeros.
  - intros h. eexists. unfold Ctypes.buffer_from_bytes, Ctypes.create_string_buffer.
    rewrite decide_False by lia.
    unfold Ctypes.bytes_from_buffer, Ctypes.raw_attr, Ctypes.instantiate.
    unfold bind, malloc, mload, ret.
    cbn [Mem.alloc get_heap set_heap heap_HasHeap Ctypes.sizeof_type].
    rewrite Nat.mul_1_r. by rewrite load_zeros.
  - intros s. unfold Cffi.buffer_from_bytes, Cffi.ffi_new.
    change (Cffi.typeof Cffi.ffi "unsigned char[]")
      with (Some (Cffi.CArr (Cffi.CInt 1 false) None)).
    unfold Cffi.open_length. by rewrite decide_True by lia.
  - intros h. unfold Ctypes.buffer_from_bytes, Ctypes.create_string_buffer.
    by rewrite decide_True by lia.
Qed.

Lemma X7_zeroed_buffer_witness :
  (exists s',
      (let! buf := Cffi.buffer_from_bytes (VInt 3) in
       Cffi.bytes_from_buffer buf None) (Cffi.State [x01] ∅)
      = Ok (VBytes (Mem.zeros (Z.to_nat 3)), s'))
  /\ Ctypes.buffer_from_bytes (VInt (-1)) [x01] = Raise ValueError.
Proof.
  split.
  - apply (proj1 (X7_zeroed_buffer 3)); lia.
  - apply (proj2 (X7_zeroed_buffer (-1))); lia.
Defined.

Lemma length_wide (cps : list N) :
  length (Ctypes.wide cps) = Mem.wchar_size * length cps.
Proof.
  unfold Ctypes.wide. induction cps as [|c cps IH]; [done|].
  cbn [fmap list_fmap concat length]. rewrite length_app, length_le_bytes, IH. lia.
Qed.

Lemma units_wide (cps : list N) (tail : list byte) (fuel : nat) :
  Mem.units (length cps + fuel) Mem.wchar_size (Ctypes.wide cps ++ tail)
  = (Mem.le_bytes Mem.wchar_size <$> cps) ++ Mem.units fuel Mem.wchar_size tail.
Proof.
  unfold Ctypes.wide. induction cps as [|c cps IH]; [done|].
  cbn [fmap list_fmap concat length Nat.add Mem.units]. rewrite <- app_assoc.
  rewrite decide_True by (rewrite length_app, length_le_bytes; lia).
  rewrite take_app_length' by (by rewrite length_le_bytes).
  rewrite drop_app_length' by (by rewrite length_le_bytes).
  cbn [app]. f_equal. apply IH.
Qed.

Lemma until_zero_terminated (pre post : list N) :
  Forall (fun c => c <> 0%N) pre -> Mem.until_zero (pre ++ 0%N :: post) = Some pre.
Proof.
  induction 1 as [|c pre Hc _ IH]; cbn.
  - reflexivity.
  - rewrite decide_False by done. by rewrite IH.
Qed.

Lemma le_value_wide (cps : list N) :
  Forall (fun c => (c < 2 ^ 32)%N) cps ->
  Mem.le_value <$> (Mem.le_bytes Mem.wchar_size <$> cps) = cps.
Proof.
  induction 1 as [|c cps Hc _ IH]; [done|].
  cbn [fmap list_fmap]. f_equal; [|exact IH].
  rewrite le_value_le_bytes. change (256 ^ N.of_nat Mem.wchar_size)%N with (2 ^ 32)%N.
  by apply N.mod_small.
Qed.

Lemma wide_buffer_text (cps : list N) :
  Forall (fun c => (0 < c < 2 ^ 32)%N) cps ->
  let us := Mem.le_value <$> Mem.units (S (length cps)) Mem.wchar_size
                               (Ctypes.wide cps ++ Mem.zeros Mem.wchar_size) in
  default us (Mem.until_zero us) = cps.
Proof.
  intros Hc us. subst us.
  replace (S (length cps)) with (length cps + 1) by lia.
  rewrite units_wide. rewrite fmap_app.
  rewrite le_value_wide by (eapply Forall_impl; [exact Hc|]; cbn; lia).
  change (Mem.le_value <$> Mem.units 1 Mem.wchar_size (Mem.zeros Mem.wchar_size))
    with [0%N].
  rewrite until_zero_terminated; [done|].
  eapply Forall_impl; [exact Hc|]. cbn. lia.
Qed.

(** X8 ([buffer_from_unicode], both engines): a text without a zero code
    point (its code points fit a 4-byte [wchar_t]) put in a buffer reads
    back unchanged, under cffi through [native(str_cls, buffer)] and under
    ctypes through [byte_string_from_buffer(buffer)], which is
    [buffer.value]. *)
Theorem X8_text_roundtrip (host_call : pytype -> Cffi.val -> outcome Cffi.val)
    (cps : list N) :
  Forall (fun c => (0 < c < 2 ^ 32)%N) cps ->
  (forall s : Cffi.state, exists s',
      (let! buf := Cffi.buffer_from_unicode (VStr cps) in
       Cffi.native host_call str_cls buf) s = Ok (VStr cps, s'))
  /\ (forall h : Mem.heap, exists h',
      (let! buf := Ctypes.buffer_from_unicode (VStr cps) in
       Ctypes.byte_string_from_buffer buf) h = Ok (VStr cps, h')).
Proof.
  intros Hc.
  pose proof (wide_buffer_text cps Hc) as Ht. cbn zeta in Ht.
  pose proof (length_wide cps) as Hw.
  split.
  - intros s. eexists. unfold bind at 1.
    unfold Cffi.buffer_from_unicode, Cffi.ffi_new.
    change (Cffi.typeof Cffi.ffi "wchar_t []") with (Some (Cffi.CArr Cffi.CWChar None)).
    unfold Cffi.open_length, Cffi.init_array.
    unfold bind at 1. unfold bind at 1. unfold ret at 1. cbv beta iota.
    unfold malloc.
    cbn [Mem.alloc get_heap set_heap Cffi.state_HasHeap Cffi.heap Cffi._ffi_registry
         Cffi.sizeof_type default].
    unfold bind at 1. unfold id.
    rewrite bool_decide_true by done. rewrite decide_True by lia.
    change (concat (Mem.le_bytes Mem.wchar_size <$> cps)) with (Ctypes.wide cps).
    unfold mstore. cbn [get_heap set_heap Cffi.state_HasHeap Cffi.heap Cffi._ffi_registry].
    rewrite store_fresh by (rewrite Hw; lia).
    replace (S (length cps) * Mem.wchar_size - length (Ctypes.wide cps))
      with Mem.wchar_size by (rewrite Hw; lia).
    cbn [ret].
    unfold Cffi.native. rewrite decide_True by done.
    unfold Cffi.ffi_string. cbn [Cffi.char_like]. rewrite bool_decide_true by done.
    unfold bind, mload, ret. cbn [get_heap Cffi.state_HasHeap Cffi.heap].
    rewrite load_fresh by (rewrite length_app, Hw, length_zeros; lia).
    rewrite take_ge by (rewrite length_app, Hw, length_zeros; lia).
    by rewrite Ht.
  - intros h. eexists. unfold bind at 1.
    unfold Ctypes.buffer_from_unicode, Ctypes.create_unicode_buffer, Ctypes.instantiate.
    unfold bind at 1. unfold bind at 1. unfold malloc.
    cbn [Mem.alloc get_heap set_heap heap_HasHeap Ctypes.sizeof_type ret].
    unfold bind at 1. unfold mstore. cbn [get_heap set_heap heap_HasHeap].
    rewrite store_fresh by (rewrite Hw; lia).
    replace ((length cps + 1) * Mem.wchar_size - length (Ctypes.wide cps))
      with Mem.wchar_size by (rewrite Hw; lia).
    cbn [ret].
    unfold Ctypes.byte_string_from_buffer, Ctypes.value_attr.
    unfold bind, mload, ret. cbn [get_heap heap_HasHeap].
    rewrite load_fresh by (rewrite length_app, Hw, length_zeros; lia).
    rewrite take_ge by (rewrite length_app, Hw, length_zeros; lia).
    replace (length cps + 1) with (S (length cps)) by lia.
    by rewrite Ht.
Qed.

Lemma X8_text_roundtrip_witness :
  (exists s',
      (let! buf := Cffi.buffer_from_unicode (VStr [104; 105]%N) in
       Cffi.native (fun _ v => Ok v) str_cls buf) (Cffi.State [] ∅)
      = Ok (VStr [104; 105]%N, s'))
  /\ (exists h',
      (let! buf := Ctypes.buffer_from_unicode (VStr [104; 105]%N) in
       Ctypes.byte_string_from_buffer buf) [] = Ok (VStr [104; 105]%N, h')).
Proof.
  assert (Hc : Forall (fun c => (0 < c < 2 ^ 32)%N) [104; 105]%N).
  { apply Forall_cons. split; [lia|]. apply Forall_cons. split; [lia|]. by apply Forall_nil. }
  split.
  - exact (proj1 (X8_text_roundtrip (fun _ v => Ok v) [104; 105]%N Hc) (Cffi.State [] ∅)).
  - exact (proj2 (X8_text_roundtrip (fun _ v => Ok v) [104; 105]%N Hc) []).
Defined.

(** X9 ([buffer_pointer], [unwrap], [bytes_from_buffer], both engines): the
    pointer that [buffer_pointer] makes to a buffer, once unwrapped, reads
    the buffer's own bytes: [maxlen] bytes of [b] and its terminator, for
    [maxlen] within the buffer (while addresses fit a 64-bit pointer).
    Under ctypes the unwrapped value is a [c_char_p], which
    [bytes_from_buffer] reads with [string_at]. *)
Theorem X9_out_pointer_reads_buffer (b : list byte) (n : nat) :
  n <= S (length b) ->
  (forall s : Cffi.state,
      (N.of_nat (S (length (Cffi.heap s))) < 2 ^ 64)%N ->
      exists s',
        (let! buf := Cffi.buffer_from_bytes (VBytes b) in
         let! p := Cffi.buffer_pointer buf in
         let! q := Cffi.unwrap p in
         Cffi.bytes_from_buffer q (Some n)) s
        = Ok (VBytes (take n (b ++ [x00])), s'))
  /\ (forall h : Mem.heap,
      (N.of_nat (length h + length b + 2) < 2 ^ 64)%N ->
      exists h',
        (let! buf := Ctypes.buffer_from_bytes (VBytes b) in
         let! p := Ctypes.buffer_pointer buf in
         let! q := Ctypes.unwrap p in
         Ctypes.bytes_from_buffer q (Some n)) h
        = Ok (VBytes (take n (b ++ [x00])), h')).
Proof.
  intros Hn. split.
  - intros s Hb. eexists. unfold bind at 1. rewrite cffi_buffer_from_bytes_spec.
    set (h1 := Cffi.heap s ++ b ++ [x00]).
    unfold bind at 1. unfold Cffi.buffer_pointer, Cffi.ffi_new.
    change (Cffi.typeof Cffi.ffi "unsigned char *[]")
      with (Some (Cffi.CArr (Cffi.CPtr (Cffi.CInt 1 false)) None)).
    cbn [Cffi.open_length length].
    unfold bind at 1. cbn [ret].
    unfold bind at 1. unfold malloc.
    cbn [Mem.alloc get_heap set_heap Cffi.state_HasHeap Cffi.heap Cffi._ffi_registry
         Cffi.sizeof_type default Nat.mul Nat.add].
    unfold bind at 1. unfold Cffi.init_array. rewrite decide_True by (cbn; lia).
    cbn [Cffi.write_items]. unfold bind at 1. unfold Cffi.write_item.
    rewrite bool_decide_true by (by left).
    unfold mstore. cbn [get_heap set_heap Cffi.state_HasHeap Cffi.heap Cffi._ffi_registry].
    change (Mem.zeros Mem.ptr_size)
      with (Mem.zeros (length (Mem.encode_ptr (S (length (Cffi.heap s)))))).
    rewrite store_fresh_exact. cbn [ret].
    unfold bind at 1. unfold Cffi.unwrap. cbn [Cffi.getitem].
    rewrite decide_True by lia.
    cbn [Cffi.item_offset Nat.mul]. rewrite Nat.add_0_r.
    cbn [Cffi.read_item]. unfold bind at 1.
    pose proof (load_ptr_fresh h1 [] (S (length (Cffi.heap s))) Hb) as Hp.
    rewrite app_nil_r in Hp.
    unfold mload_ptr, bind, mload, ret in *.
    cbn [get_heap heap_HasHeap Cffi.state_HasHeap Cffi.heap] in *.
    destruct (Mem.load (S (length h1)) Mem.ptr_size _) as [bs|]; [|discriminate].
    injection Hp as Hp. rewrite Hp.
    unfold Cffi.bytes_from_buffer, Cffi.ffi_buffer, Cffi.buffer_read.
    unfold bind, mload, ret. cbn [fst snd get_heap Cffi.state_HasHeap Cffi.heap].
    unfold h1. rewrite <- app_assoc.
    rewrite load_fresh by (rewrite !length_app; cbn [length]; lia).
    f_equal. f_equal. f_equal.
    apply take_app_le. rewrite length_app. cbn [length]. lia.
  - intros h Hb. eexists. unfold bind at 1. rewrite ctypes_buffer_from_bytes_spec.
    set (h1 := h ++ b ++ [x00]).
    unfold bind at 1. unfold Ctypes.buffer_pointer.
    unfold bind at 1. unfold Ctypes.ctypes_cast. cbn [Ctypes.is_pointer_type].
    unfold bind at 1. cbn [Ctypes.as_voidp ret].
    unfold bind at 1. unfold malloc. cbn [Mem.alloc get_heap set_heap heap_HasHeap].
    unfold bind at 1. unfold mstore. cbn [get_heap set_heap heap_HasHeap].
    change (Mem.zeros Mem.ptr_size) with (Mem.zeros (length (Mem.encode_ptr (S (length h))))).
    rewrite store_fresh_exact. cbn [ret].
    rewrite ctypes_pointer_spec.
    unfold bind at 1. unfold Ctypes.unwrap, Ctypes.contents.
    unfold bind at 1.
    set (h2 := h1 ++ Mem.encode_ptr (S (length h))).
    assert (Hl1 : length h1 = length h + length b + 1)
      by (unfold h1; rewrite !length_app; cbn [length]; lia).
    assert (Hq : mload_ptr (S:=Mem.heap) (S (length h2))
                   (h2 ++ Mem.encode_ptr (S (length h1)))
                 = Ok (S (length h1), h2 ++ Mem.encode_ptr (S (length h1)))).
    { rewrite <- (app_nil_r (Mem.encode_ptr (S (length h1)))).
      apply load_ptr_fresh. rewrite Hl1. lia. }
    assert (Hq1 : mload_ptr (S:=Mem.heap) (S (length h1))
                   (h2 ++ Mem.encode_ptr (S (length h1)))
                 = Ok (S (length h), h2 ++ Mem.encode_ptr (S (length h1)))).
    { unfold h2. rewrite <- app_assoc. apply load_ptr_fresh. lia. }
    rewrite Hq. rewrite decide_False by lia. cbn [ret].
    unfold Ctypes.bytes_from_buffer, Ctypes.string_at.
    unfold bind at 1. cbn [Ctypes.as_voidp Ctypes.is_pointer_type]. rewrite Hq1.
    unfold bind, mload, ret. cbn [get_heap heap_HasHeap].
    unfold h2, h1. rewrite <- !app_assoc.
    rewrite load_fresh by (rewrite !length_app; cbn [length]; lia).
    f_equal. f_equal. f_equal.
    rewrite !app_assoc. rewrite <- (app_assoc _ (Mem.encode_ptr _) (Mem.encode_ptr _)).
    apply take_app_le. rewrite length_app. cbn [length]. lia.
Qed.

Lemma X9_out_pointer_reads_buffer_witness :
  (exists s',
      (let! buf := Cffi.buffer_from_bytes (VBytes [x61; x62]) in
       let! p := Cffi.buffer_pointer buf in
       let! q := Cffi.unwrap p in
       Cffi.bytes_from_buffer q (Some 2)) (Cffi.State [] ∅)
      = Ok (VBytes (take 2 ([x61; x62] ++ [x00])), s'))
  /\ (exists h',
      (let! buf := Ctypes.buffer_from_bytes (VBytes [x61; x62]) in
       let! p := Ctypes.buffer_pointer buf in
       let! q := Ctypes.unwrap p in
       Ctypes.bytes_from_buffer q (Some 2)) []
      = Ok (VBytes (take 2 ([x61; x62] ++ [x00])), h')).
Proof.
  assert (Hn : 2 <= S (length [x61; x62])) by (cbn; lia).
  split.
  - apply (proj1 (X9_out_pointer_reads_buffer [x61; x62] 2 Hn)).
    vm_compute; reflexivity.
  - apply (proj2 (X9_out_pointer_reads_buffer [x61; x62] 2 Hn)).
    vm_compute; reflexivity.
Defined.

(* ===================================================================== *)
(** ** Structs *)
(* ===================================================================== *)

(** X10 ([struct] and [struct_bytes], both engines): the bytes of a struct
    that [struct] has just made are all zero, as many as the struct's size
    (cffi: the struct is declared with a known size; ctypes: the library
    has the class, and the new address fits a 64-bit pointer). *)
Theorem X10_struct_is_zeroed :
  (forall (s : Cffi.state) (library : Cffi.library) (name sname : string) (size : nat),
      Cffi.typeof (default Cffi.ffi (Cffi._ffi_registry s !! library))
        ("struct " +:+ name +:+ " *")
      = Some (Cffi.CPtr (Cffi.CStruct sname (Some size))) ->
      exists s',
        (let! p := Cffi.struct library name in Cffi.struct_bytes p) s
        = Ok (VBytes (Mem.zeros size), s'))
  /\ (forall (h : Mem.heap) (library : Ctypes.library) (name : string)
             (class_ : Ctypes.ctype),
      library !! name = Some class_ ->
      (N.of_nat (S (length h)) < 2 ^ 64)%N ->
      exists h',
        (let! p := Ctypes.struct library name in Ctypes.struct_bytes p) h
        = Ok (VBytes (Mem.zeros (Ctypes.sizeof_type class_)), h')).
Proof.
  split.
  - intros s library name sname size Hty. eexists.
    unfold bind at 1. unfold Cffi.struct. unfold bind at 1. rewrite cffi_get_ffi.
    unfold Cffi.ffi_new. rewrite Hty. cbn [Cffi.sizeof_type].
    unfold bind, malloc, ret.
    cbn [Mem.alloc get_heap set_heap Cffi.state_HasHeap Cffi.heap Cffi._ffi_registry].
    unfold Cffi.struct_bytes, Cffi.ffi_buffer, Cffi.buffer_read.
    unfold bind, mload, ret, lift, ret.
    cbn [Cffi.sizeof_type fst snd get_heap Cffi.state_HasHeap Cffi.heap].
    by rewrite load_zeros.
  - intros h library name class_ Hlib Hb. eexists.
    unfold bind at 1. unfold Ctypes.struct, Ctypes.getattr. rewrite Hlib.
    unfold bind at 1. cbn [pure].
    unfold bind at 1. unfold Ctypes.instantiate, bind at 1, malloc, ret at 1.
    cbn [Mem.alloc get_heap set_heap heap_HasHeap].
    rewrite ctypes_pointer_spec.
    set (h1 := h ++ Mem.zeros (Ctypes.sizeof_type class_)).
    assert (Hp : mload_ptr (S:=Mem.heap) (S (length h1)) (h1 ++ Mem.encode_ptr (S (length h)))
                 = Ok (S (length h), h1 ++ Mem.encode_ptr (S (length h)))).
    { rewrite <- (app_nil_r (Mem.encode_ptr _)). by apply load_ptr_fresh. }
    unfold Ctypes.struct_bytes, Ctypes.contents.
    unfold bind at 1. unfold bind at 1. rewrite Hp.
    rewrite decide_False by lia. cbn [ret].
    unfold bind at 1. cbn [Ctypes.ctypes_sizeof ret].
    unfold Ctypes.string_at. unfold bind at 1.
    cbn [Ctypes.as_voidp Ctypes.is_pointer_type].
    rewrite Hp. unfold bind, mload, ret. cbn [get_heap heap_HasHeap].
    unfold h1. rewrite <- app_assoc.
    rewrite load_fresh by (rewrite length_app, length_zeros; lia).
    rewrite take_app_length'; [done|]. by rewrite length_zeros.
Qed.

Lemma X10_struct_is_zeroed_witness :
  let ffi_obj := Cffi.FFI ∅ {[ "KEY_BLOB" := 3 ]} in
  let s := Cffi.State [x0a] {[ 7 := ffi_obj ]} in
  let library : Ctypes.library := {[ "KEY_BLOB" := Ctypes.Structure "KEY_BLOB" 3 ]} in
  (exists s',
      (let! p := Cffi.struct 7 "KEY_BLOB" in Cffi.struct_bytes p) s
      = Ok (VBytes (Mem.zeros 3), s'))
  /\ (exists h',
      (let! p := Ctypes.struct library "KEY_BLOB" in Ctypes.struct_bytes p) [x0a]
      = Ok (VBytes (Mem.zeros (Ctypes.sizeof_type (Ctypes.Structure "KEY_BLOB" 3))), h')).
Proof.
  intros ffi_obj s library. split.
  - apply (proj1 X10_struct_is_zeroed s 7 "KEY_BLOB" "KEY_BLOB" 3).
    vm_compute; reflexivity.
  - apply (proj2 X10_struct_is_zeroed [x0a] library "KEY_BLOB").
    + vm_compute; reflexivity.
    + vm_compute; reflexivity.
Defined.

Lemma cffi_read_item_pure t a s v s' : Cffi.read_item t a s = Ok (v, s') -> s' = s.
Proof.
  unfold Cffi.read_item, bind, mload_ptr, bind, mload, ret, raise.
  intros H. repeat (case_match; try discriminate; subst); congruence.
Qed.

Lemma cffi_getitem_pure v i s r s' : Cffi.getitem v i s = Ok (r, s') -> s' = s.
Proof.
  unfold Cffi.getitem. intros H.
  repeat (case_match; try discriminate; subst);
    try (by eapply cffi_read_item_pure); by injection H.
Qed.

Lemma cffi_buffer_pure v n s r s' : Cffi.ffi_buffer v n s = Ok (r, s') -> s' = s.
Proof.
  unfold Cffi.ffi_buffer, bind, lift, ret, raise. intros H.
  repeat (case_match; try discriminate; subst); congruence.
Qed.

Lemma cffi_sizeof_pure f v s r s' : Cffi.ffi_sizeof f v s = Ok (r, s') -> s' = s.
Proof.
  unfold Cffi.ffi_sizeof, lift, ret, raise. intros H.
  repeat (case_match; try discriminate; subst); congruence.
Qed.

Lemma cffi_buffer_read_pure b s r s' : Cffi.buffer_read b s = Ok (r, s') -> s' = s.
Proof.
  unfold Cffi.buffer_read, mload. intros H.
  repeat (case_match; try discriminate; subst); congruence.
Qed.

Lemma cffi_buffer_address v n s a k s' t a0 :
  v = VForeign (Cffi.CRef t a0) -> Cffi.ffi_buffer v n s = Ok ((a, k), s') -> a = a0.
Proof.
  intros ->. unfold Cffi.ffi_buffer, bind, lift, ret, raise. intros H.
  repeat (case_match; try discriminate; subst); congruence.
Qed.

(** X11 (cffi [struct_from_buffer]): whenever it returns, foreign memory has
    only grown (what was allocated before is unchanged, the source buffer
    included) and the registry is the same. *)
Theorem X11_cffi_struct_from_buffer_frame (library : Cffi.library) (name : string)
    (buffer p : Cffi.val) (s s' : Cffi.state) :
  Cffi.struct_from_buffer library name buffer s = Ok (p, s') ->
  exists l, Cffi.heap s' = Cffi.heap s ++ l
            /\ Cffi._ffi_registry s' = Cffi._ffi_registry s.
Proof.
  unfold Cffi.struct_from_buffer, Cffi.sizeof.
  unfold bind at 1. rewrite cffi_get_ffi.
  unfold bind at 1.
  destruct (Cffi.ffi_new _ _ _ s) as [[np s1]|] eqn:En; [|discriminate].
  apply ffi_new_allocates in En as (t & l & -> & ->).
  unfold bind at 1.
  destruct (Cffi.getitem _ 0 _) as [[ns s2]|] eqn:Eg; [|discriminate].
  apply cffi_getitem_pure in Eg as ->.
  unfold bind at 1. unfold bind at 1. rewrite cffi_get_ffi.
  cbn [Cffi._ffi_registry].
  destruct (Cffi.ffi_sizeof _ ns _) as [[size s2]|] eqn:Es; [|discriminate].
  apply cffi_sizeof_pure in Es as ->.
  unfold bind at 1.
  destruct (Cffi.ffi_buffer _ None _) as [[[a k] s2]|] eqn:Eb; [|discriminate].
  pose proof (cffi_buffer_address _ _ _ _ _ _ _ _ eq_refl Eb) as ->.
  apply cffi_buffer_pure in Eb as ->.
  unfold bind at 1.
  destruct (Cffi.ffi_buffer buffer _ _) as [[src s2]|] eqn:Eb2; [|discriminate].
  apply cffi_buffer_pure in Eb2 as ->.
  unfold bind at 1.
  destruct (Cffi.buffer_read src _) as [[bs s2]|] eqn:Er; [|discriminate].
  apply cffi_buffer_read_pure in Er as ->.
  unfold bind at 1. unfold Cffi.buffer_write. cbn [fst snd].
  case_decide; [|discriminate].
  destruct (mstore _ bs _) as [[u s2]|] eqn:Ew; [|discriminate].
  apply mstore_beyond_extends in Ew as [l' ->]; [|lia].
  intros [= <- <-]. eauto.
Qed.

Lemma X11_cffi_struct_from_buffer_frame_witness :
  let ffi_obj := Cffi.FFI ∅ {[ "KEY_BLOB" := 3 ]} in
  let s := Cffi.State [x0a; x0b; x0c] {[ 7 := ffi_obj ]} in
  let s' := Cffi.State [x0a; x0b; x0c; x0a; x0b; x0c] {[ 7 := ffi_obj ]} in
  exists l, Cffi.heap s' = Cffi.heap s ++ l
            /\ Cffi._ffi_registry s' = Cffi._ffi_registry s.
Proof.
  intros ffi_obj s s'.
  apply (X11_cffi_struct_from_buffer_frame 7 "KEY_BLOB"
           (VForeign (Cffi.CRef (Cffi.CArr (Cffi.CInt 1 false) (Some 3)) 1))
           (VForeign (Cffi.CRef (Cffi.CPtr (Cffi.CStruct "KEY_BLOB" (Some 3))) 4))).
  vm_compute; reflexivity.
Defined.

Lemma heap_mstore_beyond_extends (h l : Mem.heap) (a : nat) (bs : list byte) u
    (h' : Mem.heap) :
  length h < a ->
  mstore (S:=Mem.heap) a bs (h ++ l) = Ok (u, h') ->
  exists l', h' = h ++ l'.
Proof.
  intros Ha. destruct a as [|i]; [lia|].
  unfold mstore, Mem.store. cbn [get_heap set_heap heap_HasHeap].
  destruct bs as [|b bs].
  - intros [= <- <-]. eauto.
  - case_decide; [|done]. intros [= <- <-].
    rewrite take_app_ge by lia. rewrite <- app_assoc. eauto.
Qed.

Lemma as_voidp_extends (v : Ctypes.val) (h h' : Mem.heap) (a : nat) :
  Ctypes.as_voidp v h = Ok (a, h') -> exists l, h' = h ++ l.
Proof.
  unfold Ctypes.as_voidp. intros H.
  repeat (case_match; try discriminate; subst);
    try (injection H as <- <-; exists []; by rewrite app_nil_r);
    try (unfold mload_ptr, bind, mload, ret in H; cbn [get_heap heap_HasHeap] in H;
         destruct (Mem.load _ _ _); [|discriminate];
         injection H as <- <-; exists []; by rewrite app_nil_r).
  - unfold bind, malloc in H. cbn [Mem.alloc get_heap set_heap heap_HasHeap] in H.
    destruct (mstore _ _ _) as [[u h1]|] eqn:E; [|discriminate].
    apply heap_mstore_beyond_extends in E as [l' ->]; [|lia].
    injection H as <- <-. eauto.
  - unfold bind, malloc in H. cbn [Mem.alloc get_heap set_heap heap_HasHeap] in H.
    destruct (mstore _ _ _) as [[u h1]|] eqn:E; [|discriminate].
    apply heap_mstore_beyond_extends in E as [l' ->]; [|lia].
    injection H as <- <-. eauto.
Qed.

Lemma store_fresh_app (h l bs : list byte) :
  Mem.store (S (length h)) bs (h ++ Mem.zeros (length bs) ++ l) = Some (h ++ bs ++ l).
Proof.
  unfold Mem.store. destruct bs as [|b bs]; [done|].
  rewrite decide_True by (rewrite !length_app, length_zeros; lia).
  rewrite take_app_length.
  rewrite drop_app_ge by lia.
  replace (length h + length (b :: bs) - length h) with (length (b :: bs)) by lia.
  rewrite drop_app_ge by (rewrite length_zeros; lia).
  rewrite length_zeros, Nat.sub_diag. done.
Qed.

(** X12 (ctypes [struct_from_buffer]): whenever it returns, the library
    has the class, and foreign memory is what existed, unchanged, followed
    by the new struct (as many bytes as the class's size, at the first
    fresh address), whatever passing the buffer allocated, and a pointer
    cell that holds the struct's address; the result is the pointer
    instance in that cell, and [unwrap] of it is the struct instance (the
    new address fits a 64-bit pointer). *)
Theorem X12_ctypes_struct_from_buffer_frame (library : Ctypes.library) (type_ : string)
    (buffer p : Ctypes.val) (h h' : Mem.heap) :
  (N.of_nat (S (length h)) < 2 ^ 64)%N ->
  Ctypes.struct_from_buffer library type_ buffer h = Ok (p, h') ->
  exists (class_ : Ctypes.ctype) (bs l : list byte),
    library !! type_ = Some class_
    /\ length bs = Ctypes.sizeof_type class_
    /\ h' = h ++ bs ++ l ++ Mem.encode_ptr (S (length h))
    /\ p = VForeign (Ctypes.CObj (Ctypes.POINTER class_) (S (length (h ++ bs ++ l))))
    /\ Ctypes.unwrap p h' = Ok (VForeign (Ctypes.CObj class_ (S (length h))), h').
Proof.
  intros Hb. unfold Ctypes.struct_from_buffer.
  unfold bind at 1. unfold Ctypes.getattr.
  destruct (library !! type_) as [class_|] eqn:Hlib; [|discriminate].
  cbn [pure].
  unfold bind at 1. unfold Ctypes.instantiate, bind at 1, malloc, ret at 1.
  cbn [Mem.alloc get_heap set_heap heap_HasHeap].
  unfold bind at 1. cbn [Ctypes.addressof ret].
  unfold bind at 1. unfold Ctypes.memmove.
  unfold bind at 1. cbn [Ctypes.as_voidp ret]. rewrite addr_of_int_nat by done.
  unfold bind at 1.
  destruct (Ctypes.as_voidp buffer _) as [[src h1]|] eqn:E; [|discriminate].
  apply as_voidp_extends in E as [l1 ->]. rewrite <- app_assoc.
  unfold bind at 1. unfold mload at 1. cbn [get_heap heap_HasHeap].
  destruct (Mem.load src _ _) as [bs|] eqn:El; [|discriminate].
  apply load_length in El.
  unfold mstore. cbn [get_heap set_heap heap_HasHeap].
  rewrite <- El. rewrite store_fresh_app.
  rewrite ctypes_pointer_spec. intros [= <- <-].
  exists class_, bs, l1. split; [done|]. split; [done|].
  split; [by rewrite <- !app_assoc|]. split; [done|].
  unfold Ctypes.unwrap, Ctypes.contents. unfold bind at 1.
  rewrite <- (app_nil_r (Mem.encode_ptr (S (length h)))).
  rewrite load_ptr_fresh by done.
  by rewrite decide_False by lia.
Qed.

Lemma X12_ctypes_struct_from_buffer_frame_witness :
  let library : Ctypes.library := {[ "KEY_BLOB" := Ctypes.Structure "KEY_BLOB" 3 ]} in
  let h := [x0a; x0b; x0c] in
  let p := VForeign (Ctypes.CObj (Ctypes.POINTER (Ctypes.Structure "KEY_BLOB" 3)) 7) in
  let h' := [x0a; x0b; x0c; x0a; x0b; x0c] ++ Mem.encode_ptr 4 in
  exists (class_ : Ctypes.ctype) (bs l : list byte),
    library !! "KEY_BLOB" = Some class_
    /\ length bs = Ctypes.sizeof_type class_
    /\ h' = h ++ bs ++ l ++ Mem.encode_ptr (S (length h))
    /\ p = VForeign (Ctypes.CObj (Ctypes.POINTER class_) (S (length (h ++ bs ++ l))))
    /\ Ctypes.unwrap p h' = Ok (VForeign (Ctypes.CObj class_ (S (length h))), h').
Proof.
  intros library h p h'.
  apply (X12_ctypes_struct_from_buffer_frame library "KEY_BLOB"
           (VForeign (Ctypes.CObj (Ctypes.ARRAY Ctypes.c_char 3) 1))).
  - vm_compute; reflexivity.
  - vm_compute; reflexivity.
Defined.

(* ===================================================================== *)
(** ** Casts, new objects and null tests *)
(* ===================================================================== *)

(** X13 (cffi [cast]): a cast that returns changes neither foreign memory
    nor the registry; nothing is allocated. *)
Theorem X13_cffi_cast_is_pure (library : Cffi.library) (type_ : string) (value r : Cffi.val)
    (s s' : Cffi.state) :
  Cffi.cast library type_ value s = Ok (r, s') -> s' = s.
Proof.
  unfold Cffi.cast, bind. rewrite cffi_get_ffi.
  unfold Cffi.ffi_cast, Cffi.cast_source, bind, ret, raise. intros H.
  repeat (case_match; try discriminate; subst); congruence.
Qed.

Lemma X13_cffi_cast_is_pure_witness :
  Cffi.State [x01] ∅ = Cffi.State [x01] ∅.
Proof.
  apply (X13_cffi_cast_is_pure 0 "void *" (VInt 5)
           (VForeign (Cffi.CRef (Cffi.CPtr Cffi.CVoid) 5))).
  vm_compute; reflexivity.
Defined.

(** X14 ([null], [cast], [is_null], both engines): the null sentinel cast to
    any pointer type is null (cffi: the name declares a pointer type;
    ctypes: the name resolves to a pointer type). *)
Theorem X14_cast_of_null_is_null :
  (forall (library : Cffi.library) (type_ : string) (t : Cffi.ctype) (s : Cffi.state),
      Cffi.typeof (default Cffi.ffi (Cffi._ffi_registry s !! library)) type_
        = Some (Cffi.CPtr t) ->
      (let! null := Cffi.null in
       let! p := Cffi.cast library type_ null in
       Cffi.is_null p) s = Ok (true, s))
  /\ (forall (platform : string) (library : Ctypes.library) (type_ : string)
             (t : Ctypes.ctype) (h : Mem.heap),
      Ctypes.cast_type platform library type_ = Ok t ->
      Ctypes.is_pointer_type t = true ->
      exists h',
        (let! null := Ctypes.null in
         let! p := Ctypes.cast platform library type_ null in
         Ctypes.is_null p) h = Ok (true, h')).
Proof.
  split.
  - intros library type_ t s Hty.
    unfold bind at 1. cbn [Cffi.null ret].
    unfold bind at 1. unfold Cffi.cast. unfold bind at 1. rewrite cffi_get_ffi.
    unfold Cffi.ffi_cast. rewrite Hty. reflexivity.
  - intros platform library type_ t h Hty Ht. eexists.
    unfold bind at 1. cbn [Ctypes.null ret].
    unfold bind at 1. unfold Ctypes.cast. rewrite Hty.
    unfold bind at 1. cbn [pure].
    unfold Ctypes.ctypes_cast. rewrite Ht.
    unfold bind at 1. cbn [Ctypes.as_voidp ret].
    unfold bind at 1. unfold malloc. cbn [Mem.alloc get_heap set_heap heap_HasHeap].
    unfold bind at 1. unfold mstore. cbn [get_heap set_heap heap_HasHeap].
    change (Mem.encode_ptr 0) with (Mem.zeros Mem.ptr_size).
    rewrite store_fresh by (by rewrite length_zeros).
    rewrite length_zeros, Nat.sub_diag. cbn [ret].
    change (Mem.zeros Mem.ptr_size ++ Mem.zeros 0) with (Mem.zeros Mem.ptr_size).
    unfold Ctypes.is_null, Ctypes.truthy.
    destruct t; try discriminate Ht;
      unfold bind, mload_ptr, bind, mload, ret; cbn [get_heap heap_HasHeap];
      cbn [Ctypes.sizeof_type]; rewrite load_zeros; reflexivity.
Qed.

Lemma X14_cast_of_null_is_null_witness :
  (let! null := Cffi.null in
   let! p := Cffi.cast 0 "int *" null in
   Cffi.is_null p) (Cffi.State [x01] ∅) = Ok (true, Cffi.State [x01] ∅)
  /\ exists h',
       (let! null := Ctypes.null in
        let! p := Ctypes.cast "linux" ∅ "int *" null in
        Ctypes.is_null p) [x01] = Ok (true, h').
Proof.
  split.
  - apply (proj1 X14_cast_of_null_is_null 0 "int *" (Cffi.CInt 4 true)).
    vm_compute; reflexivity.
  - apply (proj2 X14_cast_of_null_is_null "linux" ∅ "int *" (Ctypes.POINTER Ctypes.c_int)).
    + vm_compute; reflexivity.
    + reflexivity.
Defined.

(** X15 (cffi [new] and [deref]): for a name that declares a pointer to an
    integer type (and is not one of the two handle names), [new] with an
    integer that the type can hold makes an object that [deref] reads back
    as that integer; with an integer out of the type's range [new] raises
    [OverflowError]. *)
Theorem X15_cffi_new_integer_roundtrip (library : Cffi.library) (type_ : string)
    (size : nat) (signed : bool) (z : Z) (s : Cffi.state) :
  Cffi.typeof (default Cffi.ffi (Cffi._ffi_registry s !! library)) type_
    = Some (Cffi.CPtr (Cffi.CInt size signed)) ->
  type_ ∉ ["BCRYPT_KEY_HANDLE"; "BCRYPT_ALG_HANDLE"] ->
  (Mem.wrap size signed z = z ->
     exists s', (let! p := Cffi.new library type_ (VInt z) in Cffi.deref p) s
                = Ok (VInt z, s'))
  /\ (Mem.wrap size signed z <> z ->
     Cffi.new library type_ (VInt z) s = Raise OverflowError).
Proof.
  intros Hty Hin.
  assert (Hnew : Cffi.new library type_ (VInt z) s
                 = Cffi.ffi_new (default Cffi.ffi (Cffi._ffi_registry s !! library))
                     type_ (VInt z) s).
  { unfold Cffi.new, bind. rewrite cffi_get_ffi. by rewrite bool_decide_false. }
  split; intros Hw.
  - eexists. unfold bind at 1. rewrite Hnew.
    unfold Cffi.ffi_new. rewrite Hty. cbn [Cffi.sizeof_type].
    unfold bind at 1. unfold malloc.
    cbn [Mem.alloc get_heap set_heap Cffi.state_HasHeap Cffi.heap Cffi._ffi_registry].
    unfold bind at 1. unfold Cffi.write_item, Cffi.in_range.
    rewrite bool_decide_true by done.
    unfold mstore. cbn [get_heap set_heap Cffi.state_HasHeap Cffi.heap Cffi._ffi_registry].
    assert (Hlen : length (Mem.encode_int size z) = size)
      by (unfold Mem.encode_int; apply length_le_bytes).
    rewrite store_fresh by lia. rewrite Hlen, Nat.sub_diag. cbn [ret Mem.zeros replicate].
    unfold Cffi.deref, Cffi.getitem. rewrite decide_False by lia.
    cbn [Cffi.item_offset Nat.mul]. rewrite Nat.add_0_r.
    unfold Cffi.read_item, bind, mload, ret.
    cbn [get_heap Cffi.state_HasHeap Cffi.heap].
    rewrite load_fresh by (rewrite length_app; lia).
    rewrite take_app_length' by done. by rewrite decode_encode_int.
  - rewrite Hnew. unfold Cffi.ffi_new. rewrite Hty. cbn [Cffi.sizeof_type].
    unfold bind, malloc.
    cbn [Mem.alloc get_heap set_heap Cffi.state_HasHeap Cffi.heap Cffi._ffi_registry].
    unfold Cffi.write_item, Cffi.in_range.
    by rewrite bool_decide_false by done.
Qed.

Lemma X15_cffi_new_integer_roundtrip_witness :
  (exists s', (let! p := Cffi.new 0 "int *" (VInt (-5)) in Cffi.deref p) (Cffi.State [x01] ∅)
              = Ok (VInt (-5), s'))
  /\ Cffi.new 0 "unsigned char *" (VInt 256) (Cffi.State [x01] ∅) = Raise OverflowError.
Proof.
  assert (Hh : forall t, t = "int *" \/ t = "unsigned char *" ->
                         t ∉ ["BCRYPT_KEY_HANDLE"; "BCRYPT_ALG_HANDLE"]).
  { intros t Ht H. apply elem_of_cons in H as [H|H].
    - subst t. destruct Ht as [Ht|Ht]; discriminate Ht.
    - apply elem_of_cons in H as [H|H].
      + subst t. destruct Ht as [Ht|Ht]; discriminate Ht.
      + by apply elem_of_nil in H. }
  split.
  - apply (proj1 (X15_cffi_new_integer_roundtrip 0 "int *" 4 true (-5) (Cffi.State [x01] ∅)
                    ltac:(vm_compute; reflexivity) (Hh _ (or_introl eq_refl)))).
    vm_compute; reflexivity.
  - apply (proj2 (X15_cffi_new_integer_roundtrip 0 "unsigned char *" 1 false 256
                    (Cffi.State [x01] ∅)
                    ltac:(vm_compute; reflexivity) (Hh _ (or_intror eq_refl)))).
    vm_compute. discriminate.
Defined.

(** X16 ([new], [unwrap], [is_null], both engines): what a new pointer
    object made without an initial value holds is null.  Under cffi, for a
    pointer-to-pointer type, the unwrapped entry is null.  Under ctypes, for
    [T *] with [T] a simple or a pointer type, the unwrapped instance is
    null while the pointer that [new] returned is not. *)
Theorem X16_fresh_handle_is_null :
  (forall (library : Cffi.library) (type_ : string) (t : Cffi.ctype) (s : Cffi.state),
      Cffi.typeof (default Cffi.ffi (Cffi._ffi_registry s !! library)) type_
        = Some (Cffi.CPtr (Cffi.CPtr t)) ->
      type_ ∉ ["BCRYPT_KEY_HANDLE"; "BCRYPT_ALG_HANDLE"] ->
      exists s',
        (let! p := Cffi.new library type_ VNone in
         let! handle := Cffi.unwrap p in
         Cffi.is_null handle) s = Ok (true, s'))
  /\ (forall (platform : string)
             (type_call : Ctypes.ctype -> Ctypes.val -> M Mem.heap Ctypes.val)
             (library : Ctypes.library) (type_ : string) (t : Ctypes.ctype)
             (h : Mem.heap),
      Ctypes._is_pointer_type platform library type_ = Ok (true, t) ->
      Ctypes.is_simple t = true \/ (exists t', t = Ctypes.POINTER t') ->
      (N.of_nat (S (length h)) < 2 ^ 64)%N ->
      exists h',
        (let! p := Ctypes.new platform type_call library type_ VNone in
         let! handle := Ctypes.unwrap p in
         let! handle_null := Ctypes.is_null handle in
         let! p_null := Ctypes.is_null p in
         ret (handle_null, p_null)) h = Ok ((true, false), h')).
Proof.
  split.
  - intros library type_ t s Hty Hin. eexists.
    unfold bind at 1. unfold Cffi.new. unfold bind at 1. rewrite cffi_get_ffi.
    rewrite bool_decide_false by done. cbn [Cffi.ffi_new_args].
    unfold Cffi.ffi_new. rewrite Hty. cbn [Cffi.sizeof_type].
    unfold bind at 1. unfold malloc.
    cbn [Mem.alloc get_heap set_heap Cffi.state_HasHeap Cffi.heap Cffi._ffi_registry].
    unfold bind at 1. cbn [ret].
    unfold bind at 1. unfold Cffi.unwrap, Cffi.getitem.
    rewrite decide_False by lia. cbn [Cffi.item_offset Nat.mul]. rewrite Nat.add_0_r.
    unfold Cffi.read_item, bind at 1, mload_ptr, bind at 1, mload.
    cbn [get_heap Cffi.state_HasHeap Cffi.heap].
    rewrite (load_zeros _ Mem.ptr_size). cbn [ret].
    reflexivity.
  - intros platform type_call library type_ t h Hty Ht Hb. eexists.
    unfold bind at 1. unfold Ctypes.new. rewrite Hty. cbn [app].
    unfold bind at 1. cbn [pure].
    unfold bind at 1. unfold Ctypes.instantiate, bind at 1, malloc, ret at 1.
    cbn [Mem.alloc get_heap set_heap heap_HasHeap].
    rewrite ctypes_pointer_spec.
    set (sz := Ctypes.sizeof_type t). set (h1 := h ++ Mem.zeros sz).
    assert (Hp : mload_ptr (S:=Mem.heap) (S (length h1)) (h1 ++ Mem.encode_ptr (S (length h)))
                 = Ok (S (length h), h1 ++ Mem.encode_ptr (S (length h)))).
    { rewrite <- (app_nil_r (Mem.encode_ptr _)). by apply load_ptr_fresh. }
    unfold bind at 1. unfold Ctypes.unwrap, Ctypes.contents.
    unfold bind at 1. rewrite Hp. rewrite decide_False by lia. cbn [ret].
    assert (Hn : Ctypes.is_null (VForeign (Ctypes.CObj t (S (length h))))
                   (h1 ++ Mem.encode_ptr (S (length h)))
                 = Ok (true, h1 ++ Mem.encode_ptr (S (length h)))).
    { unfold Ctypes.is_null, Ctypes.truthy.
      destruct Ht as [Ht|[t' ->]].
      - destruct t; try discriminate Ht;
          unfold bind, mload, ret; cbn [get_heap heap_HasHeap];
          unfold h1, sz; rewrite load_zeros_app; reflexivity.
      - unfold bind, mload_ptr, bind, mload, ret. cbn [get_heap heap_HasHeap].
        unfold h1, sz. cbn [Ctypes.sizeof_type]. rewrite load_zeros_app. reflexivity. }
    unfold bind at 1. rewrite Hn.
    unfold bind at 1. unfold Ctypes.is_null at 1, Ctypes.truthy.
    unfold bind at 1. unfold bind at 1. rewrite Hp. cbn [ret].
    rewrite bool_decide_false by lia. reflexivity.
Qed.

Lemma X16_fresh_handle_is_null_witness :
  (exists s',
      (let! p := Cffi.new 0 "void **" VNone in
       let! handle := Cffi.unwrap p in
       Cffi.is_null handle) (Cffi.State [x01] ∅) = Ok (true, s'))
  /\ (exists h',
      (let! p := Ctypes.new "linux" (fun _ _ => raise TypeError) ∅ "int *" VNone in
       let! handle := Ctypes.unwrap p in
       let! handle_null := Ctypes.is_null handle in
       let! p_null := Ctypes.is_null p in
       ret (handle_null, p_null)) [x01] = Ok ((true, false), h')).
Proof.
  split.
  - apply (proj1 X16_fresh_handle_is_null 0 "void **" Cffi.CVoid).
    + vm_compute; reflexivity.
    + intros H. apply elem_of_cons in H as [H|H]; [discriminate H|].
      apply elem_of_cons in H as [H|H]; [discriminate H|].
      by apply elem_of_nil in H.
  - apply (proj2 X16_fresh_handle_is_null "linux" (fun _ _ => raise TypeError) ∅ "int *"
             Ctypes.c_int).
    + vm_compute; reflexivity.
    + left. reflexivity.
    + vm_compute; reflexivity.
Defined.

(** X17 (cffi [is_null]): it is defined on cdata that can be indexed only.
    On the host's [None] or an integer, and on a non-null [void *] (the
    type of [ffi.NULL] itself), the test [point[0]] raises [TypeError]. *)
Theorem X17_cffi_is_null_raises (s : Cffi.state) :
  Cffi.is_null VNone s = Raise TypeError
  /\ (forall z, Cffi.is_null (VInt z) s = Raise TypeError)
  /\ (forall a, a <> 0 ->
        Cffi.is_null (VForeign (Cffi.CRef (Cffi.CPtr Cffi.CVoid) a)) s = Raise TypeError).
Proof.
  split; [done|]. split; [done|].
  intros a Ha. unfold Cffi.is_null. cbn [Cffi.eq_NULL].
  rewrite bool_decide_false by done. unfold bind. cbn [Cffi.getitem].
  by rewrite decide_False by done.
Qed.

Lemma X17_cffi_is_null_raises_witness :
  Cffi.is_null (VForeign (Cffi.CRef (Cffi.CPtr Cffi.CVoid) 1)) (Cffi.State [x01] ∅)
  = Raise TypeError.
Proof.
  apply (proj2 (proj2 (X17_cffi_is_null_raises (Cffi.State [x01] ∅))) 1). lia.
Defined.

(* ===================================================================== *)
(** ** Arrays *)
(* ===================================================================== *)

(** X18 (ctypes [array_from_pointer]): the pointer flag that
    [_is_pointer_type] returns is dropped, so for a base name [B] that has
    no pointer suffix of its own and with ['B *'] not a known pointer name,
    the names ['B *'] and [B] give the same result: the items are read as
    [B]s, not as pointers to [B]. *)
Theorem X18_ctypes_array_drops_indirection (platform : string) (library : Ctypes.library)
    (b : string) (point : Ctypes.val) (size : nat) (h : Mem.heap) :
  Ctypes._pointer_types platform !! (b +:+ " *") = None ->
  slice_last 3 b <> " **" ->
  slice_last 2 b <> " *" ->
  Ctypes.array_from_pointer platform library (b +:+ " *") point size h
  = Ctypes.array_from_pointer platform library b point size h.
Proof.
  intros Hn H3 H2. unfold Ctypes.array_from_pointer.
  rewrite is_pointer_type_single by done.
  rewrite is_pointer_type_plain by done.
  by destruct (Ctypes.resolve platform library b).
Qed.

Lemma X18_ctypes_array_drops_indirection_witness :
  Ctypes.array_from_pointer "linux" ∅ ("int" +:+ " *") (VInt 1) 1 [x07; x00; x00; x00]
  = Ctypes.array_from_pointer "linux" ∅ "int" (VInt 1) 1 [x07; x00; x00; x00].
Proof.
  apply X18_ctypes_array_drops_indirection.
  - vm_compute; reflexivity.
  - vm_compute. discriminate.
  - vm_compute. discriminate.
Defined.

Lemma for_each_length {S A B} (f : A -> M S B) (xs : list A) (s s' : S) (ys : list B) :
  for_each f xs s = Ok (ys, s') -> length ys = length xs.
Proof.
  revert s ys. induction xs as [|x xs IH]; intros s ys; cbn.
  - by intros [= <- <-].
  - unfold bind at 1. destruct (f x s) as [[y s1]|]; [|discriminate].
    unfold bind at 1. destruct (for_each f xs s1) as [[ys' s2]|] eqn:E; [|discriminate].
    intros [= <- <-]. cbn. f_equal. by eapply IH.
Qed.

Lemma ffi_cast_type (ffi_obj : Cffi.ffi_obj) (cdecl : string) (v r : Cffi.val)
    (s s' : Cffi.state) :
  Cffi.ffi_cast ffi_obj cdecl v s = Ok (r, s') ->
  exists t, Cffi.typeof ffi_obj cdecl = Some t
            /\ ((exists a, r = VForeign (Cffi.CRef t a))
                \/ (exists z, r = VForeign (Cffi.CNum t z))).
Proof.
  unfold Cffi.ffi_cast. destruct (Cffi.typeof ffi_obj cdecl) as [t|]; [|discriminate].
  intros H. exists t. split; [done|].
  destruct t as [| | | | |? [?|]|]; try discriminate;
    unfold bind in H; destruct (Cffi.cast_source v s) as [[z s0]|];
    try discriminate; injection H as <- _; eauto.
Qed.

(** X19 ([array_from_pointer], both engines; [size] is a count): a call
    that returns gives [size] items.  Under cffi the declaration
    ['name[size]'] is then a type of known size [total_bytes], and the
    result is empty exactly as the code's guard says: it is [[]] when
    [total_bytes] is zero and has [size] items when it is not. *)
Theorem X19_array_length :
  (forall (library : Cffi.library) (name : string) (point : Cffi.val) (size : nat)
          (s s' : Cffi.state) (xs : list Cffi.val),
      Cffi.array_from_pointer library name point size s = Ok (xs, s') ->
      exists (t : Cffi.ctype) (total_bytes : nat),
        Cffi.typeof (default Cffi.ffi (Cffi._ffi_registry s !! library))
          (name +:+ "[" +:+ str_of_nat size +:+ "]") = Some t
        /\ Cffi.sizeof_type t = Some total_bytes
        /\ (total_bytes = 0 -> xs = [])
        /\ (total_bytes <> 0 -> length xs = size))
  /\ (forall (platform : string) (library : Ctypes.library) (name : string)
             (point : Ctypes.val) (size : nat) (h h' : Mem.heap) (xs : list Ctypes.val),
      Ctypes.array_from_pointer platform library name point size h = Ok (xs, h') ->
      length xs = size).
Proof.
  split.
  - intros library name point size s s' xs. unfold Cffi.array_from_pointer.
    unfold bind at 1. rewrite cffi_get_ffi.
    unfold bind at 1.
    destruct (Cffi.ffi_cast _ _ point s) as [[arr s1]|] eqn:Ec; [|discriminate].
    apply ffi_cast_type in Ec as (t & Ht & Harr).
    unfold bind at 1.
    destruct (Cffi.ffi_sizeof _ arr s1) as [[total s2]|] eqn:Ez; [|discriminate].
    intros H. exists t, total. split; [done|]. split.
    { destruct Harr as [[a ->]|[z ->]]; cbn [Cffi.ffi_sizeof] in Ez;
        unfold lift, ret, raise in Ez; destruct (Cffi.sizeof_type t); cbn in Ez;
        congruence. }
    case_decide as Hz.
    + injection H as <- _. split; [done|]. intros; lia.
    + apply for_each_length in H. rewrite length_seq in H. split; [intros; lia|done].
  - intros platform library name point size h h' xs. unfold Ctypes.array_from_pointer.
    unfold bind at 1.
    destruct (pure _ h) as [[[b t] h1]|]; [|discriminate].
    unfold bind at 1. destruct (Ctypes.ctypes_cast _ _ _) as [[arr h2]|]; [|discriminate].
    intros H. apply for_each_length in H. by rewrite length_seq in H.
Qed.

Lemma X19_array_length_witness :
  (exists (t : Cffi.ctype) (total_bytes : nat),
      Cffi.typeof (default Cffi.ffi ((∅ : gmap nat Cffi.ffi_obj) !! 0))
        ("int" +:+ "[" +:+ str_of_nat 1 +:+ "]") = Some t
      /\ Cffi.sizeof_type t = Some total_bytes
      /\ (total_bytes = 0 -> [VInt (F:=Cffi.cdata) 7] = [])
      /\ (total_bytes <> 0 -> length [VInt (F:=Cffi.cdata) 7] = 1))
  /\ length [VInt (F:=Ctypes.cobj) 7] = 1.
Proof.
  split.
  - apply (proj1 X19_array_length 0 "int" (VInt 1) 1
             (Cffi.State [x07; x00; x00; x00] ∅) (Cffi.State [x07; x00; x00; x00] ∅)).
    vm_compute; reflexivity.
  - apply (proj2 X19_array_length "linux" ∅ "int" (VInt 1) 1 [x07; x00; x00; x00]
             ([x07; x00; x00; x00] ++ Mem.encode_ptr 1)).
    vm_compute; reflexivity.
Defined.

Lemma build_is_array (ds : list (option nat)) (t0 t : Cffi.ctype) :
  ds <> [] -> Cffi.build ds t0 = Some t -> exists e k, t = Cffi.CArr e k.
Proof.
  revert t0. induction ds as [|d ds IH]; intros t0 Hne; [done|].
  cbn [Cffi.build]. destruct (Cffi.sizeof_type t0); [|done].
  destruct ds as [|d' ds].
  - cbn. intros [= <-]. eauto.
  - apply IH. done.
Qed.

Lemma typeof_array (ffi_obj : Cffi.ffi_obj) (name : string) (t : Cffi.ctype) (n : nat) :
  Cffi.typeof ffi_obj name = Some t ->
  is_Some (Cffi.sizeof_type t) ->
  (forall e k, t <> Cffi.CArr e k) ->
  Cffi.typeof ffi_obj (name +:+ "[" +:+ str_of_nat n +:+ "]")
  = Some (Cffi.CArr t (Some n)).
Proof.
  unfold Cffi.typeof. intros Ht [sz Hs] Hna.
  rewrite !chars_append. change (chars "[") with ["["%char]. change (chars "]") with ["]"%char].
  rewrite !rev_app_distr. cbn [rev app]. rewrite <- !app_assoc. cbn [app].
  set (rs := rev (chars name)) in *.
  destruct (Cffi.split_dims (S (length rs)) rs) as [[ds base]|] eqn:Hd; [|done].
  cbn in Ht.
  destruct (Cffi.parse_ptr ffi_obj base) as [t0|] eqn:Hp; [|done]. cbn in Ht.
  assert (ds = []) as ->.
  { destruct ds as [|d ds]; [done|].
    destruct (build_is_array (d :: ds) t0 t) as (e & k & ->); [done..|].
    by destruct (Hna e k). }
  cbn in Ht. injection Ht as ->.
  destruct (decimal_str_of_nat n) as (Hdec & Hnb & Hne).
  rewrite split_dims_bracket.
  rewrite read_dim_digits by done. rewrite app_nil_r. cbn [mbind option_bind].
  rewrite (dim_of_decimal _ n) by done. cbn [mbind option_bind].
  rewrite (split_dims_mono _ _ _ _ Hd)
    by (cbn [length]; rewrite length_app; cbn [length]; lia).
  cbn [mbind option_bind]. rewrite Hp. cbn [mbind option_bind Cffi.build]. by rewrite Hs.
Qed.

Lemma load_item (a n i : nat) (h : Mem.heap) (bs : list byte) (b : byte) :
  Mem.load a n h = Some bs -> bs !! i = Some b -> Mem.load (a + i) 1 h = Some [b].
Proof.
  unfold Mem.load. destruct n as [|n]; [by intros [= <-]|].
  destruct a as [|k]; [done|]. case_decide; [|done]. intros [= <-] Hi.
  apply lookup_take_Some in Hi as [Hi Hlt]. rewrite lookup_drop in Hi.
  cbn [Nat.add]. rewrite decide_True by (apply lookup_lt_Some in Hi; lia).
  by rewrite (drop_S _ _ _ Hi).
Qed.

Lemma for_each_pure {S A B} (f : A -> M S B) (g : A -> B) (xs : list A) (s : S) :
  (forall x, x ∈ xs -> f x s = Ok (g x, s)) ->
  for_each f xs s = Ok (g <$> xs, s).
Proof.
  induction xs as [|x xs IH]; intros Hf; [done|].
  cbn [for_each]. unfold bind at 1. rewrite Hf by left.
  unfold bind at 1. rewrite IH by (intros; apply Hf; by right). done.
Qed.

Lemma fmap_seq_lookup {A B} (f : A -> B) (d : B) (l : list A) :
  (fun i => match l !! i with Some x => f x | None => d end) <$> seq 0 (length l)
  = f <$> l.
Proof.
  apply list_eq. intros i. rewrite !list_lookup_fmap.
  destruct (decide (i < length l)) as [Hi|Hi].
  - rewrite lookup_seq_lt by done. cbn.
    destruct (lookup_lt_is_Some_2 l i Hi) as [x Hx]. by rewrite Hx.
  - rewrite lookup_seq_ge by lia. by rewrite lookup_ge_None_2 by lia.
Qed.

Lemma decode_unsigned_byte (b : byte) : Mem.decode_int false [b] = Z.of_N (Byte.to_N b).
Proof. by destruct b. Qed.

(** X20 (cffi [array_from_pointer]): for a name that declares the one-byte
    unsigned integer type and is not a string type, the result is the
    [size] bytes at the pointer's address as integers, in memory order, for
    every [size] (the declaration ['name[size]'] is parsed for every
    decimal [size]); nothing is changed. *)
Theorem X20_cffi_array_memory_order (s : Cffi.state) (library : Cffi.library)
    (name : string) (t : Cffi.ctype) (a size : nat) (bs : list byte) :
  Cffi.typeof (default Cffi.ffi (Cffi._ffi_registry s !! library)) name
    = Some (Cffi.CInt 1 false) ->
  Cffi.string_types !! name = None ->
  Mem.load a size (Cffi.heap s) = Some bs ->
  (N.of_nat a < 2 ^ 64)%N ->
  Cffi.array_from_pointer library name (VForeign (Cffi.CRef (Cffi.CPtr t) a)) size s
  = Ok (VInt <$> bytes_to_list bs, s).
Proof.
  intros Hty Hst Hload Ha.
  pose proof (load_length _ _ _ _ Hload) as Hlen.
  unfold Cffi.array_from_pointer. unfold bind at 1. rewrite cffi_get_ffi.
  unfold bind at 1. unfold Cffi.ffi_cast.
  rewrite (typeof_array _ _ _ size Hty) by (cbn; eauto || congruence).
  unfold bind at 1. cbn [Cffi.cast_source ret]. rewrite addr_of_int_nat by done.
  unfold bind at 1. cbn [Cffi.ffi_sizeof Cffi.sizeof_type fmap option_fmap option_map
                          lift ret].
  rewrite Nat.mul_1_r. case_decide as Hz.
  - subst size. destruct bs; [done|discriminate].
  - rewrite Hst. rewrite bool_decide_false by (by intros [? ?]).
    rewrite (for_each_pure _
               (fun i => match bs !! i with
                         | Some b => VInt (Z.of_N (Byte.to_N b))
                         | None => VNone
                         end)).
    + rewrite <- Hlen. rewrite fmap_seq_lookup. unfold bytes_to_list.
      by rewrite <- list_fmap_compose.
    + intros i Hi. apply elem_of_seq in Hi as [_ Hi]. cbn [Nat.add] in Hi.
      destruct (lookup_lt_is_Some_2 bs i) as [b Hb]; [lia|]. rewrite Hb.
      unfold bind at 1. cbn [Cffi.getitem]. rewrite decide_True by done.
      unfold Cffi.item_offset. cbn [Cffi.sizeof_type default]. unfold id.
      rewrite Nat.mul_1_r.
      unfold Cffi.read_item, bind, mload, ret. cbn [get_heap Cffi.state_HasHeap].
      rewrite (load_item _ _ _ _ _ _ Hload Hb). by rewrite decode_unsigned_byte.
Qed.

Lemma X20_cffi_array_memory_order_witness :
  Cffi.array_from_pointer 0 "unsigned char"
    (VForeign (Cffi.CRef (Cffi.CPtr Cffi.CVoid) 2)) 2 (Cffi.State [x01; x02; x03] ∅)
  = Ok (VInt <$> bytes_to_list [x02; x03], Cffi.State [x01; x02; x03] ∅).
Proof.
  apply X20_cffi_array_memory_order.
  - vm_compute; reflexivity.
  - vm_compute; reflexivity.
  - vm_compute; reflexivity.
  - vm_compute; reflexivity.
Defined.

(** X21 (ctypes [array_from_pointer]): for a name that resolves to [c_char]
    and a character buffer as the pointer, the result is the [size] bytes
    at the buffer's address as one-byte strings, in memory order; the only
    change to foreign memory is the pointer instance that [ctypes.cast]
    allocates. *)
Theorem X21_ctypes_array_memory_order (platform : string) (library : Ctypes.library)
    (name : string) (flag : bool) (n a size : nat) (h : Mem.heap) (bs : list byte) :
  Ctypes._is_pointer_type platform library name = Ok (flag, Ctypes.c_char) ->
  Mem.load a size h = Some bs ->
  (N.of_nat a < 2 ^ 64)%N ->
  Ctypes.array_from_pointer platform library name
    (VForeign (Ctypes.CObj (Ctypes.ARRAY Ctypes.c_char n) a)) size h
  = Ok ((fun b => VBytes [b]) <$> bs, h ++ Mem.encode_ptr a).
Proof.
  intros Hty Hload Ha.
  pose proof (load_length _ _ _ _ Hload) as Hlen.
  unfold Ctypes.array_from_pointer. rewrite Hty.
  unfold bind at 1. cbn [pure].
  unfold bind at 1. unfold Ctypes.ctypes_cast. cbn [Ctypes.is_pointer_type].
  unfold bind at 1. cbn [Ctypes.as_voidp ret].
  unfold bind at 1. unfold malloc. cbn [Mem.alloc get_heap set_heap heap_HasHeap].
  unfold bind at 1. unfold mstore. cbn [get_heap set_heap heap_HasHeap].
  rewrite <- (length_encode_ptr a). rewrite store_fresh_exact. cbn [ret].
  rewrite (for_each_pure _
             (fun i => match bs !! i with
                       | Some b => VBytes [b]
                       | None => VNone
                       end)).
  - rewrite <- Hlen. by rewrite fmap_seq_lookup.
  - intros i Hi. apply elem_of_seq in Hi as [_ Hi]. cbn [Nat.add] in Hi.
    destruct (lookup_lt_is_Some_2 bs i) as [b Hb]; [lia|]. rewrite Hb.
    cbn [Ctypes.getitem]. unfold bind at 1.
    rewrite <- (app_nil_r (Mem.encode_ptr a)) at 1 2.
    rewrite load_ptr_fresh by done. rewrite app_nil_r.
    assert (a <> 0) by (intros ->; destruct size; [cbn in Hlen, Hi; lia|done]).
    rewrite decide_False by done.
    unfold Ctypes.item_at. cbn [Ctypes.is_simple Ctypes.sizeof_type Ctypes.read_simple].
    rewrite Nat.mul_1_r. unfold bind, mload, ret. cbn [get_heap heap_HasHeap].
    by rewrite (load_app _ _ _ _ _ (load_item _ _ _ _ _ _ Hload Hb)).
Qed.

Lemma X21_ctypes_array_memory_order_witness :
  let library : Ctypes.library := {[ "BYTE" := Ctypes.c_char ]} in
  Ctypes.array_from_pointer "linux" library "BYTE"
    (VForeign (Ctypes.CObj (Ctypes.ARRAY Ctypes.c_char 3) 2)) 2 [x01; x02; x03]
  = Ok ((fun b => VBytes [b]) <$> [x02; x03], [x01; x02; x03] ++ Mem.encode_ptr 2).
Proof.
  intros library. apply (X21_ctypes_array_memory_order "linux" library "BYTE" false).
  - vm_compute; reflexivity.
  - vm_compute; reflexivity.
  - vm_compute; reflexivity.
Defined.

Lemma byte_roundtrip (b : byte) : Mem.encode_int 1 (Z.of_N (Byte.to_N b)) = [b].
Proof. by destruct b. Qed.

Lemma set_c_bytes_fresh (bs : list byte) (h : Mem.heap) :
  Ctypes.set_c_bytes (S (length h)) (VInt <$> bytes_to_list bs) (h ++ Mem.zeros (length bs))
  = Ok (tt, h ++ bs).
Proof.
  revert h. induction bs as [|b bs IH]; intros h.
  - cbn. by rewrite app_nil_r.
  - cbn [bytes_to_list fmap list_fmap Ctypes.set_c_bytes length].
    unfold bind at 1. unfold Ctypes.set_c_byte, mstore. cbn [get_heap set_heap heap_HasHeap].
    rewrite byte_roundtrip.
    rewrite store_fresh by (cbn; lia).
    cbn [length]. replace (S (length bs) - 1) with (length bs) by lia.
    specialize (IH (h ++ [b])). rewrite length_app in IH. cbn [length] in IH.
    replace (length h + 1) with (S (length h)) in IH by lia.
    rewrite <- !app_assoc in IH. exact IH.
Qed.

(** X22 (ctypes [byte_array] and [native]): [byte_array] copies a byte
    string into a new [c_byte] array of its length, and
    [native(byte_cls, array)] reads the same byte string back (bytes above
    127 included); the array is all that is allocated. *)
Theorem X22_ctypes_byte_array_roundtrip
    (host_call : pytype -> Ctypes.val -> outcome Ctypes.val)
    (bs : list byte) (h : Mem.heap) :
  (N.of_nat (S (length h)) < 2 ^ 64)%N ->
  (let! arr := Ctypes.byte_array (VBytes bs) in Ctypes.native host_call byte_cls arr) h
  = Ok (VBytes bs, h ++ bs).
Proof.
  intros Hb. unfold bind at 1. unfold Ctypes.byte_array, Ctypes.items_of.
  unfold bind at 1. cbn [ret].
  assert (Hl : length (VInt (F:=Ctypes.cobj) <$> bytes_to_list bs) = length bs).
  { unfold bytes_to_list. by rewrite !length_fmap. }
  unfold Ctypes.c_byte_array. rewrite Hl. rewrite decide_True by done.
  unfold bind at 1. unfold Ctypes.instantiate, bind at 1, malloc, ret at 1.
  cbn [Mem.alloc get_heap set_heap heap_HasHeap Ctypes.sizeof_type].
  rewrite Nat.mul_1_r. unfold bind at 1. rewrite set_c_bytes_fresh. cbn [ret].
  unfold Ctypes.native. cbn [isinstance].
  unfold bind at 1. cbn [Ctypes.addressof ret].
  unfold Ctypes.string_at. unfold bind at 1. cbn [Ctypes.as_voidp ret].
  rewrite addr_of_int_nat by done.
  unfold bind, mload, ret. cbn [get_heap heap_HasHeap].
  rewrite <- (app_nil_r bs) at 2. by rewrite load_fresh_exact.
Qed.

Lemma X22_ctypes_byte_array_roundtrip_witness :
  (let! arr := Ctypes.byte_array (VBytes [x01; xff]) in
   Ctypes.native (fun _ v => Ok v) byte_cls arr) [x09]
  = Ok (VBytes [x01; xff], [x09] ++ [x01; xff]).
Proof.
  apply X22_ctypes_byte_array_roundtrip. vm_compute; reflexivity.
Defined.

(* ===================================================================== *)
(** ** Reading at an address *)
(* ===================================================================== *)

(** X23 (ctypes [bytes_from_buffer]): an integer address or a [c_char_p]
    is read with [string_at(buffer, maxlen)], so [maxlen] must be given:
    with the default [None] the call never returns a value.  With [maxlen]
    given, an integer address yields the [maxlen] bytes stored there and
    changes nothing. *)
Theorem X23_ctypes_address_needs_maxlen (buffer : Ctypes.val) (h : Mem.heap) :
  (exists z, buffer = VInt z)
  \/ (exists a, buffer = VForeign (Ctypes.CObj Ctypes.c_char_p a)) ->
  (forall r h', Ctypes.bytes_from_buffer buffer None h <> Ok (r, h'))
  /\ (forall (z : Z) (n : nat) (bs : list byte),
        buffer = VInt z ->
        Mem.load (Mem.addr_of_int z) n h = Some bs ->
        Ctypes.bytes_from_buffer buffer (Some n) h = Ok (VBytes bs, h)).
Proof.
  intros Hb. split.
  - intros r h'. destruct Hb as [[z ->]|[a ->]].
    + discriminate.
    + unfold Ctypes.bytes_from_buffer, Ctypes.string_at, bind.
      destruct (Ctypes.as_voidp _ h) as [[p h1]|]; discriminate.
  - intros z n bs -> Hl.
    unfold Ctypes.bytes_from_buffer, Ctypes.string_at, bind, mload, ret.
    cbn [Ctypes.as_voidp ret get_heap heap_HasHeap]. by rewrite Hl.
Qed.

Lemma X23_ctypes_address_needs_maxlen_witness :
  (forall r h', Ctypes.bytes_from_buffer (VInt 2) None [x41; x42; x43] <> Ok (r, h'))
  /\ Ctypes.bytes_from_buffer (VInt 2) (Some 2) [x41; x42; x43]
     = Ok (VBytes [x42; x43], [x41; x42; x43]).
Proof.
  assert (Hb : (exists z, VInt (F:=Ctypes.cobj) 2 = VInt z)
               \/ (exists a, VInt 2 = VForeign (Ctypes.CObj Ctypes.c_char_p a)))
    by (left; by exists 2%Z).
  split.
  - exact (proj1 (X23_ctypes_address_needs_maxlen (VInt 2) [x41; x42; x43] Hb)).
  - apply (proj2 (X23_ctypes_address_needs_maxlen (VInt 2) [x41; x42; x43] Hb) 2%Z 2).
    + reflexivity.
    + vm_compute; reflexivity.
Defined.
